(** * autotest test-specification parser: a shallow embedding of [parser.py]

    The parser reads a test specification line by line and returns the tests
    as a list of dicts.  This file has, in order:

    - the outcome of a call ([result]: a value or a raised exception) and
      helpers on text;
    - the parts of Python's library that the parser calls: the generator of
      the [tokenize] module, [ast.literal_eval] on string tokens, [eval] and
      [str.isidentifier], each described for a stated fragment of its inputs
      and answering [Unmodelled] outside it;
    - the Python objects in a value list ([pyval]) and the functions of the
      source, [stringize], [parse_line_assignments], [parse_values] and
      [parse_stream], transcribed statement by statement;
    - the properties proved of them.

    Dicts keyed by parameter names ([assignments], [global_variables], a
    test) are [gmap string pyval]; a dict display evaluated by [eval] keeps
    its insertion order as a list of pairs; Python lists are [list]. *)

From Stdlib Require Import Ascii String ZArith Lia.
From stdpp Require Import gmap strings list fin_maps pretty.

Local Open Scope string_scope.
Local Open Scope list_scope.

(** ** Outcomes *)

(** The exceptions the parser can meet.  [TestSpecificationError] is the
    parser's own class and carries its message; the others are Python's. *)
Inductive exn :=
  | TestSpecificationError (msg : string)
  | TokenError
  | SyntaxError
  | IndentationError
  | TypeError.

(** Outcome of a call: a value, a raised exception, or [Unmodelled] when the
    input leaves the fragment of Python's library that this file describes
    (nothing is claimed about such inputs). *)
Inductive result (A : Type) :=
  | Ok (a : A)
  | Raise (e : exn)
  | Unmodelled.
Arguments Ok {A} a.
Arguments Raise {A} e.
Arguments Unmodelled {A}.

(** ** Text helpers

    Python [str] objects are modelled by [string]; one [ascii] stands for one
    character with code point below 256. *)

Fixpoint span (p : ascii -> bool) (s : string) : string * string :=
  match s with
  | EmptyString => (EmptyString, EmptyString)
  | String c r =>
      if p c then let '(a, b) := span p r in (String c a, b)
      else (EmptyString, s)
  end.

Fixpoint str_drop (n : nat) (s : string) : string :=
  match n, s with
  | O, _ => s
  | S n, String _ r => str_drop n r
  | S _, EmptyString => EmptyString
  end.

Fixpoint str_take (n : nat) (s : string) : string :=
  match n, s with
  | S n, String c r => String c (str_take n r)
  | _, _ => EmptyString
  end.

Fixpoint str_last (s : string) : option ascii :=
  match s with
  | EmptyString => None
  | String c EmptyString => Some c
  | String _ r => str_last r
  end.

(** [sub in s] on strings. *)
Fixpoint str_in (sub s : string) : bool :=
  String.prefix sub s ||
  match s with
  | EmptyString => false
  | String _ r => str_in sub r
  end.

(** [c in chars] for a character [c]. *)
Fixpoint char_in (c : ascii) (chars : string) : bool :=
  match chars with
  | EmptyString => false
  | String d r => (c =? d)%char || char_in c r
  end.

Definition LF : ascii := "010"%char.
Definition CR : ascii := "013"%char.
Definition TAB : ascii := "009"%char.
Definition FF : ascii := "012"%char.
Definition BACKSLASH : ascii := "\"%char.
Definition QUOTE : ascii := "'"%char.
Definition DQUOTE : ascii := ascii_of_nat 34.

Definition is_digit (c : ascii) : bool :=
  let n := nat_of_ascii c in ((48 <=? n) && (n <=? 57))%nat.
Definition is_letter (c : ascii) : bool :=
  let n := nat_of_ascii c in
  (((65 <=? n) && (n <=? 90)) || ((97 <=? n) && (n <=? 122)))%nat.
Definition is_7bit (c : ascii) : bool := (nat_of_ascii c <? 128)%nat.
Definition is_name_start (c : ascii) : bool := is_letter c || (c =? "_")%char.
Definition is_name_char (c : ascii) : bool := is_name_start c || is_digit c.

Fixpoint forallb_string (p : ascii -> bool) (s : string) : bool :=
  match s with
  | EmptyString => true
  | String c r => p c && forallb_string p r
  end.

(** Lines as [io.StringIO(text).readline] and iteration over a text stream
    deliver them: each ends with its line feed, the last one may not. *)
Fixpoint readlines (text : string) : list string :=
  match text with
  | EmptyString => []
  | String c r =>
      if (c =? LF)%char then String c EmptyString :: readlines r
      else
        match readlines r with
        | [] => [String c EmptyString]
        | l :: ls => String c l :: ls
        end
  end.

(** ** Python's [tokenize] module

    [parse_values] drives [tokenize.generate_tokens], which is library code.
    This module transcribes the generator [_tokenize] of CPython's
    [Lib/tokenize.py] (3.8 to 3.11; the regular expressions [PseudoToken] and
    [endpats] are written out as scanners) for the following fragment, and
    ends the token stream with [TUnmodelled] when the text leaves it:

    - numbers are decimal integers (a digit run followed by one of [._eEjJ],
      or [0] followed by one of [xXoObB], is left out);
    - string literals have no prefix and no backslash;
    - a character above 127 occurs only in comments and string literals.

    A generator is a [token_stream]: the tokens it yields, then its end, the
    exception it raises, or [TUnmodelled]. *)
Module tokenize.

Inductive token_type :=
  | COMMENT | DEDENT | ENCODING | ENDMARKER | ERRORTOKEN | INDENT
  | NAME | NEWLINE | NL | NUMBER | OP | STRING.

Definition token_type_eqb (a b : token_type) : bool :=
  match a, b with
  | COMMENT, COMMENT | DEDENT, DEDENT | ENCODING, ENCODING
  | ENDMARKER, ENDMARKER | ERRORTOKEN, ERRORTOKEN | INDENT, INDENT
  | NAME, NAME | NEWLINE, NEWLINE | NL, NL | NUMBER, NUMBER | OP, OP
  | STRING, STRING => true
  | _, _ => false
  end.

(** [TokenInfo] without its [line] field, which the parser never reads. *)
Record TokenInfo := mkToken {
  t_type : token_type;
  t_string : string;
  t_start : nat * nat;
  t_end : nat * nat
}.

Inductive token_stream :=
  | TCons (token : TokenInfo) (rest : token_stream)
  | TEnd
  | TRaise (e : exn)
  | TUnmodelled.

Fixpoint prepend (tokens : list TokenInfo) (rest : token_stream) : token_stream :=
  match tokens with
  | [] => rest
  | t :: ts => TCons t (prepend ts rest)
  end.

(** [Whitespace = r'[ \f\t]*'] *)
Definition is_blank (c : ascii) : bool :=
  (c =? " ")%char || (c =? FF)%char || (c =? TAB)%char.

(** [str.isspace] below code point 256, for [last_line.strip()]. *)
Definition py_isspace (c : ascii) : bool :=
  let n := nat_of_ascii c in
  (((9 <=? n) && (n <=? 13)) || ((28 <=? n) && (n <=? 32))
   || (n =? 133) || (n =? 160))%nat.

Definition is_quote (c : ascii) : bool := (c =? QUOTE)%char || (c =? DQUOTE)%char.

(** [Special]: the operators of [EXACT_TOKEN_TYPES], longest first. *)
Definition operators3 : list string := ["**="; "..."; "//="; "<<="; ">>="].
Definition operators2 : list string :=
  ["!="; "%="; "&="; "**"; "*="; "+="; "-="; "->"; "//"; "/="; ":="; "<<";
   "<="; "=="; ">="; ">>"; "@="; "^="; "|="].
Definition operators1 : list string :=
  ["%"; "&"; "("; ")"; "*"; "+"; ","; "-"; "."; "/"; ":"; ";"; "<"; "=";
   ">"; "@"; "["; "]"; "^"; "{"; "|"; "}"; "~"].

Fixpoint first_prefix (candidates : list string) (s : string) : option string :=
  match candidates with
  | [] => None
  | op :: ops => if String.prefix op s then Some op else first_prefix ops s
  end.

Definition match_operator (s : string) : option string :=
  match first_prefix operators3 s with
  | Some op => Some op
  | None =>
      match first_prefix operators2 s with
      | Some op => Some op
      | None => first_prefix operators1 s
      end
  end.

(** [comment_token = line[pos:].rstrip('\r\n')]: the text without its
    trailing carriage returns and line feeds, and those. *)
Fixpoint rstrip_crlf (s : string) : string * string :=
  match s with
  | EmptyString => (EmptyString, EmptyString)
  | String c r =>
      let '(a, b) := rstrip_crlf r in
      match a with
      | EmptyString =>
          if (c =? CR)%char || (c =? LF)%char then (EmptyString, String c b)
          else (String c EmptyString, b)
      | _ => (String c a, b)
      end
  end.

(** The end of a triple-quoted string, [endpats]: the text up to and
    including the first run of three [q], and what follows it. *)
Inductive triple_end :=
  | TripleFound (body rest : string)
  | TripleOpen
  | TripleUnmodelled.

Fixpoint find_triple_end (q : ascii) (s : string) : triple_end :=
  match s with
  | EmptyString => TripleOpen
  | String c r =>
      if (c =? BACKSLASH)%char then TripleUnmodelled
      else if String.prefix (String q (String q (String q EmptyString))) s then
        TripleFound (String q (String q (String q EmptyString))) (str_drop 3 s)
      else
        match find_triple_end q r with
        | TripleFound body rest => TripleFound (String c body) rest
        | other => other
        end
  end.

(** State kept from one physical line to the next. *)
Record tok_state := mkState {
  parenlev : Z;
  continued : bool;
  indents : list nat;          (* innermost first; the last one is 0 *)
  contstr : option (string * (nat * nat) * ascii)
                               (* text so far, [strstart], quote character *)
}.

Definition initial_state : tok_state :=
  {| parenlev := 0; continued := false; indents := [0]; contstr := None |}.

(** How the scan of one physical line ends. *)
Inductive line_end :=
  | LineDone (parenlev : Z) (continued : bool)
  | LineInString (parenlev : Z) (continued : bool) (contstr : string)
      (strstart : nat * nat) (q : ascii)
  | LineUnmodelled.

(** [while pos < max:] over one line; [rest] is [line[pos:]].  Every round
    moves [pos] forward, so [fuel] above the length of [rest] suffices. *)
Fixpoint scan_line (fuel : nat) (lnum pos : nat) (rest : string)
    (parenlev : Z) (continued : bool) : list TokenInfo * line_end :=
  match fuel with
  | O => ([], LineUnmodelled)
  | S fuel =>
      match rest with
      | EmptyString => ([], LineDone parenlev continued)
      | String c0 rest0 =>
          let '(ws, body) := span is_blank rest in
          let start := pos + String.length ws in
          let error_token (_ : unit) :=
            let '(tokens, e) := scan_line fuel lnum (pos + 1) rest0 parenlev continued in
            (mkToken ERRORTOKEN (String c0 EmptyString) (lnum, pos) (lnum, pos + 1) :: tokens, e) in
          let emit ty token after parenlev :=
            let epos := start + String.length token in
            let '(tokens, e) := scan_line fuel lnum epos after parenlev continued in
            (mkToken ty token (lnum, start) (lnum, epos) :: tokens, e) in
          match body with
          | EmptyString => ([], LineDone parenlev continued)      (* [\Z] *)
          | String c body' =>
              if (c =? BACKSLASH)%char then
                if String.prefix (String LF EmptyString) body' then
                  scan_line fuel lnum (start + 2) (str_drop 1 body') parenlev true
                else if String.prefix (String CR (String LF EmptyString)) body' then
                  scan_line fuel lnum (start + 3) (str_drop 2 body') parenlev true
                else error_token tt
              else if (c =? "#")%char then
                let '(comment, after) :=
                  span (fun x => negb ((x =? CR)%char || (x =? LF)%char)) body in
                emit COMMENT comment after parenlev
              else if is_quote c then
                if String.prefix (String c (String c EmptyString)) body' then
                  match find_triple_end c (str_drop 2 body') with
                  | TripleFound inner after =>
                      emit STRING (String c (String c (String c inner))) after parenlev
                  | TripleOpen => ([], LineInString parenlev continued body (lnum, start) c)
                  | TripleUnmodelled => ([], LineUnmodelled)
                  end
                else
                  let '(inner, after) :=
                    span (fun x => negb ((x =? LF)%char || (x =? c)%char
                                         || (x =? BACKSLASH)%char)) body' in
                  match after with
                  | String d after' =>
                      if (d =? c)%char then
                        emit STRING (String c (inner +:+ String c EmptyString)) after' parenlev
                      else if (d =? BACKSLASH)%char then ([], LineUnmodelled)
                      else error_token tt
                  | EmptyString => error_token tt
                  end
              else if is_digit c then
                let '(digits, after) := span is_digit body in
                if match after with
                   | String d _ => char_in d "._eEjJ"
                   | EmptyString => false
                   end then ([], LineUnmodelled)
                else if (c =? "0")%char then
                  if (String.length digits =? 1)%nat &&
                     match after with
                     | String d _ => char_in d "xXoObB"
                     | EmptyString => false
                     end then ([], LineUnmodelled)
                  else
                    let '(zeros, after0) := span (fun x => (x =? "0")%char) body in
                    emit NUMBER zeros after0 parenlev
                else emit NUMBER digits after parenlev
              else if (c =? ".")%char &&
                      match body' with
                      | String d _ => is_digit d
                      | EmptyString => false
                      end then ([], LineUnmodelled)
              else if (c =? LF)%char then
                emit (if (0 <? parenlev)%Z then NL else NEWLINE) (String LF EmptyString) body' parenlev
              else if (c =? CR)%char then
                if String.prefix (String LF EmptyString) body' then
                  emit (if (0 <? parenlev)%Z then NL else NEWLINE)
                       (String CR (String LF EmptyString)) (str_drop 1 body') parenlev
                else error_token tt
              else
                match match_operator body with
                | Some op =>
                    let parenlev' :=
                      if char_in c "([{" then (parenlev + 1)%Z
                      else if char_in c ")]}" then (parenlev - 1)%Z
                      else parenlev in
                    emit OP op (str_drop (String.length op) body) parenlev'
                | None =>
                    if is_name_start c then
                      let '(name, after) := span is_name_char body in
                      match after with
                      | String d _ =>
                          if negb (is_7bit d) then ([], LineUnmodelled)
                          else if is_quote d && (String.length name <=? 2)%nat
                                  && forallb_string (fun x => char_in x "bBrRuUfF") name
                          then ([], LineUnmodelled)
                          else emit NAME name after parenlev
                      | EmptyString => emit NAME name after parenlev
                      end
                    else if negb (is_7bit c) then ([], LineUnmodelled)
                    else error_token tt
                end
          end
      end
  end.

(** [while pos < max: # measure leading whitespace]: the column reached and
    the number of characters passed. *)
Fixpoint measure_indent (column pos : nat) (rest : string) : nat * nat * string :=
  match rest with
  | String c r =>
      if (c =? " ")%char then measure_indent (column + 1) (pos + 1) r
      else if (c =? TAB)%char then measure_indent ((column / 8 + 1) * 8) (pos + 1) r
      else if (c =? FF)%char then measure_indent 0 (pos + 1) r
      else (column, pos, rest)
  | EmptyString => (column, pos, rest)
  end.

(** [while column < indents[-1]:] the [DEDENT] tokens yielded, and the new
    stack, or [None] when [IndentationError] is raised after them. *)
Fixpoint dedent (lnum pos column : nat) (indents : list nat)
    : list TokenInfo * option (list nat) :=
  match indents with
  | top :: below =>
      if (column <? top)%nat then
        if negb (existsb (Nat.eqb column) indents) then ([], None)
        else
          let '(tokens, r) := dedent lnum pos column below in
          (mkToken DEDENT EmptyString (lnum, pos) (lnum, pos) :: tokens, r)
      else ([], Some indents)
  | [] => ([], Some [])
  end.

(** What one round of [while True:] does with the line it has read. *)
Inductive line_outcome :=
  | NextLine (tokens : list TokenInfo) (st : tok_state)   (* read on *)
  | Break (tokens : list TokenInfo)                       (* [break] *)
  | Stop (tokens : list TokenInfo) (e : option exn).      (* raise; [None]: unmodelled *)

Definition after_scan (before : list TokenInfo) (indents : list nat)
    (r : list TokenInfo * line_end) : line_outcome :=
  let '(tokens, e) := r in
  match e with
  | LineDone parenlev continued =>
      NextLine (before ++ tokens) (mkState parenlev continued indents None)
  | LineInString parenlev continued contstr strstart q =>
      NextLine (before ++ tokens)
        (mkState parenlev continued indents (Some (contstr, strstart, q)))
  | LineUnmodelled => Stop (before ++ tokens) None
  end.

(** The body of [while True:], for the line [line] numbered [lnum]; the empty
    line is the end of input. *)
Definition tokenize_line (lnum : nat) (line : string) (st : tok_state) : line_outcome :=
  let fuel := S (String.length line) in
  match contstr st with
  | Some (contstr, strstart, q) =>                      (* continued string *)
      match line with
      | EmptyString => Stop [] (Some TokenError)
      | _ =>
          match find_triple_end q line with
          | TripleFound body after =>
              let end_ := String.length body in
              after_scan
                [mkToken STRING (contstr +:+ body) strstart (lnum, end_)]
                (indents st)
                (scan_line fuel lnum end_ after (parenlev st) (continued st))
          | TripleOpen =>
              NextLine [] (mkState (parenlev st) (continued st) (indents st)
                                   (Some (contstr +:+ line, strstart, q)))
          | TripleUnmodelled => Stop [] None
          end
      end
  | None =>
      if (parenlev st =? 0)%Z && negb (continued st) then     (* new statement *)
        match line with
        | EmptyString => Break []
        | _ =>
            let '(column, pos, rest) := measure_indent 0 0 line in
            match rest with
            | EmptyString => Break []
            | String c _ =>
                if char_in c (String "#" (String CR (String LF EmptyString))) then
                  if (c =? "#")%char then
                    let '(comment_token, nl) := rstrip_crlf rest in
                    let pos' := pos + String.length comment_token in
                    NextLine
                      [mkToken COMMENT comment_token (lnum, pos) (lnum, pos');
                       mkToken NL nl (lnum, pos') (lnum, String.length line)]
                      st
                  else
                    NextLine [mkToken NL rest (lnum, pos) (lnum, String.length line)] st
                else
                  let '(indent_tokens, indents1) :=
                    match indents st with
                    | top :: _ =>
                        if (top <? column)%nat then
                          ([mkToken INDENT (str_take pos line) (lnum, 0) (lnum, pos)],
                           column :: indents st)
                        else ([], indents st)
                    | [] => ([], indents st)
                    end in
                  let '(dedent_tokens, indents2) := dedent lnum pos column indents1 in
                  match indents2 with
                  | None => Stop (indent_tokens ++ dedent_tokens) (Some IndentationError)
                  | Some indents2 =>
                      after_scan (indent_tokens ++ dedent_tokens) indents2
                        (scan_line fuel lnum pos rest (parenlev st) (continued st))
                  end
            end
        end
      else                                                   (* continued statement *)
        match line with
        | EmptyString => Stop [] (Some TokenError)
        | _ => after_scan [] (indents st) (scan_line fuel lnum 0 line (parenlev st) false)
        end
  end.

(** The tokens yielded after the loop. *)
Definition epilogue (lnum : nat) (last_line : string) (indents : list nat) : token_stream :=
  let newline :=
    match str_last last_line with
    | Some c =>
        if negb ((c =? CR)%char || (c =? LF)%char) &&
           negb (String.prefix "#" (snd (span py_isspace last_line)))
        then [mkToken NEWLINE EmptyString (lnum - 1, String.length last_line)
                      (lnum - 1, String.length last_line + 1)]
        else []
    | None => []
    end in
  let dedents :=
    map (fun _ => mkToken DEDENT EmptyString (lnum, 0) (lnum, 0))
        (tail (rev indents)) in
  prepend (newline ++ dedents ++ [mkToken ENDMARKER EmptyString (lnum, 0) (lnum, 0)]) TEnd.

(** [while True:] with [readline] reading from [lines]; [last_line] is the
    line read in the round before. *)
Fixpoint tokenize_loop (lines : list string) (lnum : nat) (st : tok_state)
    (last_line : string) : token_stream :=
  match lines with
  | [] =>
      match tokenize_line lnum EmptyString st with
      | Break tokens => prepend tokens (epilogue lnum last_line (indents st))
      | Stop tokens (Some e) => prepend tokens (TRaise e)
      | Stop tokens None => prepend tokens TUnmodelled
      | NextLine tokens _ => prepend tokens TUnmodelled   (* never: the empty line breaks or raises *)
      end
  | line :: lines =>
      match tokenize_line lnum line st with
      | NextLine tokens st => prepend tokens (tokenize_loop lines (S lnum) st line)
      | Break tokens => prepend tokens (epilogue lnum last_line (indents st))
      | Stop tokens (Some e) => prepend tokens (TRaise e)
      | Stop tokens None => prepend tokens TUnmodelled
      end
  end.

(** [generate_tokens(io.StringIO(text).readline)] *)
Definition generate_tokens (text : string) : token_stream :=
  tokenize_loop (readlines text) 1 initial_state EmptyString.

End tokenize.

(** ** Python values *)

(** The objects found in a value list: [str], [list], [dict], [None], and the
    [int] and [bool] objects an evaluated literal holds before [stringize]. *)
#[local] Unset Elimination Schemes.
Inductive pyval :=
  | VNone
  | VBool (b : bool)
  | VInt (z : Z)
  | VStr (s : string)
  | VList (l : list pyval)
  | VDict (d : list (pyval * pyval)).
#[local] Set Elimination Schemes.

(** [ASSIGNMENT = None] *)
Definition ASSIGNMENT : pyval := VNone.

(** [value == ASSIGNMENT]: only [None] equals [None]. *)
Definition eq_ASSIGNMENT (value : pyval) : bool :=
  match value with VNone => true | _ => false end.

(** [values[i:i+1] == [ASSIGNMENT]] *)
Definition slice_is_ASSIGNMENT (i : nat) (values : list pyval) : bool :=
  match values !! i with
  | Some v => eq_ASSIGNMENT v
  | None => false
  end.

(** [str(x)] for the scalars of the model; an integer gives its decimal
    form.  (Releases of CPython with a limit on such conversions, 4300 digits
    by default, refuse longer integers; [py_eval] below returns none.) *)
Definition py_str_scalar (x : pyval) : string :=
  match x with
  | VNone => "None"
  | VBool true => "True"
  | VBool false => "False"
  | VInt z => pretty z
  | VStr s => s
  | VList _ | VDict _ => "" (* [stringize] never asks for these *)
  end.

(** [stringize]: dict values and list items are replaced by their
    stringized form, in place; dict keys are left as they are; anything that
    is neither dict, list nor str becomes [str(x)]. *)
Fixpoint stringize (x : pyval) : pyval :=
  match x with
  | VDict d => VDict (map (fun kv => match kv with (k, v) => (k, stringize v) end) d)
  | VList l => VList (map stringize l)
  | VStr s => VStr s
  | _ => VStr (py_str_scalar x)
  end.

(** ** Python's [ast.literal_eval] and [eval]

    Library code again.  [literal_eval_str] is [ast.literal_eval] on the text
    of a [STRING] token of the fragment above (no prefix, no backslash): the
    characters between the quotes.  A literal that holds a carriage return
    or a null character is left out ([None]): the compiler translates the
    one and refuses the other. *)
Definition literal_eval_str (token : string) : option string :=
  match token with
  | String q r =>
      if char_in CR token || char_in (ascii_of_nat 0) token then None
      else if tokenize.is_quote q then
        if String.prefix (String q (String q EmptyString)) r
           && (6 <=? String.length token)%nat then
          let inner := str_drop 2 r in
          Some (str_take (String.length inner - 3) inner)
        else if (2 <=? String.length token)%nat then
          Some (str_take (String.length r - 1) r)
        else None
      else None
  | EmptyString => None
  end.

(** [eval] is described for expressions built from decimal integers (of at
    most 4300 digits, the default limit of the releases that have one),
    string literals, [True], [False], [None], list displays, dict displays
    with string-literal keys, and binary [+]; the text has to start with its
    opening bracket.  Three kinds of syntax error are recognised: the text
    ends or has a lexical error where the expression is incomplete; a number,
    a string or a name that is not a keyword follows a complete operand; and
    more than 200 brackets are open at once (the compiler's [MAXLEVEL]).  All
    other text is [Unmodelled].  Of the exceptions that evaluating an
    expression can raise, only [SyntaxError] and the [TypeError] of [+] are
    in this fragment. *)
Module pyeval.
Import tokenize.

Inductive etoken :=
  | ENumber (z : Z)
  | EString (s : string)
  | EName (s : string)
  | EOp (s : string)
  | ENewline
  | EIndent
  | EEndmarker
  | EError          (* the lexer reports a syntax error here *)
  | EUnmodelled.

Fixpoint digits_value (acc : Z) (s : string) : Z :=
  match s with
  | EmptyString => acc
  | String c r => digits_value (10 * acc + Z.of_nat (nat_of_ascii c - 48)) r
  end.

(** The tokens the expression parser sees: comments and line breaks inside
    brackets are dropped; an [ERRORTOKEN] and the tokenizer's exceptions are
    syntax errors of the compiler as well. *)
Fixpoint lex (ts : token_stream) : list etoken :=
  match ts with
  | TCons t rest =>
      match t_type t with
      | COMMENT | NL | DEDENT | ENCODING => lex rest
      | NUMBER =>
          if (4300 <? String.length (t_string t))%nat then [EUnmodelled]
          else ENumber (digits_value 0 (t_string t)) :: lex rest
      | STRING =>
          match literal_eval_str (t_string t) with
          | Some s => EString s :: lex rest
          | None => [EUnmodelled]
          end
      | NAME => EName (t_string t) :: lex rest
      | OP => EOp (t_string t) :: lex rest
      | NEWLINE => ENewline :: lex rest
      | INDENT => EIndent :: lex rest
      | ENDMARKER => [EEndmarker]
      | ERRORTOKEN => [EError]
      end
  | TEnd => [EEndmarker]
  | TRaise _ => [EError]
  | TUnmodelled => [EUnmodelled]
  end.

#[local] Unset Elimination Schemes.
Inductive expr :=
  | ENone
  | EBool (b : bool)
  | EInt (z : Z)
  | EStr (s : string)
  | EList (items : list expr)
  | EDict (items : list (string * expr))
  | EAdd (a b : expr).
#[local] Set Elimination Schemes.

Inductive presult :=
  | POk (e : expr) (rest : list etoken)
  | PSyntaxError
  | PUnmodelled.

Definition keywords : list string :=
  ["False"; "None"; "True"; "and"; "as"; "assert"; "async"; "await"; "break";
   "class"; "continue"; "def"; "del"; "elif"; "else"; "except"; "finally";
   "for"; "from"; "global"; "if"; "import"; "in"; "is"; "lambda"; "nonlocal";
   "not"; "or"; "pass"; "raise"; "return"; "try"; "while"; "with"; "yield";
   "match"; "case"; "type"; "_"].

Definition is_keyword (name : string) : bool := existsb (String.eqb name) keywords.

(** Recursive descent; [fuel] bounds the depth, and running out of it is
    [PUnmodelled]. *)
Fixpoint parse_sum (fuel : nat) (toks : list etoken) : presult :=
  match fuel with
  | O => PUnmodelled
  | S fuel =>
      match parse_atom fuel toks with
      | POk a rest => parse_sum_tail fuel a rest
      | other => other
      end
  end
with parse_sum_tail (fuel : nat) (lhs : expr) (toks : list etoken) : presult :=
  match fuel with
  | O => PUnmodelled
  | S fuel =>
      match toks with
      | EOp op :: rest =>
          if String.eqb op "+" then
            match parse_atom fuel rest with
            | POk b rest' => parse_sum_tail fuel (EAdd lhs b) rest'
            | other => other
            end
          else if existsb (String.eqb op) [","; "]"; "}"; ":"] then POk lhs toks
          else PUnmodelled
      | ENumber _ :: _ | EString _ :: _ => PSyntaxError
      | EName name :: _ => if is_keyword name then PUnmodelled else PSyntaxError
      | ENewline :: _ | EEndmarker :: _ => POk lhs toks
      | EError :: _ => PSyntaxError
      | _ => PUnmodelled
      end
  end
with parse_atom (fuel : nat) (toks : list etoken) : presult :=
  match fuel with
  | O => PUnmodelled
  | S fuel =>
      match toks with
      | ENumber z :: rest => POk (EInt z) rest
      | EString s :: rest =>
          match rest with
          | EString _ :: _ => PUnmodelled
          | _ => POk (EStr s) rest
          end
      | EName name :: rest =>
          if String.eqb name "True" then POk (EBool true) rest
          else if String.eqb name "False" then POk (EBool false) rest
          else if String.eqb name "None" then POk ENone rest
          else PUnmodelled
      | EOp op :: rest =>
          if String.eqb op "[" then parse_list fuel [] rest
          else if String.eqb op "{" then parse_dict fuel [] rest
          else PUnmodelled
      | EError :: _ => PSyntaxError
      | _ => PUnmodelled
      end
  end
with parse_list (fuel : nat) (acc : list expr) (toks : list etoken) : presult :=
  match fuel with
  | O => PUnmodelled
  | S fuel =>
      match toks with
      | EOp "]" :: rest => POk (EList (rev acc)) rest
      | _ =>
          match parse_sum fuel toks with
          | POk e rest =>
              match rest with
              | EOp "," :: rest' => parse_list fuel (e :: acc) rest'
              | EOp "]" :: rest' => POk (EList (rev (e :: acc))) rest'
              | EError :: _ => PSyntaxError
              | _ => PUnmodelled
              end
          | other => other
          end
      end
  end
with parse_dict (fuel : nat) (acc : list (string * expr)) (toks : list etoken) : presult :=
  match fuel with
  | O => PUnmodelled
  | S fuel =>
      match toks with
      | EOp "}" :: rest => POk (EDict (rev acc)) rest
      | EString key :: EOp ":" :: rest =>
          match parse_sum fuel rest with
          | POk e rest =>
              match rest with
              | EOp "," :: rest' => parse_dict fuel ((key, e) :: acc) rest'
              | EOp "}" :: rest' => POk (EDict (rev ((key, e) :: acc))) rest'
              | EError :: _ => PSyntaxError
              | _ => PUnmodelled
              end
          | other => other
          end
      | EString _ :: EError :: _ | EError :: _ => PSyntaxError
      | _ => PUnmodelled
      end
  end.

(** The compiler's tokenizer refuses an opening bracket when 200 are open
    (too many nested parentheses).  The scan stops where the lexer does. *)
Fixpoint too_deep (level : nat) (toks : list etoken) : bool :=
  match toks with
  | EOp op :: rest =>
      if existsb (String.eqb op) ["("; "["; "{"] then
        (200 <=? level)%nat || too_deep (S level) rest
      else if existsb (String.eqb op) [")"; "]"; "}"] then too_deep (pred level) rest
      else too_deep level rest
  | EEndmarker :: _ | EError :: _ | EUnmodelled :: _ | [] => false
  | _ :: rest => too_deep level rest
  end.

(** After the expression: line ends, then the end of the text. *)
Fixpoint at_end (seen_newline : bool) (toks : list etoken) : option bool :=
  match toks with
  | ENewline :: rest => at_end true rest
  | EEndmarker :: _ => Some true
  | EUnmodelled :: _ | [] => None
  | _ => if seen_newline then Some false else None
  end.

(** [d[key] = v] on a dict in insertion order. *)
Fixpoint dict_set (key : string) (v : pyval) (d : list (pyval * pyval)) : list (pyval * pyval) :=
  match d with
  | [] => [(VStr key, v)]
  | (k, w) :: rest =>
      if match k with VStr s => String.eqb s key | _ => false end
      then (k, v) :: rest
      else (k, w) :: dict_set key v rest
  end.

Definition as_int (v : pyval) : option Z :=
  match v with
  | VInt z => Some z
  | VBool b => Some (if b then 1 else 0)%Z
  | _ => None
  end.

(** [a + b] *)
Definition py_add (a b : pyval) : result pyval :=
  match a, b with
  | VStr x, VStr y => Ok (VStr (x +:+ y))
  | VList x, VList y => Ok (VList (x ++ y))
  | _, _ =>
      match as_int a, as_int b with
      | Some x, Some y =>
          if (x + y <? 10 ^ 4300)%Z then Ok (VInt (x + y)) else Unmodelled
      | _, _ => Raise TypeError
      end
  end.

Fixpoint eval_expr (e : expr) : result pyval :=
  match e with
  | ENone => Ok VNone
  | EBool b => Ok (VBool b)
  | EInt z => Ok (VInt z)
  | EStr s => Ok (VStr s)
  | EList items =>
      (fix eval_items (items : list expr) (acc : list pyval) : result pyval :=
         match items with
         | [] => Ok (VList (rev acc))
         | item :: items =>
             match eval_expr item with
             | Ok v => eval_items items (v :: acc)
             | other => other
             end
         end) items []
  | EDict items =>
      (fix eval_items (items : list (string * expr)) (d : list (pyval * pyval)) : result pyval :=
         match items with
         | [] => Ok (VDict d)
         | (key, item) :: items =>
             match eval_expr item with
             | Ok v => eval_items items (dict_set key v d)
             | other => other
             end
         end) items []
  | EAdd a b =>
      match eval_expr a with
      | Ok x =>
          match eval_expr b with
          | Ok y => py_add x y
          | other => other
          end
      | other => other
      end
  end.

(** [eval(text)] *)
Definition py_eval (text : string) : result pyval :=
  match text with
  | String c _ =>
      if negb (char_in c "[{") then Unmodelled
      else if str_in (String CR EmptyString) text
              || str_in (String (ascii_of_nat 0) EmptyString) text then Unmodelled
      else
        let toks := lex (generate_tokens text) in
        if too_deep 0 toks then Raise SyntaxError else
        match parse_sum (4 * length toks + 4) toks with
        | POk e rest =>
            match at_end false rest with
            | Some true => eval_expr e
            | Some false => Raise SyntaxError
            | None => Unmodelled
            end
        | PSyntaxError => Raise SyntaxError
        | PUnmodelled => Unmodelled
        end
  | EmptyString => Unmodelled
  end.

End pyeval.

(** ** [str.isidentifier]

    Decided here for 7-bit text: a letter or underscore followed by letters,
    digits and underscores.  The scan goes left to right, as CPython's does,
    and stops with [None] at a character above 127, whose class this file
    does not tabulate. *)
Fixpoint isidentifier_rest (s : string) : option bool :=
  match s with
  | EmptyString => Some true
  | String c r =>
      if negb (is_7bit c) then None
      else if is_name_char c then isidentifier_rest r
      else Some false
  end.

Definition isidentifier (s : string) : option bool :=
  match s with
  | EmptyString => Some false
  | String c r =>
      if negb (is_7bit c) then None
      else if is_name_start c then isidentifier_rest r
      else Some false
  end.

(** ** [parse_line_assignments] *)

(** Truth value of [last_word]: [None] and the empty string are false. *)
Definition truthy (last_word : option string) : bool :=
  match last_word with
  | Some EmptyString | None => false
  | Some _ => true
  end.

(** [key in d] *)
Definition dict_in (key : string) (d : gmap string pyval) : bool :=
  match d !! key with Some _ => true | None => false end.

(** The inner loop, lines 66-68:
    [while values and values[1:2] != [ASSIGNMENT]: assignment_rhs.append(values.pop(0))].
    Returns the items appended and what is left of [values]. *)
Fixpoint collect_rhs (values : list pyval) : list pyval * list pyval :=
  match values with
  | [] => ([], [])
  | v :: rest =>
      if slice_is_ASSIGNMENT 1 values then ([], values)
      else let '(rhs, remaining) := collect_rhs rest in (v :: rhs, remaining)
  end.

(** Lines 63-68: the right-hand side taken after an [=], and the rest of
    [values].  Called with [values] non-empty (line 56 has checked it). *)
Definition take_rhs (values : list pyval) : pyval * list pyval :=
  if (length values =? 1)%nat || slice_is_ASSIGNMENT 2 values then
    match values with
    | v :: rest => (v, rest)
    | [] => (VList [], [])
    end
  else
    let '(rhs, remaining) := collect_rhs values in (VList rhs, remaining).

(** Lines 80-84, also lines 73-76: a pending bare word becomes the label. *)
Definition set_label (error_prefix : string) (last_word : option string)
    (assignments : gmap string pyval) : result (gmap string pyval) :=
  match last_word with
  | Some w =>
      if truthy last_word then
        if dict_in "label" assignments
        then Raise (TestSpecificationError (error_prefix +:+ "error - multiple labels"))
        else Ok (<["label" := VStr w]> assignments)
      else Ok assignments
  | None => Ok assignments
  end.

(** The [while values:] loop.  Every iteration pops at least one item, so
    [fuel] above the length of [values] is never used up; [None] is the
    out-of-fuel answer. *)
Fixpoint parse_line_assignments_loop (fuel : nat) (error_prefix : string)
    (values : list pyval) (assignments : gmap string pyval)
    (last_word : option string) : option (result (gmap string pyval)) :=
  match fuel with
  | O => None
  | S fuel =>
      match values with
      | [] => Some (set_label error_prefix last_word assignments)
      | value :: values =>
          if eq_ASSIGNMENT value then
            match last_word with
            | None =>
                Some (Raise (TestSpecificationError (error_prefix +:+ "syntax error in assignment")))
            | Some w =>
                if negb (truthy last_word) then
                  Some (Raise (TestSpecificationError (error_prefix +:+ "syntax error in assignment")))
                else
                  match isidentifier w with
                  | None => Some Unmodelled
                  | Some false =>
                      Some (Raise (TestSpecificationError (error_prefix +:+ "syntax error in assignment")))
                  | Some true =>
                      if (length values =? 0)%nat || slice_is_ASSIGNMENT 0 values then
                        Some (Raise (TestSpecificationError (error_prefix +:+ "syntax error in assignment")))
                      else if dict_in w assignments then
                        Some (Raise (TestSpecificationError
                          (error_prefix +:+ "error - multiple assignments to variable '" +:+ w +:+ "'")))
                      else
                        let '(assignment_rhs, values) := take_rhs values in
                        parse_line_assignments_loop fuel error_prefix values
                          (<[w := assignment_rhs]> assignments) None
                  end
            end
          else
            match value with
            | VStr s =>
                match set_label error_prefix last_word assignments with
                | Ok assignments =>
                    parse_line_assignments_loop fuel error_prefix values assignments (Some s)
                | Raise e => Some (Raise e)
                | Unmodelled => Some Unmodelled
                end
            | _ =>
                Some (Raise (TestSpecificationError (error_prefix +:+ "error - invalid test specification")))
            end
      end
  end.

Definition parse_line_assignments (values : list pyval) (error_prefix : string)
    : result (gmap string pyval) :=
  match parse_line_assignments_loop (S (length values)) error_prefix values ∅ None with
  | Some r => r
  | None => Unmodelled
  end.

(** ** [parse_values] *)

Import tokenize.

(** [IGNORE_TOKENS] *)
Definition IGNORE_TOKENS : list token_type :=
  [COMMENT; DEDENT; ENCODING; ENDMARKER; INDENT; NEWLINE; NL].

Definition in_IGNORE_TOKENS (ty : token_type) : bool :=
  existsb (token_type_eqb ty) IGNORE_TOKENS.

(** What [last_token] holds: a token of the tokenizer, or a [FakeToken].
    A [FakeToken] has type [STRING] and the string [repr(characters)]; that
    string is only ever read back through [ast.literal_eval], which returns
    [characters], so the object is kept with [characters] itself. *)
Inductive token :=
  | Token (t : TokenInfo)
  | Fake (start end_ : nat * nat) (characters : string).

Definition token_start (t : token) : nat * nat :=
  match t with Token t => t_start t | Fake start _ _ => start end.
Definition token_end (t : token) : nat * nat :=
  match t with Token t => t_end t | Fake _ end_ _ => end_ end.

(** [get_token_characters]; [None] when [ast.literal_eval] is asked about a
    string literal outside the fragment. *)
Definition get_token_characters (t : token) : option string :=
  match t with
  | Token t =>
      if token_type_eqb (t_type t) STRING then literal_eval_str (t_string t)
      else Some (t_string t)
  | Fake _ _ characters => Some characters
  end.

(** [FakeToken(token1, token2)] *)
Definition FakeToken (token1 token2 : token) : option token :=
  match get_token_characters token1, get_token_characters token2 with
  | Some a, Some b => Some (Fake (token_start token1) (token_end token2) (a +:+ b))
  | _, _ => None
  end.

(** [values.append(get_token_characters(last_token))] when there is a
    [last_token]. *)
Definition flush (last_token : option token) (values : list pyval) : option (list pyval) :=
  match last_token with
  | None => Some values
  | Some t =>
      match get_token_characters t with
      | Some s => Some (values ++ [VStr s])
      | None => None
      end
  end.

Definition pos_eqb (a b : nat * nat) : bool :=
  (fst a =? fst b)%nat && (snd a =? snd b)%nat.

(** [values and values[-1] == ASSIGNMENT] *)
Definition last_is_ASSIGNMENT (values : list pyval) : bool :=
  match last values with
  | Some v => eq_ASSIGNMENT v
  | None => false
  end.

(** Lines 111-142: the [for token in ...] loop and the statement after it.
    The exceptions of the tokenizer and of [eval] come out as [Raise]; the
    caller has the [except] clause.  ([print(value)] on line 125 writes to
    standard output, which is not part of this model.) *)
Fixpoint scan_tokens (source_name : string) (line_number : nat)
    (combined_lines : string) (tokens : token_stream)
    (values : list pyval) (last_token : option token) : result (list pyval) :=
  match tokens with
  | TCons token tokens =>
      if token_type_eqb (t_type token) ERRORTOKEN then
        Raise (TestSpecificationError
          (source_name +:+ ":" +:+ pretty line_number +:+ ":"
           +:+ pretty (snd (t_start token)) +:+ ": syntax error"))
      else if negb (token_type_eqb (t_type token) STRING)
              && str_in "=" (t_string token)
              && (1 <? String.length (t_string token))%nat then
        Raise (TestSpecificationError
          (source_name +:+ ":" +:+ pretty line_number +:+ ":"
           +:+ pretty (snd (t_start token)) +:+ ": syntax error in assignment"))
      else if (String.length (t_string token) =? 0)%nat
              || in_IGNORE_TOKENS (t_type token) then
        scan_tokens source_name line_number combined_lines tokens values last_token
      else if str_in (t_string token) "[{" && last_is_ASSIGNMENT values
              && match last_token with None => true | Some _ => false end then
        match pyeval.py_eval (str_drop (snd (t_start token)) combined_lines) with
        | Ok value => Ok (values ++ [stringize value])        (* [break] *)
        | Raise e => Raise e
        | Unmodelled => Unmodelled
        end
      else if match last_token with
              | None => true
              | Some last => negb (pos_eqb (token_end last) (t_start token))
                             || String.eqb (t_string token) "="
              end then
        match flush last_token values with
        | Some values =>
            if String.eqb (t_string token) "=" then
              scan_tokens source_name line_number combined_lines tokens
                (values ++ [ASSIGNMENT]) None
            else
              scan_tokens source_name line_number combined_lines tokens
                values (Some (Token token))
        | None => Unmodelled
        end
      else
        match last_token with
        | Some last =>
            match FakeToken last (Token token) with
            | Some fake =>
                scan_tokens source_name line_number combined_lines tokens values (Some fake)
            | None => Unmodelled
            end
        | None => Unmodelled      (* not reached: the test above took this case *)
        end
  | TEnd =>
      match flush last_token values with
      | Some values => Ok values
      | None => Unmodelled
      end
  | TRaise e => Raise e
  | TUnmodelled => Unmodelled
  end.

(** [except (tokenize.TokenError, SyntaxError)]; [IndentationError] is a
    subclass of [SyntaxError]. *)
Definition caught (e : exn) : bool :=
  match e with
  | TokenError | SyntaxError | IndentationError => true
  | TestSpecificationError _ | TypeError => false
  end.

(** The variables of the loop over the lines: [combined_lines],
    [combined_lines_number] and [parse]. *)
Record pv_state := mkPv {
  combined_lines : string;
  combined_lines_number : nat;
  parse : list (nat * list pyval)
}.

(** Lines 104-150: one round of [for (line_number, line) in enumerate(stream, 1)]. *)
Definition parse_values_step (source_name : string) (st : pv_state)
    (line_number : nat) (line : string) : result pv_state :=
  let number :=
    if String.eqb (combined_lines st) EmptyString then line_number
    else combined_lines_number st in
  let buffer := combined_lines st +:+ line in
  match scan_tokens source_name line_number buffer (generate_tokens buffer) [] None with
  | Ok values => Ok (mkPv EmptyString number (parse st ++ [(number, values)]))
  | Raise e =>
      if caught e then Ok (mkPv buffer number (parse st))     (* [continue] *)
      else Raise e
  | Unmodelled => Unmodelled
  end.

(** Lines 152-154, after the loop. *)
Definition parse_values_finish (source_name : string) (st : pv_state)
    : result (list (nat * list pyval)) :=
  if negb (String.eqb (combined_lines st) EmptyString) then
    Raise (TestSpecificationError
      (source_name +:+ ":" +:+ pretty (combined_lines_number st) +:+ " unclosed expression"))
  else Ok (parse st).

Fixpoint parse_values_loop (source_name : string) (stream : list string)
    (line_number : nat) (st : pv_state) : result (list (nat * list pyval)) :=
  match stream with
  | [] => parse_values_finish source_name st
  | line :: stream =>
      match parse_values_step source_name st line_number line with
      | Ok st => parse_values_loop source_name stream (S line_number) st
      | Raise e => Raise e
      | Unmodelled => Unmodelled
      end
  end.

(** [parse_values(stream, source_name)]; [stream] is the list of lines that
    iterating over the stream yields. *)
Definition parse_values (stream : list string) (source_name : string)
    : result (list (nat * list pyval)) :=
  parse_values_loop source_name stream 1 (mkPv EmptyString 1 []).

(** ** [parse_stream], lines 26-40

    The loop over the statements that [parse_values] returned, with the two
    variables it updates, [global_variables] and [tests], passed along. *)
Definition error_prefix_of (source_name : string) (line_number : nat) : string :=
  source_name +:+ ":" +:+ pretty line_number +:+ ": ".

Definition parse_stream_step (source_name : string)
    (st : gmap string pyval * list (gmap string pyval))
    (stmt : nat * list pyval)
    : result (gmap string pyval * list (gmap string pyval)) :=
  let '(global_variables, tests) := st in
  let '(line_number, values) := stmt in
  match values with
  | [] => Ok st
  | _ =>
      match parse_line_assignments values (error_prefix_of source_name line_number) with
      | Ok parameters =>
          if negb (dict_in "label" parameters) then
            Ok (parameters ∪ global_variables, tests)
          else
            let test := global_variables in
            let test := <["source_name" := VStr source_name]> test in
            let test := <["line_number" := VStr (pretty line_number)]> test in
            let test := parameters ∪ test in
            Ok (global_variables, tests ++ [test])
      | Raise e => Raise e
      | Unmodelled => Unmodelled
      end
  end.

Fixpoint parse_stream_loop (source_name : string)
    (stmts : list (nat * list pyval))
    (st : gmap string pyval * list (gmap string pyval))
    : result (gmap string pyval * list (gmap string pyval)) :=
  match stmts with
  | [] => Ok st
  | stmt :: stmts =>
      match parse_stream_step source_name st stmt with
      | Ok st => parse_stream_loop source_name stmts st
      | Raise e => Raise e
      | Unmodelled => Unmodelled
      end
  end.

(** [parse_stream(stream, source_name)] *)
Definition parse_stream (stream : list string) (source_name : string)
    : result (list (gmap string pyval)) :=
  match parse_values stream source_name with
  | Ok stmts =>
      match parse_stream_loop source_name stmts (∅, []) with
      | Ok (_, tests) => Ok tests
      | Raise e => Raise e
      | Unmodelled => Unmodelled
      end
  | Raise e => Raise e
  | Unmodelled => Unmodelled
  end.


(** ** Predicates used in the statements *)

(** Every leaf of a value (a list item, a dict value, or the value itself
    when it is neither list nor dict) is a [str]. *)
Fixpoint leaves_are_str (v : pyval) : bool :=
  match v with
  | VStr _ => true
  | VList l => forallb leaves_are_str l
  | VDict d => forallb (fun kv => match kv with (_, v) => leaves_are_str v end) d
  | _ => false
  end.

(** A statement of the value list that [parse_stream] treats as a test. *)
Definition is_labeled (source_name : string) (stmt : nat * list pyval) : bool :=
  match stmt with
  | (line_number, []) => false
  | (line_number, values) =>
      match parse_line_assignments values (error_prefix_of source_name line_number) with
      | Ok parameters => dict_in "label" parameters
      | _ => false
      end
  end.

(** A line as a stream delivers it: a line feed can only be its last
    character. *)
Fixpoint lf_only_last (s : string) : bool :=
  match s with
  | EmptyString => true
  | String c r =>
      if (c =? LF)%char then String.eqb r EmptyString else lf_only_last r
  end.

(** A blank line, or a comment line whose text has no [=]: spaces, tabs and
    form feeds, then nothing, the line feed, or [#] and the comment. *)
Definition blank_or_plain_comment (line : string) : bool :=
  lf_only_last line &&
  match snd (span tokenize.is_blank line) with
  | EmptyString => true
  | String c body =>
      ((c =? LF)%char && String.eqb body EmptyString)
      || ((c =? "#")%char && negb (char_in "=" body))
  end.

(** The tokens that the loop of [parse_values] passes over: not an
    [ERRORTOKEN], not a non-string token with [=] in it, and empty or of an
    ignored type. *)
Definition skippable (t : tokenize.TokenInfo) : bool :=
  negb (tokenize.token_type_eqb (tokenize.t_type t) tokenize.ERRORTOKEN)
  && negb (negb (tokenize.token_type_eqb (tokenize.t_type t) tokenize.STRING)
           && str_in "=" (tokenize.t_string t)
           && (1 <? String.length (tokenize.t_string t))%nat)
  && ((String.length (tokenize.t_string t) =? 0)%nat
      || in_IGNORE_TOKENS (tokenize.t_type t)).

(** The text of some lines, one after the other. *)
Definition concat_lines (lines : list string) : string :=
  fold_right String.append EmptyString lines.

(** One line of text with its line feed. *)
Definition ln (s : string) : string := s +:+ String LF EmptyString.

(** ** [parse_file]

    The files that can be opened are given by [files]: the lines that
    iterating over the opened file yields, or [None] when [open] raises. *)
Inductive file_outcome :=
  | Returned (tests : list (gmap string pyval))
  | Exited (status : nat) (stderr : string)   (* [print(e, file=sys.stderr)], [sys.exit(1)] *)
  | Escaped (e : exn)                         (* an exception the [except] clause lets through *)
  | OpenFailed                                (* the exception of [open] *)
  | UnmodelledRun.

Definition parse_file (files : string -> option (list string)) (pathname : string)
    : file_outcome :=
  match files pathname with
  | None => OpenFailed
  | Some stream =>
      match parse_stream stream pathname with
      | Ok tests => Returned tests
      | Raise (TestSpecificationError msg) => Exited 1 (ln msg)
      | Raise e => Escaped e
      | Unmodelled => UnmodelledRun
      end
  end.

(** ** More predicates used in the statements *)

(** An item of a value list as [parse_values] builds them: the marker, or a
    value whose leaves are strings. *)
Definition marker_or_str_leaves (v : pyval) : bool :=
  eq_ASSIGNMENT v || leaves_are_str v.

(** A token that the loop of [parse_values] merges into a pending adjacent
    token: it passes the two checks, is not ignored, and is not [=]. *)
Definition mergeable (t : tokenize.TokenInfo) : bool :=
  negb (tokenize.token_type_eqb (tokenize.t_type t) tokenize.ERRORTOKEN)
  && negb (negb (tokenize.token_type_eqb (tokenize.t_type t) tokenize.STRING)
           && str_in "=" (tokenize.t_string t)
           && (1 <? String.length (tokenize.t_string t))%nat)
  && negb ((String.length (tokenize.t_string t) =? 0)%nat
           || in_IGNORE_TOKENS (tokenize.t_type t))
  && negb (String.eqb (tokenize.t_string t) "=").

(** Tokens that touch: the first starts where [pos] is, each next one where
    the one before ends. *)
Fixpoint touching (pos : nat * nat) (tokens : list tokenize.TokenInfo) : bool :=
  match tokens with
  | [] => true
  | t :: ts => pos_eqb pos (tokenize.t_start t) && touching (tokenize.t_end t) ts
  end.

(** The characters of some tokens, one after the other; [None] when one of
    them is a string literal outside the fragment. *)
Fixpoint characters_of (tokens : list tokenize.TokenInfo) : option string :=
  match tokens with
  | [] => Some EmptyString
  | t :: ts =>
      match get_token_characters (Token t), characters_of ts with
      | Some a, Some b => Some (a +:+ b)
      | _, _ => None
      end
  end.

(** Where the last of some tokens ends, [pos] when there is none. *)
Fixpoint end_of (pos : nat * nat) (tokens : list tokenize.TokenInfo) : nat * nat :=
  match tokens with
  | [] => pos
  | t :: ts => end_of (tokenize.t_end t) ts
  end.

(** The line numbers of the statements are increasing and lie between
    [first] and [bound]. *)
Fixpoint increasing_from (first bound : nat) (stmts : list (nat * list pyval)) : Prop :=
  match stmts with
  | [] => True
  | (n, _) :: rest => first <= n /\ n < bound /\ increasing_from (S n) bound rest
  end.

(** A token stream that, if it ends in an exception, ends in one that the
    [except] clause of [parse_values] catches. *)
Fixpoint ends_caught (ts : tokenize.token_stream) : Prop :=
  match ts with
  | tokenize.TCons _ rest => ends_caught rest
  | tokenize.TRaise e => caught e = true
  | _ => True
  end.

(** Every token that a generator yields satisfies [P]. *)
Fixpoint stream_Forall (P : tokenize.TokenInfo -> Prop) (ts : tokenize.token_stream) : Prop :=
  match ts with
  | tokenize.TCons t rest => P t /\ stream_Forall P rest
  | _ => True
  end.

(** An operator token of the line numbered [lnum] stands in [rest], the
    text of the line from column [pos] on, at its column. *)
Definition op_at (lnum pos : nat) (rest : string) (t : tokenize.TokenInfo) : Prop :=
  tokenize.t_type t = tokenize.OP ->
  fst (tokenize.t_start t) = lnum
  /\ exists head tail,
       rest = head +:+ (tokenize.t_string t +:+ tail)
       /\ snd (tokenize.t_start t) = pos + String.length head.

(** An operator token on the first line of a text stands in the text at
    its column. *)
Definition op_in_text (text : string) (t : tokenize.TokenInfo) : Prop :=
  tokenize.t_type t = tokenize.OP -> fst (tokenize.t_start t) = 1 ->
  exists head tail,
    text = head +:+ (tokenize.t_string t +:+ tail)
    /\ String.length head = snd (tokenize.t_start t).

(** A name of letters, digits and underscores that does not start with a
    digit. *)
Definition plain_name (k : string) : bool :=
  match k with
  | String c r => is_name_start c && forallb_string is_name_char r
  | EmptyString => false
  end.

(** Text that can stand between two quotes [q] as it is: no [q], no
    backslash, no line feed, no carriage return, no null character. *)
Definition plain_text (q : ascii) (s : string) : bool :=
  forallb_string
    (fun x => negb ((x =? LF)%char || (x =? q)%char || (x =? BACKSLASH)%char))
    s
  && negb (char_in CR s) && negb (char_in (ascii_of_nat 0) s).

(** The line [k=<q>s<q>] with its line feed, [q] being the quote character. *)
Definition quoted_assignment (k : string) (q : ascii) (s : string) : string :=
  k +:+ String "=" (String q (s +:+ String q (String LF EmptyString))).

(** * Properties *)

Arguments parse_stream_step : simpl never.
Arguments parse_values_step : simpl never.
Arguments parse_line_assignments : simpl never.

(** ** The assignment marker *)

Lemma eq_ASSIGNMENT_true (v : pyval) : eq_ASSIGNMENT v = true <-> v = ASSIGNMENT.
Proof. destruct v; simpl; split; intros H; try done; discriminate. Qed.

Lemma slice_is_ASSIGNMENT_true (i : nat) (values : list pyval) :
  slice_is_ASSIGNMENT i values = true <-> values !! i = Some ASSIGNMENT.
Proof.
  unfold slice_is_ASSIGNMENT. destruct (values !! i) as [v|].
  - rewrite eq_ASSIGNMENT_true. split; congruence.
  - split; discriminate.
Qed.

Lemma slice_is_ASSIGNMENT_false (i : nat) (values : list pyval) :
  slice_is_ASSIGNMENT i values = false <-> values !! i ≠ Some ASSIGNMENT.
Proof.
  rewrite <- slice_is_ASSIGNMENT_true. destruct (slice_is_ASSIGNMENT i values); split; congruence.
Qed.

(** ** Right-hand sides *)

Lemma collect_rhs_app (values run rest : list pyval) :
  collect_rhs values = (run, rest) -> values = run ++ rest.
Proof.
  revert run rest. induction values as [|v values IH]; intros run rest; simpl.
  - intros [= <- <-]. done.
  - destruct (slice_is_ASSIGNMENT 1 (v :: values)).
    + intros [= <- <-]. done.
    + destruct (collect_rhs values) as [r l] eqn:E. intros [= <- <-].
      simpl. f_equal. by apply IH.
Qed.

Lemma collect_rhs_stop (values run rest : list pyval) :
  collect_rhs values = (run, rest) -> rest = [] ∨ rest !! 1 = Some ASSIGNMENT.
Proof.
  revert run rest. induction values as [|v values IH]; intros run rest; simpl.
  - intros [= <- <-]. by left.
  - destruct (slice_is_ASSIGNMENT 1 (v :: values)) eqn:S1.
    + intros [= <- <-]. right. by apply slice_is_ASSIGNMENT_true.
    + destruct (collect_rhs values) as [r l] eqn:E. intros [= <- <-]. by eapply IH.
Qed.

Lemma collect_rhs_minimal (values run rest : list pyval) :
  collect_rhs values = (run, rest) ->
  forall k, k < length run -> drop k values !! 1 ≠ Some ASSIGNMENT.
Proof.
  revert run rest. induction values as [|v values IH]; intros run rest; simpl.
  - intros [= <- <-] k Hk. simpl in Hk. lia.
  - destruct (slice_is_ASSIGNMENT 1 (v :: values)) eqn:S1.
    + intros [= <- <-] k Hk. simpl in Hk. lia.
    + destruct (collect_rhs values) as [r l] eqn:E. intros [= <- <-] k Hk.
      destruct k as [|k].
      * simpl. by apply slice_is_ASSIGNMENT_false.
      * simpl in *. eapply IH; [done | lia].
Qed.

Lemma take_rhs_length (values : list pyval) :
  length (take_rhs values).2 <= length values.
Proof.
  unfold take_rhs.
  destruct ((length values =? 1)%nat || slice_is_ASSIGNMENT 2 values).
  - destruct values; simpl; lia.
  - destruct (collect_rhs values) as [run rest] eqn:E. simpl.
    apply collect_rhs_app in E. subst values. rewrite length_app. lia.
Qed.

(** ** [parse_line_assignments] returns *)

(** The loop never runs out of the fuel [parse_line_assignments] gives it. *)
Lemma parse_line_assignments_loop_fuel (fuel : nat) (error_prefix : string)
    (values : list pyval) (assignments : gmap string pyval) (last_word : option string) :
  length values < fuel ->
  is_Some (parse_line_assignments_loop fuel error_prefix values assignments last_word).
Proof.
  revert values assignments last_word.
  induction fuel as [|fuel IH]; intros values assignments last_word Hlen; [lia|].
  destruct values as [|value values]; simpl; [by eexists|].
  simpl in Hlen.
  destruct (eq_ASSIGNMENT value).
  - destruct last_word as [w|]; [|by eexists].
    destruct (negb (truthy (Some w))); [by eexists|].
    destruct (isidentifier w) as [[|]|]; try by eexists.
    destruct ((length values =? 0)%nat || slice_is_ASSIGNMENT 0 values); [by eexists|].
    destruct (dict_in w assignments); [by eexists|].
    pose proof (take_rhs_length values) as Hrhs.
    destruct (take_rhs values) as [rhs rest]. simpl in Hrhs.
    apply IH. lia.
  - destruct value; try by eexists.
    destruct (set_label error_prefix last_word assignments); try by eexists.
    apply IH. lia.
Qed.

Lemma parse_line_assignments_unfold (values : list pyval) (error_prefix : string)
    (r : result (gmap string pyval)) :
  parse_line_assignments values error_prefix = r ->
  parse_line_assignments_loop (S (length values)) error_prefix values ∅ None = Some r.
Proof.
  unfold parse_line_assignments. intros <-.
  destruct (parse_line_assignments_loop_fuel (S (length values)) error_prefix values ∅ None)
    as [r Hr]; [lia|]. by rewrite Hr.
Qed.

Lemma parse_line_assignments_loop_fuel_irrelevant (fuel1 fuel2 : nat)
    (error_prefix : string) (values : list pyval) (assignments : gmap string pyval)
    (last_word : option string) :
  length values < fuel1 -> length values < fuel2 ->
  parse_line_assignments_loop fuel1 error_prefix values assignments last_word
  = parse_line_assignments_loop fuel2 error_prefix values assignments last_word.
Proof.
  revert fuel2 values assignments last_word.
  induction fuel1 as [|fuel1 IH]; intros fuel2 values assignments last_word H1 H2; [lia|].
  destruct fuel2 as [|fuel2]; [lia|].
  destruct values as [|value values]; [done|]. simpl in H1, H2. simpl.
  destruct (eq_ASSIGNMENT value).
  - destruct last_word as [w|]; [|done].
    destruct (negb _); [done|].
    destruct (isidentifier w) as [[|]|]; try done.
    destruct ((length values =? 0)%nat || slice_is_ASSIGNMENT 0 values); [done|].
    destruct (dict_in w assignments); [done|].
    pose proof (take_rhs_length values) as Hrhs.
    destruct (take_rhs values) as [rhs rest]. simpl in Hrhs.
    apply IH; lia.
  - destruct value; try done.
    destruct (set_label error_prefix last_word assignments); try done.
    apply IH; lia.
Qed.

(** C4.  The statement [x=y=z] is accepted, and [x] is bound to the empty
    list: the value sequence is [x = y = z], the item two positions after the
    first [=] is not [=], so the inner loop runs, and it stops at once
    because the next-but-one item is [=]. *)
Theorem empty_rhs_accepted (source_name : string) :
  parse_values [ln "x=y=z"] source_name
    = Ok [(1, [VStr "x"; ASSIGNMENT; VStr "y"; ASSIGNMENT; VStr "z"])]
  /\ parse_line_assignments [VStr "x"; ASSIGNMENT; VStr "y"; ASSIGNMENT; VStr "z"]
       (error_prefix_of source_name 1)
     = Ok (<["x" := VList []]> (<["y" := VStr "z"]> ∅))
  /\ parse_stream [ln "x=y=z"; ln "t"] source_name
     = Ok [ <["x" := VList []]> (<["y" := VStr "z"]> (<["label" := VStr "t"]>
              (<["source_name" := VStr source_name]> (<["line_number" := VStr "2"]> ∅)))) ].
Proof. repeat split; vm_compute; reflexivity. Qed.

(** ** Keys of a statement are bound once *)

Lemma dict_in_true (key : string) (d : gmap string pyval) :
  dict_in key d = true <-> is_Some (d !! key).
Proof.
  unfold dict_in. destruct (d !! key); split; try done; try by eexists.
  all: intros [? ?]; discriminate.
Qed.

Lemma dict_in_false (key : string) (d : gmap string pyval) :
  dict_in key d = false <-> d !! key = None.
Proof. unfold dict_in. destruct (d !! key); split; done. Qed.

Lemma set_label_preserves (error_prefix : string) (last_word : option string)
    (a a' : gmap string pyval) (k : string) (x : pyval) :
  set_label error_prefix last_word a = Ok a' -> a !! k = Some x -> a' !! k = Some x.
Proof.
  unfold set_label. intros H Hk.
  destruct last_word as [w|]; [|congruence].
  destruct (truthy (Some w)); [|congruence].
  destruct (dict_in "label" a) eqn:Hin; [discriminate|].
  injection H as <-. apply dict_in_false in Hin.
  rewrite lookup_insert_ne; [done|]. intros <-. congruence.
Qed.

(** A key bound during the loop keeps its value to the end: a second
    binding of it raises. *)
Lemma parse_line_assignments_loop_preserves (fuel : nat) (error_prefix : string)
    (values : list pyval) (a : gmap string pyval) (last_word : option string)
    (parameters : gmap string pyval) (k : string) (x : pyval) :
  parse_line_assignments_loop fuel error_prefix values a last_word = Some (Ok parameters) ->
  a !! k = Some x -> parameters !! k = Some x.
Proof.
  revert values a last_word.
  induction fuel as [|fuel IH]; intros values a last_word; [discriminate|].
  destruct values as [|value values]; simpl.
  - intros [= H]. by eapply set_label_preserves.
  - destruct (eq_ASSIGNMENT value).
    + destruct last_word as [w|]; [|discriminate].
      destruct (negb (truthy (Some w))); [discriminate|].
      destruct (isidentifier w) as [[|]|]; try discriminate.
      destruct ((length values =? 0)%nat || slice_is_ASSIGNMENT 0 values); [discriminate|].
      destruct (dict_in w a) eqn:Hin; [discriminate|].
      destruct (take_rhs values) as [rhs rest].
      intros H Hk. eapply IH; [exact H|].
      apply dict_in_false in Hin.
      rewrite lookup_insert_ne; [done|]. intros <-. congruence.
    + destruct value; try discriminate.
      destruct (set_label error_prefix last_word a) as [a'| |] eqn:Hl; try discriminate.
      intros H Hk. eapply IH; [exact H|]. by eapply set_label_preserves.
Qed.

Lemma collect_rhs_keeps (xs post run rest : list pyval) (w : string) :
  collect_rhs (xs ++ VStr w :: ASSIGNMENT :: post) = (run, rest) ->
  exists xs', rest = xs' ++ VStr w :: ASSIGNMENT :: post.
Proof.
  revert run rest. induction xs as [|x xs IH]; intros run rest.
  - simpl. intros [= <- <-]. by exists [].
  - change ((x :: xs) ++ VStr w :: ASSIGNMENT :: post)
      with (x :: (xs ++ VStr w :: ASSIGNMENT :: post)).
    simpl collect_rhs.
    destruct (slice_is_ASSIGNMENT 1 (x :: xs ++ VStr w :: ASSIGNMENT :: post)).
    + intros [= <- <-]. by exists (x :: xs).
    + destruct (collect_rhs (xs ++ VStr w :: ASSIGNMENT :: post)) as [r l] eqn:E.
      intros [= <- <-]. by eapply IH.
Qed.

(** In a statement that [parse_line_assignments] accepts, a word followed by
    [=] is bound to the right-hand side taken from the items after that [=]. *)
Lemma parse_line_assignments_loop_explicit (fuel : nat) (error_prefix : string)
    (pre post : list pyval) (w : string) (a : gmap string pyval)
    (last_word : option string) (parameters : gmap string pyval) :
  parse_line_assignments_loop fuel error_prefix
    (pre ++ VStr w :: ASSIGNMENT :: post) a last_word = Some (Ok parameters) ->
  parameters !! w = Some (take_rhs post).1.
Proof.
  revert pre a last_word.
  induction fuel as [|fuel IH]; intros pre a last_word; [discriminate|].
  destruct pre as [|p pre].
  - simpl.
    destruct (set_label error_prefix last_word a) as [a'| |]; try discriminate.
    destruct fuel as [|fuel]; [discriminate|]. simpl.
    destruct (negb _); [discriminate|].
    destruct (isidentifier w) as [[|]|]; try discriminate.
    destruct ((length post =? 0)%nat || slice_is_ASSIGNMENT 0 post); [discriminate|].
    destruct (dict_in w a'); [discriminate|].
    destruct (take_rhs post) as [rhs rest]. simpl.
    intros H. eapply parse_line_assignments_loop_preserves; [exact H|].
    apply lookup_insert_eq.
  - change ((p :: pre) ++ VStr w :: ASSIGNMENT :: post)
      with (p :: (pre ++ VStr w :: ASSIGNMENT :: post)).
    simpl parse_line_assignments_loop.
    destruct (eq_ASSIGNMENT p).
    + destruct last_word as [w0|]; [|discriminate].
      destruct (negb (truthy (Some w0))); [discriminate|].
      destruct (isidentifier w0) as [[|]|]; try discriminate.
      destruct ((length (pre ++ VStr w :: ASSIGNMENT :: post) =? 0)%nat
                || slice_is_ASSIGNMENT 0 (pre ++ VStr w :: ASSIGNMENT :: post));
        [discriminate|].
      destruct (dict_in w0 a); [discriminate|].
      unfold take_rhs.
      destruct ((length (pre ++ VStr w :: ASSIGNMENT :: post) =? 1)%nat
                || slice_is_ASSIGNMENT 2 (pre ++ VStr w :: ASSIGNMENT :: post)).
      * destruct pre as [|q pre]; simpl.
        -- destruct fuel; discriminate.
        -- apply IH.
      * destruct (collect_rhs (pre ++ VStr w :: ASSIGNMENT :: post)) as [run rest] eqn:E.
        apply collect_rhs_keeps in E as [xs' ->]. apply IH.
    + destruct p; try discriminate.
      destruct (set_label error_prefix last_word a) as [a'| |]; try discriminate.
      apply IH.
Qed.

Lemma parse_line_assignments_explicit (error_prefix : string)
    (pre post : list pyval) (w : string) (parameters : gmap string pyval) :
  parse_line_assignments (pre ++ VStr w :: ASSIGNMENT :: post) error_prefix = Ok parameters ->
  parameters !! w = Some (take_rhs post).1.
Proof.
  intros H. apply parse_line_assignments_unfold in H.
  by eapply parse_line_assignments_loop_explicit.
Qed.

(** ** The aggregation loop *)

Lemma parse_stream_step_labeled (source_name : string)
    (g : gmap string pyval) (tests : list (gmap string pyval))
    (line_number : nat) (values : list pyval) (parameters : gmap string pyval) :
  values ≠ [] ->
  parse_line_assignments values (error_prefix_of source_name line_number) = Ok parameters ->
  is_Some (parameters !! "label") ->
  parse_stream_step source_name (g, tests) (line_number, values)
  = Ok (g, tests ++ [parameters ∪
          <["line_number" := VStr (pretty line_number)]>
            (<["source_name" := VStr source_name]> g)]).
Proof.
  intros Hne Hp Hl. unfold parse_stream_step.
  destruct values as [|v values]; [done|].
  rewrite Hp. apply dict_in_true in Hl. by rewrite Hl.
Qed.

Lemma parse_stream_step_dom (source_name : string)
    (g g' : gmap string pyval) (tests tests' : list (gmap string pyval))
    (stmt : nat * list pyval) :
  parse_stream_step source_name (g, tests) stmt = Ok (g', tests') ->
  dom g ⊆ dom g'.
Proof.
  unfold parse_stream_step. destruct stmt as [line_number values].
  destruct values as [|v values]; [by intros [= <- <-]|].
  destruct (parse_line_assignments _ _) as [parameters| |]; try discriminate.
  destruct (negb (dict_in "label" parameters)).
  - intros [= <- <-]. rewrite dom_union_L. set_solver.
  - by intros [= <- <-].
Qed.

Lemma parse_stream_loop_dom (source_name : string) (stmts : list (nat * list pyval))
    (g g' : gmap string pyval) (tests tests' : list (gmap string pyval)) :
  parse_stream_loop source_name stmts (g, tests) = Ok (g', tests') ->
  dom g ⊆ dom g'.
Proof.
  revert g tests. induction stmts as [|stmt stmts IH]; intros g tests; simpl.
  - by intros [= <- <-].
  - destruct (parse_stream_step source_name (g, tests) stmt) as [[g1 t1]| |] eqn:E;
      try discriminate.
    intros H. apply parse_stream_step_dom in E. apply IH in H. set_solver.
Qed.

Lemma parse_stream_loop_app (source_name : string) (before after : list (nat * list pyval))
    (st st' : gmap string pyval * list (gmap string pyval)) :
  parse_stream_loop source_name before st = Ok st' ->
  parse_stream_loop source_name (before ++ after) st
  = parse_stream_loop source_name after st'.
Proof.
  revert st. induction before as [|stmt before IH]; intros st; simpl.
  - by intros [= <-].
  - destruct (parse_stream_step source_name st stmt); try discriminate. apply IH.
Qed.

(** The tests collected so far have no influence on the global variables. *)
Lemma parse_stream_loop_tests_irrelevant (source_name : string)
    (stmts : list (nat * list pyval)) (g g' : gmap string pyval)
    (tests tests' other : list (gmap string pyval)) :
  parse_stream_loop source_name stmts (g, tests) = Ok (g', tests') ->
  exists other', parse_stream_loop source_name stmts (g, other) = Ok (g', other').
Proof.
  revert g tests other. induction stmts as [|stmt stmts IH]; intros g tests other; simpl.
  - intros [= <- <-]. by eexists.
  - unfold parse_stream_step. destruct stmt as [line_number values].
    destruct values as [|v values]; [by apply IH|].
    destruct (parse_line_assignments _ _) as [parameters| |]; try discriminate.
    destruct (negb (dict_in "label" parameters)); by apply IH.
Qed.

(** C7.  A labeled statement met after the statements [before] have turned
    the global variables [g0] into [g1]: its test is [g1] with the two
    provenance entries added and then overridden by the statement's own
    parameters; the statements after it are processed with the global
    variables [g1], unchanged; removing the labeled statement from the input
    does not change the global variables at the end; and no statement ever
    removes a key from the global variables. *)
Theorem labeled_statement_frame (source_name : string)
    (before after : list (nat * list pyval)) (line_number : nat)
    (values : list pyval) (parameters g0 g1 : gmap string pyval)
    (t0 t1 : list (gmap string pyval)) :
  values ≠ [] ->
  parse_line_assignments values (error_prefix_of source_name line_number) = Ok parameters ->
  is_Some (parameters !! "label") ->
  parse_stream_loop source_name before (g0, t0) = Ok (g1, t1) ->
  parse_stream_loop source_name (before ++ (line_number, values) :: after) (g0, t0)
  = parse_stream_loop source_name after
      (g1, t1 ++ [parameters ∪ <["line_number" := VStr (pretty line_number)]>
                                 (<["source_name" := VStr source_name]> g1)])
  /\ (forall g' t',
        parse_stream_loop source_name (before ++ (line_number, values) :: after) (g0, t0)
        = Ok (g', t') ->
        dom g0 ⊆ dom g'
        /\ exists t'', parse_stream_loop source_name (before ++ after) (g0, t0) = Ok (g', t'')).
Proof.
  intros Hne Hp Hl Hbefore.
  assert (parse_stream_loop source_name (before ++ (line_number, values) :: after) (g0, t0)
          = parse_stream_loop source_name after
              (g1, t1 ++ [parameters ∪ <["line_number" := VStr (pretty line_number)]>
                                         (<["source_name" := VStr source_name]> g1)])) as Heq.
  { rewrite (parse_stream_loop_app _ _ _ _ _ Hbefore). simpl.
    by rewrite (parse_stream_step_labeled _ _ _ _ _ _ Hne Hp Hl). }
  split; [exact Heq|].
  intros g' t' Hrun. split.
  - by eapply parse_stream_loop_dom.
  - rewrite (parse_stream_loop_app _ _ _ _ _ Hbefore).
    rewrite Heq in Hrun. by eapply parse_stream_loop_tests_irrelevant.
Qed.

Lemma labeled_statement_frame_witness :
  parse_stream_loop "f"
    ([(1, [VStr "a"; ASSIGNMENT; VStr "1"])]
       ++ (2, [VStr "t"; VStr "b"; ASSIGNMENT; VStr "2"]) :: [(3, [VStr "u"])]) (∅, [])
  = parse_stream_loop "f" [(3, [VStr "u"])]
      (<["a" := VStr "1"]> ∅,
       [] ++ [<["label" := VStr "t"]> (<["b" := VStr "2"]> ∅)
                ∪ <["line_number" := VStr (pretty 2)]>
                    (<["source_name" := VStr "f"]> (<["a" := VStr "1"]> ∅))]).
Proof.
  apply (labeled_statement_frame "f" [(1, [VStr "a"; ASSIGNMENT; VStr "1"])]
           [(3, [VStr "u"])] 2 [VStr "t"; VStr "b"; ASSIGNMENT; VStr "2"]
           (<["label" := VStr "t"]> (<["b" := VStr "2"]> ∅)) ∅ (<["a" := VStr "1"]> ∅) [] []).
  - discriminate.
  - vm_compute. reflexivity.
  - exists (VStr "t"). vm_compute. reflexivity.
  - vm_compute. reflexivity.
Defined.

(** C9.  A labeled statement that assigns [source_name] or [line_number]:
    the test holds the right-hand side the statement gives, not the name of
    the source or the number of the line, because the statement's parameters
    are merged over the provenance entries. *)
Theorem provenance_overridden (source_name : string) (g : gmap string pyval)
    (tests : list (gmap string pyval)) (line_number : nat)
    (pre post : list pyval) (key : string) (parameters : gmap string pyval) :
  key = "source_name" \/ key = "line_number" ->
  parse_line_assignments (pre ++ VStr key :: ASSIGNMENT :: post)
    (error_prefix_of source_name line_number) = Ok parameters ->
  is_Some (parameters !! "label") ->
  exists test,
    parse_stream_step source_name (g, tests)
      (line_number, pre ++ VStr key :: ASSIGNMENT :: post)
    = Ok (g, tests ++ [test])
    /\ test !! key = Some (take_rhs post).1.
Proof.
  intros _ Hp Hl. eexists. split.
  - apply parse_stream_step_labeled; [|exact Hp|exact Hl]. by destruct pre.
  - apply lookup_union_Some_l. by eapply parse_line_assignments_explicit.
Qed.

Lemma provenance_overridden_witness :
  exists test,
    parse_stream_step "f" (∅, [])
      (7, [VStr "t"] ++ VStr "source_name" :: ASSIGNMENT :: [VStr "other"])
    = Ok (∅, [] ++ [test])
    /\ test !! "source_name" = Some (VStr "other").
Proof.
  apply (provenance_overridden "f" ∅ [] 7 [VStr "t"] [VStr "other"] "source_name"
           (<["source_name" := VStr "other"]> (<["label" := VStr "t"]> ∅))).
  - left. reflexivity.
  - vm_compute. reflexivity.
  - exists (VStr "t"). vm_compute. reflexivity.
Defined.

(** The same through the whole parser. *)
Example provenance_overridden_text :
  parse_stream [ln "t source_name=other line_number=99"] "f"
  = Ok [ <["label" := VStr "t"]> (<["source_name" := VStr "other"]>
           (<["line_number" := VStr "99"]> ∅)) ].
Proof. vm_compute. reflexivity. Qed.

(** An explicit [label=v] at the head of a statement, with [v] a single
    word, gives the parameters of the statement that has [v] as its bare
    word there. *)
Lemma explicit_label_as_bare_word (error_prefix v : string) (rest : list pyval) :
  v ≠ EmptyString ->
  rest = [] \/ (exists name post, rest = VStr name :: ASSIGNMENT :: post) ->
  parse_line_assignments (VStr "label" :: ASSIGNMENT :: VStr v :: rest) error_prefix
  = parse_line_assignments (VStr v :: rest) error_prefix.
Proof.
  intros Hv Hrest. destruct v as [|c v]; [done|].
  unfold parse_line_assignments. f_equal.
  destruct Hrest as [-> | (name & post & ->)]; [reflexivity|].
  cbn -[parse_line_assignments_loop].
  change (parse_line_assignments_loop (S (S (S (S (S (S (length post)))))))
            error_prefix
            (VStr "label" :: ASSIGNMENT :: VStr (String c v) :: VStr name :: ASSIGNMENT :: post)
            ∅ None)
    with (parse_line_assignments_loop (S (S (S (length post)))) error_prefix
            (ASSIGNMENT :: post) (<["label" := VStr (String c v)]> ∅) (Some name)).
  change (parse_line_assignments_loop (S (S (S (S (length post))))) error_prefix
            (VStr (String c v) :: VStr name :: ASSIGNMENT :: post) ∅ None)
    with (parse_line_assignments_loop (S (S (length post))) error_prefix
            (ASSIGNMENT :: post) (<["label" := VStr (String c v)]> ∅) (Some name)).
  rewrite (parse_line_assignments_loop_fuel_irrelevant
             (S (S (S (length post)))) (S (S (length post)))); [done| |]; simpl; lia.
Qed.

(** C10.  A statement with an explicit assignment to [label] that
    [parse_line_assignments] accepts has the parameter [label] bound to the
    right-hand side of that assignment, and [parse_stream] treats it as a
    test: one test is appended, its label is that right-hand side, and the
    global variables stay as they were.  With a single word [v] as the
    right-hand side, at the head of the statement, the parameters are those
    of the statement that has [v] as its bare word. *)
Theorem explicit_label_is_test (source_name : string) (g : gmap string pyval)
    (tests : list (gmap string pyval)) (line_number : nat)
    (pre post : list pyval) (parameters : gmap string pyval) :
  parse_line_assignments (pre ++ VStr "label" :: ASSIGNMENT :: post)
    (error_prefix_of source_name line_number) = Ok parameters ->
  parameters !! "label" = Some (take_rhs post).1
  /\ (exists test,
        parse_stream_step source_name (g, tests)
          (line_number, pre ++ VStr "label" :: ASSIGNMENT :: post)
        = Ok (g, tests ++ [test])
        /\ test !! "label" = Some (take_rhs post).1)
  /\ (forall v rest, v ≠ EmptyString ->
        rest = [] \/ (exists name post, rest = VStr name :: ASSIGNMENT :: post) ->
        parse_line_assignments (VStr "label" :: ASSIGNMENT :: VStr v :: rest)
          (error_prefix_of source_name line_number)
        = parse_line_assignments (VStr v :: rest) (error_prefix_of source_name line_number)).
Proof.
  intros Hp.
  pose proof (parse_line_assignments_explicit _ _ _ _ _ Hp) as Hlabel.
  split; [exact Hlabel|]. split.
  - eexists. split.
    + apply parse_stream_step_labeled; [by destruct pre|exact Hp|by eexists].
    + by apply lookup_union_Some_l.
  - intros v rest. apply explicit_label_as_bare_word.
Qed.

Lemma explicit_label_is_test_witness :
  exists test,
    parse_stream_step "f" (<["v" := VStr "1"]> ∅, [])
      (36, [] ++ VStr "label" :: ASSIGNMENT :: [VStr "last"])
    = Ok (<["v" := VStr "1"]> ∅, [] ++ [test])
    /\ test !! "label" = Some (VStr "last").
Proof.
  destruct (explicit_label_is_test "f" (<["v" := VStr "1"]> ∅) [] 36 [] [VStr "last"]
              (<["label" := VStr "last"]> ∅)) as (_ & H & _).
  - vm_compute. reflexivity.
  - exact H.
Defined.

(** ** [stringize] *)

Lemma pyval_ind (P : pyval -> Prop) :
  P VNone -> (forall b, P (VBool b)) -> (forall z, P (VInt z)) -> (forall s, P (VStr s)) ->
  (forall l, Forall P l -> P (VList l)) ->
  (forall d, Forall (fun kv => P kv.2) d -> P (VDict d)) ->
  forall v, P v.
Proof.
  intros HN HB HI HS HL HD. fix IH 1. intros [| b | z | s | l | d].
  - exact HN.
  - apply HB.
  - apply HI.
  - apply HS.
  - apply HL. induction l as [|x l IHl]; constructor; [apply IH|exact IHl].
  - apply HD. induction d as [|[k x] d IHd]; constructor; [apply IH|exact IHd].
Qed.

(** Whatever [stringize] is given, every leaf of what it returns is a [str]. *)
Lemma stringize_leaves (value : pyval) : leaves_are_str (stringize value) = true.
Proof.
  induction value as [| b | z | s | l IH | d IH] using pyval_ind; try done.
  - simpl. induction IH as [|x l Hx _ IHl]; simpl; [done|]. by rewrite Hx.
  - simpl. induction IH as [|[k x] d Hx _ IHd]; simpl; [done|].
    simpl in Hx. by rewrite Hx.
Qed.

(** ** Scenarios *)

(** C6.  The two-statement input of the specification yields one test:
    label [test1], [max_cpu_seconds] 10 (the statement's own value, not the
    global 45), [expected_stdout] kkk, the source name as given, and the line
    number 3 as a string. *)
Theorem scenario_override (source_name : string) :
  parse_stream
    (readlines (ln "max_cpu_seconds=45" +:+ ln ""
                +:+ ln "test1 max_cpu_seconds=10 expected_stdout=kkk"))
    source_name
  = Ok [ <["label" := VStr "test1"]>
          (<["max_cpu_seconds" := VStr "10"]>
            (<["expected_stdout" := VStr "kkk"]>
              (<["source_name" := VStr source_name]>
                (<["line_number" := VStr "3"]> ∅)))) ].
Proof. vm_compute. reflexivity. Qed.


(** ** Structural literals *)

(** The column of the bracket is used as an index into the whole
    accumulated text (line 124).  When the bracket is on a later line of the
    statement, the text evaluated starts on the first line: here [x] gets
    what begins at column 6 of the first line, not [[1]]. *)
Example bracket_column_indexes_whole_buffer :
  parse_values [ln "a= '''[9,"; ln "''' x=[1] ''']"] "f"
  = Ok [(1, [VStr "a"; ASSIGNMENT; VStr (ln "[9,"); VStr "x"; ASSIGNMENT;
             VList [VStr "9"; VStr " x=[1] "]])].
Proof. vm_compute. reflexivity. Qed.

(** C1 as stated fails: arithmetic inside the brackets is not a syntax
    error, it is computed. *)
Lemma arithmetic_is_evaluated :
  parse_values [ln "x=[1+2]"] "f" = Ok [(1, [VStr "x"; ASSIGNMENT; VList [VStr "3"]])]
  /\ parse_stream [ln "t x=[1+2]"] "f"
     = Ok [ <["label" := VStr "t"]> (<["x" := VList [VStr "3"]]>
              (<["source_name" := VStr "f"]> (<["line_number" := VStr "1"]> ∅))) ].
Proof. split; vm_compute; reflexivity. Qed.

(** ** Statements that do not complete *)

Lemma string_app_cons (x : ascii) (a b : string) : String x a +:+ b = String x (a +:+ b).
Proof. reflexivity. Qed.

Lemma string_app_assoc (a b c : string) : (a +:+ b) +:+ c = a +:+ (b +:+ c).
Proof. induction a as [|x a IH]; [done|]. rewrite !string_app_cons. by rewrite IH. Qed.

Lemma string_app_empty_r (a : string) : a +:+ EmptyString = a.
Proof. induction a as [|x a IH]; [done|]. rewrite string_app_cons. by rewrite IH. Qed.

(** C3, as the code has it.  When every scan of the growing statement ends
    in an exception that the [except] clause catches (as a [SyntaxError] of
    [eval] is, so also when a structural literal is followed by a bare word),
    no error is raised at the statement: each line is added to it, and at the
    end of the input the parse fails with the unclosed-expression error
    carrying the number of the statement's first line. *)
Theorem unfinished_statement_accumulates (source_name : string) (stream : list string)
    (line_number : nat) (st : pv_state) :
  stream ≠ [] ->
  (forall k, 0 < k <= length stream ->
     exists e, caught e = true /\
       scan_tokens source_name (line_number + k - 1)
         (combined_lines st +:+ concat_lines (take k stream))
         (generate_tokens (combined_lines st +:+ concat_lines (take k stream))) [] None
       = Raise e) ->
  parse_values_loop source_name stream line_number st
  = Raise (TestSpecificationError
      (source_name +:+ ":"
       +:+ pretty (if String.eqb (combined_lines st) EmptyString then line_number
                   else combined_lines_number st)
       +:+ " unclosed expression")).
Proof.
  revert line_number st.
  induction stream as [|line stream IH]; intros line_number st Hne Hscan; [done|].
  simpl. unfold parse_values_step.
  destruct (Hscan 1) as (e & He & Hraise); [simpl; lia|].
  simpl in Hraise. rewrite string_app_empty_r in Hraise.
  replace (line_number + 1 - 1) with line_number in Hraise by lia.
  rewrite Hraise, He.
  assert (String.eqb (combined_lines st +:+ line) EmptyString = false) as Hbuf.
  { apply String.eqb_neq. intros Hempty. rewrite Hempty in Hraise. discriminate. }
  destruct stream as [|line' stream].
  - simpl. unfold parse_values_finish. simpl. by rewrite Hbuf.
  - rewrite IH; [|done|].
    + simpl. by rewrite Hbuf.
    + intros k Hk. simpl combined_lines.
      destruct (Hscan (S k)) as (e' & He' & Hraise'); [simpl in *; lia|].
      exists e'. split; [done|].
      replace (S line_number + k - 1) with (line_number + S k - 1) by lia.
      rewrite string_app_assoc. exact Hraise'.
Qed.

Lemma unfinished_statement_accumulates_witness :
  parse_values_loop "f" [ln "x=[1] y"; ln "z=2"] 1 (mkPv EmptyString 1 [])
  = Raise (TestSpecificationError "f:1 unclosed expression").
Proof.
  apply (unfinished_statement_accumulates "f" [ln "x=[1] y"; ln "z=2"] 1
           (mkPv EmptyString 1 [])).
  - discriminate.
  - intros k Hk. exists SyntaxError. split; [reflexivity|].
    destruct k as [|[|[|k]]]; [simpl in Hk; lia| | |simpl in Hk; lia];
      vm_compute; reflexivity.
Defined.

(** C3 as stated fails.  After a structural literal followed by a bare word
    the statement is kept and the next line is added to it; the error comes
    at the end of the input and is the unclosed-expression one; and content
    after a literal that makes an expression with it is accepted. *)
Lemma trailing_content_not_rejected :
  parse_values_step "f" (mkPv EmptyString 1 []) 1 (ln "x=[1] y")
    = Ok (mkPv (ln "x=[1] y") 1 [])
  /\ parse_values [ln "x=[1] y"; ln "z=2"] "f"
     = Raise (TestSpecificationError "f:1 unclosed expression")
  /\ parse_values [ln "x=[1]+[2]"] "f"
     = Ok [(1, [VStr "x"; ASSIGNMENT; VList [VStr "1"; VStr "2"]])].
Proof. repeat split; vm_compute; reflexivity. Qed.

(** ** Comments *)

(** C2 fails on a comment that contains [=]: the check for tokens that
    contain [=] comes before the check for ignored token types, so the
    [COMMENT] token raises. *)
Theorem comment_with_equals_rejected (source_name : string) :
  parse_stream [ln "# a=b"] source_name
  = Raise (TestSpecificationError (source_name +:+ ":1:0: syntax error in assignment")).
Proof. vm_compute. reflexivity. Qed.

(** What does hold of C2: blank lines and comment lines without [=] are
    passed over, and the parse returns no test. *)

Lemma ascii_eqb_dec (a b : ascii) :
  (if ascii_dec a b then true else false) = (a =? b)%char.
Proof.
  destruct (ascii_dec a b) as [->|Hne].
  - by rewrite Ascii.eqb_refl.
  - symmetry. by apply Ascii.eqb_neq.
Qed.

Lemma str_in_char (c : ascii) (s : string) :
  str_in (String c EmptyString) s = char_in c s.
Proof.
  induction s as [|d s IH]; [done|].
  simpl. rewrite IH. f_equal.
  destruct (ascii_dec c d) as [->|Hne].
  - rewrite Ascii.eqb_refl. by destruct s.
  - symmetry. by apply Ascii.eqb_neq.
Qed.

Lemma rstrip_crlf_chars (x : ascii) (s a b : string) :
  rstrip_crlf s = (a, b) -> char_in x s = false ->
  char_in x a = false /\ char_in x b = false.
Proof.
  revert a b. induction s as [|c s IH]; intros a b; simpl.
  - by intros [= <- <-].
  - destruct (rstrip_crlf s) as [a0 b0]. intros Heq Hx.
    apply orb_false_iff in Hx as [Hc Hs].
    destruct (IH a0 b0 eq_refl Hs) as [Ha0 Hb0].
    destruct a0 as [|d a0].
    + destruct ((c =? CR)%char || (c =? LF)%char); injection Heq as <- <-; simpl;
        rewrite ?Hc, ?Hb0; done.
    + injection Heq as <- <-. simpl in *. by rewrite Hc, Ha0.
Qed.

Lemma readlines_single (line : string) :
  lf_only_last line = true -> line ≠ EmptyString -> readlines line = [line].
Proof.
  induction line as [|c r IH]; [done|]. simpl. intros Hlf _.
  destruct (c =? LF)%char eqn:Hc.
  - apply String.eqb_eq in Hlf. subst r. apply Ascii.eqb_eq in Hc. by subst c.
  - destruct r as [|d r]; [done|]. by rewrite IH.
Qed.

Lemma measure_indent_span (column pos : nat) (line : string) :
  (measure_indent column pos line).2 = (span is_blank line).2.
Proof.
  revert column pos. induction line as [|c r IH]; intros column pos; [done|].
  simpl. destruct (span is_blank r) as [a b] eqn:Es. simpl in IH.
  unfold is_blank.
  destruct (c =? " ")%char; simpl; [apply IH|].
  destruct (c =? TAB)%char; simpl; [rewrite orb_true_r; apply IH|].
  destruct (c =? FF)%char; simpl; [apply IH|done].
Qed.

Lemma scan_tokens_skip (source_name : string) (line_number : nat) (buffer : string)
    (t : TokenInfo) (rest : token_stream) (values : list pyval)
    (last_token : option token) :
  skippable t = true ->
  scan_tokens source_name line_number buffer (TCons t rest) values last_token
  = scan_tokens source_name line_number buffer rest values last_token.
Proof.
  unfold skippable. intros H.
  apply andb_true_iff in H as [H H3]. apply andb_true_iff in H as [H1 H2].
  apply negb_true_iff in H1, H2. simpl. by rewrite H1, H2, H3.
Qed.

Lemma scan_tokens_prepend (source_name : string) (line_number : nat) (buffer : string)
    (tokens : list TokenInfo) (rest : token_stream) (values : list pyval)
    (last_token : option token) :
  forallb skippable tokens = true ->
  scan_tokens source_name line_number buffer (prepend tokens rest) values last_token
  = scan_tokens source_name line_number buffer rest values last_token.
Proof.
  induction tokens as [|t tokens IH]; [done|]. intros H.
  apply andb_true_iff in H as [Ht Hts].
  change (prepend (t :: tokens) rest) with (TCons t (prepend tokens rest)).
  rewrite scan_tokens_skip by done. by apply IH.
Qed.

Lemma scan_tokens_epilogue (source_name : string) (line_number lnum : nat)
    (buffer last_line : string) :
  scan_tokens source_name line_number buffer (epilogue lnum last_line [0]) [] None = Ok [].
Proof.
  unfold epilogue. rewrite scan_tokens_prepend; [done|].
  rewrite forallb_app. apply andb_true_iff. split; [|done].
  destruct (str_last last_line) as [c|]; [|done].
  by destruct (negb _ && negb _).
Qed.

(** The tokens of a blank line or of a comment line without [=]. *)
Lemma tokenize_line_blank (lnum : nat) (line : string) :
  blank_or_plain_comment line = true -> line ≠ EmptyString ->
  tokenize_line lnum line initial_state = Break []
  \/ exists tokens, forallb skippable tokens = true
       /\ tokenize_line lnum line initial_state = NextLine tokens initial_state.
Proof.
  unfold blank_or_plain_comment. intros H Hne.
  apply andb_true_iff in H as [_ H].
  unfold tokenize_line. simpl contstr. cbv iota. simpl parenlev. simpl continued.
  cbv beta iota. simpl andb. cbv iota.
  destruct line as [|c0 line0] eqn:Hline; [done|]. rewrite <- Hline in *.
  pose proof (measure_indent_span 0 0 line) as Hm.
  destruct (measure_indent 0 0 line) as [[column pos] rest]. simpl in Hm. subst rest.
  destruct (span is_blank line).2 as [|c body] eqn:Hrest; [by left|].
  right. apply orb_true_iff in H as [Hc|Hc].
  - apply andb_true_iff in Hc as [Hc Hbody]. apply Ascii.eqb_eq in Hc. subst c.
    apply String.eqb_eq in Hbody. subst body.
    change (char_in LF (String "#" (String CR (String LF EmptyString)))) with true.
    change (LF =? "#")%char with false. cbv iota.
    eexists. split; [|reflexivity]. done.
  - apply andb_true_iff in Hc as [Hc Hbody]. apply Ascii.eqb_eq in Hc. subst c.
    apply negb_true_iff in Hbody.
    change (char_in "#" (String "#" (String CR (String LF EmptyString)))) with true.
    change ("#" =? "#")%char with true. cbv iota.
    destruct (rstrip_crlf (String "#" body)) as [comment nl] eqn:Hstrip.
    eexists. split; [|reflexivity].
    destruct (rstrip_crlf_chars "=" _ _ _ Hstrip) as [Hcomment Hnl]; [by simpl|].
    unfold skippable. simpl. rewrite !str_in_char, Hcomment, Hnl. simpl.
    change (in_IGNORE_TOKENS COMMENT) with true.
    change (in_IGNORE_TOKENS NL) with true.
    by rewrite !orb_true_r.
Qed.

Lemma scan_tokens_blank (source_name : string) (line_number : nat) (line : string) :
  blank_or_plain_comment line = true ->
  scan_tokens source_name line_number line (generate_tokens line) [] None = Ok [].
Proof.
  intros H. destruct line as [|c0 line0] eqn:Hline; [done|]. rewrite <- Hline in *.
  assert (line ≠ EmptyString) as Hne by (by subst line).
  unfold generate_tokens. rewrite readlines_single; [|by apply andb_true_iff in H as [? _]|done].
  simpl tokenize_loop.
  destruct (tokenize_line_blank 1 line H Hne) as [-> | (tokens & Hskip & ->)].
  - apply scan_tokens_epilogue.
  - rewrite scan_tokens_prepend by done.
    change (tokenize_line 2 EmptyString initial_state) with (Break []).
    apply scan_tokens_epilogue.
Qed.

Lemma parse_values_loop_blank (source_name : string) (stream : list string)
    (line_number : nat) (st : pv_state) :
  combined_lines st = EmptyString ->
  Forall (fun line => blank_or_plain_comment line = true) stream ->
  exists stmts,
    parse_values_loop source_name stream line_number st = Ok (parse st ++ stmts)
    /\ Forall (fun stmt => stmt.2 = []) stmts.
Proof.
  revert line_number st. induction stream as [|line stream IH]; intros line_number st Hc Hall.
  - simpl. unfold parse_values_finish. rewrite Hc. simpl. exists [].
    by rewrite app_nil_r.
  - apply Forall_cons in Hall as [Hline Hall].
    simpl. unfold parse_values_step. rewrite Hc. simpl String.eqb. cbv iota.
    change (EmptyString +:+ line) with line.
    rewrite scan_tokens_blank by done.
    destruct (IH (S line_number) (mkPv EmptyString line_number (parse st ++ [(line_number, [])])))
      as (stmts & Hrun & Hempty); [done|done|].
    rewrite Hrun. simpl. exists ((line_number, []) :: stmts).
    split; [by rewrite <- app_assoc|]. by constructor.
Qed.

Lemma parse_stream_loop_empty_values (source_name : string)
    (stmts : list (nat * list pyval))
    (st : gmap string pyval * list (gmap string pyval)) :
  Forall (fun stmt => stmt.2 = []) stmts ->
  parse_stream_loop source_name stmts st = Ok st.
Proof.
  induction 1 as [|[line_number values] stmts Hv _ IH]; [done|].
  simpl in Hv. subst values. simpl. unfold parse_stream_step.
  destruct st as [g tests]. exact IH.
Qed.

(** X15.  A stream of blank lines and of comment lines whose text has no
    [=] gives no test and raises nothing. *)
Theorem blank_and_plain_comment_lines_ignored (stream : list string) (source_name : string) :
  Forall (fun line => blank_or_plain_comment line = true) stream ->
  parse_stream stream source_name = Ok [].
Proof.
  intros Hall. unfold parse_stream, parse_values.
  destruct (parse_values_loop_blank source_name stream 1 (mkPv EmptyString 1 []))
    as (stmts & -> & Hempty); [done|done|].
  simpl. by rewrite parse_stream_loop_empty_values.
Qed.

Lemma blank_and_plain_comment_lines_ignored_witness :
  parse_stream [ln ""; ln "# aaaa" ; ln "   "; "  # last line, no line feed"] "f" = Ok [].
Proof.
  apply blank_and_plain_comment_lines_ignored.
  repeat constructor.
Defined.

(** * Further properties *)

(** ** [stringize] on values that are already strings *)

Lemma stringize_fixed (value : pyval) :
  leaves_are_str value = true -> stringize value = value.
Proof.
  induction value as [| b | z | s | l IH | d IH] using pyval_ind; try done.
  - simpl. intros H. f_equal.
    induction IH as [|x l Hx _ IHl]; [done|].
    simpl in H. apply andb_true_iff in H as [H1 H2].
    simpl. by rewrite Hx, IHl.
  - simpl. intros H. f_equal.
    induction IH as [|[k x] d Hx _ IHd]; [done|].
    simpl in H. apply andb_true_iff in H as [H1 H2].
    simpl in Hx. simpl. by rewrite Hx, IHd.
Qed.

(** X1.  [stringize] changes nothing in a value whose leaves are all
    strings, and so applying it twice is the same as applying it once. *)
Theorem stringize_idempotent (value : pyval) :
  (leaves_are_str value = true -> stringize value = value)
  /\ stringize (stringize value) = stringize value.
Proof.
  split; [apply stringize_fixed|]. apply stringize_fixed, stringize_leaves.
Qed.

Lemma stringize_idempotent_witness :
  stringize (VDict [(VStr "a", VList [VStr "1"; VStr "2"])])
  = VDict [(VStr "a", VList [VStr "1"; VStr "2"])].
Proof.
  destruct (stringize_idempotent (VDict [(VStr "a", VList [VStr "1"; VStr "2"])]))
    as [Hfixed _].
  apply Hfixed. reflexivity.
Defined.

(** ** More on [parse_line_assignments] *)

(** A word that is already bound cannot be followed by [=] later on. *)
Lemma parse_line_assignments_loop_unbound (fuel : nat) (error_prefix : string)
    (pre post : list pyval) (w : string) (a : gmap string pyval)
    (last_word : option string) (parameters : gmap string pyval) :
  parse_line_assignments_loop fuel error_prefix
    (pre ++ VStr w :: ASSIGNMENT :: post) a last_word = Some (Ok parameters) ->
  a !! w = None.
Proof.
  revert pre a last_word.
  induction fuel as [|fuel IH]; intros pre a last_word; [discriminate|].
  destruct pre as [|p pre].
  - simpl.
    destruct (set_label error_prefix last_word a) as [a'| |] eqn:Hl; try discriminate.
    destruct fuel as [|fuel]; [discriminate|]. simpl.
    destruct (negb _); [discriminate|].
    destruct (isidentifier w) as [[|]|]; try discriminate.
    destruct ((length post =? 0)%nat || slice_is_ASSIGNMENT 0 post); [discriminate|].
    destruct (dict_in w a') eqn:Hin; [discriminate|]. intros _.
    apply dict_in_false in Hin.
    destruct (a !! w) as [x|] eqn:Hw; [|done].
    rewrite (set_label_preserves _ _ _ _ _ _ Hl Hw) in Hin. discriminate.
  - change ((p :: pre) ++ VStr w :: ASSIGNMENT :: post)
      with (p :: (pre ++ VStr w :: ASSIGNMENT :: post)).
    simpl parse_line_assignments_loop.
    destruct (eq_ASSIGNMENT p).
    + destruct last_word as [w0|]; [|discriminate].
      destruct (negb (truthy (Some w0))); [discriminate|].
      destruct (isidentifier w0) as [[|]|]; try discriminate.
      destruct ((length (pre ++ VStr w :: ASSIGNMENT :: post) =? 0)%nat
                || slice_is_ASSIGNMENT 0 (pre ++ VStr w :: ASSIGNMENT :: post));
        [discriminate|].
      destruct (dict_in w0 a); [discriminate|].
      unfold take_rhs.
      destruct ((length (pre ++ VStr w :: ASSIGNMENT :: post) =? 1)%nat
                || slice_is_ASSIGNMENT 2 (pre ++ VStr w :: ASSIGNMENT :: post)).
      * destruct pre as [|q pre]; simpl.
        -- destruct fuel; discriminate.
        -- intros H. apply IH in H. by apply lookup_insert_None in H as [H _].
      * destruct (collect_rhs (pre ++ VStr w :: ASSIGNMENT :: post)) as [run rest] eqn:E.
        apply collect_rhs_keeps in E as [xs' ->].
        intros H. apply IH in H. by apply lookup_insert_None in H as [H _].
    + destruct p; try discriminate.
      destruct (set_label error_prefix last_word a) as [a'| |] eqn:Hl; try discriminate.
      intros H. apply IH in H.
      destruct (a !! w) as [x|] eqn:Hw; [|done].
      rewrite (set_label_preserves _ _ _ _ _ _ Hl Hw) in H. discriminate.
Qed.

Lemma parse_line_assignments_loop_twice (fuel : nat) (error_prefix : string)
    (x y z : list pyval) (w : string) (a : gmap string pyval)
    (last_word : option string) (parameters : gmap string pyval) :
  parse_line_assignments_loop fuel error_prefix
    (x ++ VStr w :: ASSIGNMENT :: y ++ VStr w :: ASSIGNMENT :: z) a last_word
  ≠ Some (Ok parameters).
Proof.
  revert x a last_word.
  induction fuel as [|fuel IH]; intros x a last_word; [discriminate|].
  destruct x as [|p x].
  - simpl.
    destruct (set_label error_prefix last_word a) as [a'| |] eqn:Hl; try discriminate.
    destruct fuel as [|fuel]; [discriminate|]. simpl.
    destruct (negb _); [discriminate|].
    destruct (isidentifier w) as [[|]|]; try discriminate.
    destruct ((length (y ++ VStr w :: ASSIGNMENT :: z) =? 0)%nat
              || slice_is_ASSIGNMENT 0 (y ++ VStr w :: ASSIGNMENT :: z)); [discriminate|].
    destruct (dict_in w a'); [discriminate|].
    unfold take_rhs.
    destruct ((length (y ++ VStr w :: ASSIGNMENT :: z) =? 1)%nat
              || slice_is_ASSIGNMENT 2 (y ++ VStr w :: ASSIGNMENT :: z)).
    + destruct y as [|q y]; simpl.
      * destruct fuel; discriminate.
      * intros H. apply parse_line_assignments_loop_unbound in H.
        by rewrite lookup_insert_eq in H.
    + destruct (collect_rhs (y ++ VStr w :: ASSIGNMENT :: z)) as [run rest] eqn:E.
      apply collect_rhs_keeps in E as [xs' ->].
      intros H. apply parse_line_assignments_loop_unbound in H.
      by rewrite lookup_insert_eq in H.
  - change ((p :: x) ++ VStr w :: ASSIGNMENT :: y ++ VStr w :: ASSIGNMENT :: z)
      with (p :: (x ++ VStr w :: ASSIGNMENT :: y ++ VStr w :: ASSIGNMENT :: z)).
    simpl parse_line_assignments_loop.
    destruct (eq_ASSIGNMENT p).
    + destruct last_word as [w0|]; [|discriminate].
      destruct (negb (truthy (Some w0))); [discriminate|].
      destruct (isidentifier w0) as [[|]|]; try discriminate.
      destruct ((length _ =? 0)%nat || slice_is_ASSIGNMENT 0 _); [discriminate|].
      destruct (dict_in w0 a); [discriminate|].
      unfold take_rhs.
      destruct ((length _ =? 1)%nat || slice_is_ASSIGNMENT 2 _).
      * destruct x as [|q x]; simpl.
        -- destruct fuel; discriminate.
        -- apply IH.
      * destruct (collect_rhs _) as [run rest] eqn:E.
        apply collect_rhs_keeps in E as [xs' ->]. apply IH.
    + destruct p; try discriminate.
      destruct (set_label error_prefix last_word a) as [a'| |]; try discriminate.
      apply IH.
Qed.

(** X2.  A statement in which the same word is followed by [=] twice is
    never accepted, whatever stands around the two assignments. *)
Theorem reassignment_rejected (error_prefix : string) (x y z : list pyval) (w : string)
    (parameters : gmap string pyval) :
  parse_line_assignments (x ++ VStr w :: ASSIGNMENT :: y ++ VStr w :: ASSIGNMENT :: z)
    error_prefix ≠ Ok parameters.
Proof.
  intros H. apply parse_line_assignments_unfold in H.
  by apply parse_line_assignments_loop_twice in H.
Qed.

Lemma reassignment_rejected_witness :
  parse_line_assignments
    ([VStr "t"] ++ VStr "a" :: ASSIGNMENT :: [VStr "1"] ++ VStr "a" :: ASSIGNMENT :: [VStr "2"])
    "f:1: " ≠ Ok ∅.
Proof. apply (reassignment_rejected "f:1: " [VStr "t"] [VStr "1"] [VStr "2"] "a"). Defined.

Lemma parse_line_assignments_loop_word (fuel : nat) (error_prefix s : string)
    (values : list pyval) (a : gmap string pyval) (last_word : option string) :
  parse_line_assignments_loop (S fuel) error_prefix (VStr s :: values) a last_word
  = match set_label error_prefix last_word a with
    | Ok a' => parse_line_assignments_loop fuel error_prefix values a' (Some s)
    | Raise e => Some (Raise e)
    | Unmodelled => Some Unmodelled
    end.
Proof. reflexivity. Qed.

Lemma parse_line_assignments_loop_end (fuel : nat) (error_prefix : string)
    (a : gmap string pyval) (last_word : option string) :
  parse_line_assignments_loop (S fuel) error_prefix [] a last_word
  = Some (set_label error_prefix last_word a).
Proof. reflexivity. Qed.

Lemma set_label_first (error_prefix : string) (c : ascii) (w : string) :
  set_label error_prefix (Some (String c w)) ∅ = Ok (<["label" := VStr (String c w)]> ∅).
Proof. reflexivity. Qed.

(** X3.  When the first item of an accepted statement is a non-empty word
    that is not followed by [=], that word is the statement's label. *)
Theorem leading_bare_word_is_label (error_prefix a : string) (rest : list pyval)
    (parameters : gmap string pyval) :
  a ≠ EmptyString ->
  rest !! 0 ≠ Some ASSIGNMENT ->
  parse_line_assignments (VStr a :: rest) error_prefix = Ok parameters ->
  parameters !! "label" = Some (VStr a).
Proof.
  intros Ha Hrest H. apply parse_line_assignments_unfold in H.
  destruct a as [|c a]; [done|].
  rewrite parse_line_assignments_loop_word in H.
  change (set_label error_prefix None ∅) with (Ok (∅ : gmap string pyval)) in H.
  cbv iota beta in H. destruct rest as [|v rest]; simpl length in H.
  - rewrite parse_line_assignments_loop_end, set_label_first in H.
    injection H as <-. apply lookup_insert_eq.
  - destruct v; try (by destruct Hrest); try discriminate.
    rewrite parse_line_assignments_loop_word, set_label_first in H.
    eapply parse_line_assignments_loop_preserves; [exact H|]. apply lookup_insert_eq.
Qed.

Lemma leading_bare_word_is_label_witness :
  (<["stdin" := VStr "5"]> (<["label" := VStr "test2"]> ∅ : gmap string pyval)) !! "label"
  = Some (VStr "test2").
Proof.
  apply (leading_bare_word_is_label "f:12: " "test2" [VStr "stdin"; ASSIGNMENT; VStr "5"]).
  - discriminate.
  - discriminate.
  - vm_compute. reflexivity.
Defined.

(** X4.  Two non-empty bare words at the head of a statement, at its end or
    followed by a third word, raise the multiple-labels error. *)
Theorem second_bare_word_rejected (error_prefix a b : string) (rest : list pyval) :
  a ≠ EmptyString -> b ≠ EmptyString ->
  rest = [] \/ (exists c rest', rest = VStr c :: rest') ->
  parse_line_assignments (VStr a :: VStr b :: rest) error_prefix
  = Raise (TestSpecificationError (error_prefix +:+ "error - multiple labels")).
Proof.
  intros Ha Hb Hrest. destruct a as [|ca a]; [done|]. destruct b as [|cb b]; [done|].
  unfold parse_line_assignments.
  destruct Hrest as [-> | (c & rest' & ->)]; reflexivity.
Qed.

Lemma second_bare_word_rejected_witness :
  parse_line_assignments (VStr "test1" :: VStr "test2" :: []) "f:1: "
  = Raise (TestSpecificationError ("f:1: " +:+ "error - multiple labels")).
Proof.
  apply (second_bare_word_rejected "f:1: " "test1" "test2" []).
  - discriminate.
  - discriminate.
  - left. reflexivity.
Defined.

Lemma parse_line_assignments_loop_keys (fuel : nat) (error_prefix : string)
    (values : list pyval) (a : gmap string pyval) (last_word : option string)
    (parameters : gmap string pyval) :
  (forall k, is_Some (a !! k) -> k = "label" \/ isidentifier k = Some true) ->
  parse_line_assignments_loop fuel error_prefix values a last_word = Some (Ok parameters) ->
  forall k, is_Some (parameters !! k) -> k = "label" \/ isidentifier k = Some true.
Proof.
  assert (forall (a a' : gmap string pyval) lw,
            (forall k, is_Some (a !! k) -> k = "label" \/ isidentifier k = Some true) ->
            set_label error_prefix lw a = Ok a' ->
            forall k, is_Some (a' !! k) -> k = "label" \/ isidentifier k = Some true) as Hlabel.
  { intros b b' lw Hb. unfold set_label.
    destruct lw as [w|]; [|by intros [= <-]].
    destruct (truthy (Some w)); [|by intros [= <-]].
    destruct (dict_in "label" b); [discriminate|]. intros [= <-] k Hk.
    destruct (decide (k = "label")) as [->|Hne]; [by left|].
    rewrite lookup_insert_ne in Hk by done. by apply Hb. }
  revert values a last_word.
  induction fuel as [|fuel IH]; intros values a last_word Ha; [discriminate|].
  destruct values as [|value values]; simpl.
  - intros [= H]. by eapply Hlabel.
  - destruct (eq_ASSIGNMENT value).
    + destruct last_word as [w|]; [|discriminate].
      destruct (negb (truthy (Some w))); [discriminate|].
      destruct (isidentifier w) as [[|]|] eqn:Hid; try discriminate.
      destruct ((length values =? 0)%nat || slice_is_ASSIGNMENT 0 values); [discriminate|].
      destruct (dict_in w a); [discriminate|].
      destruct (take_rhs values) as [rhs rest].
      apply IH. intros k Hk.
      destruct (decide (k = w)) as [->|Hne]; [by right|].
      rewrite lookup_insert_ne in Hk by done. by apply Ha.
    + destruct value; try discriminate.
      destruct (set_label error_prefix last_word a) as [a'| |] eqn:Hl; try discriminate.
      apply IH. by eapply Hlabel.
Qed.

(** X5.  Every parameter name of an accepted statement is [label] or an
    identifier. *)
Theorem parameter_names_are_identifiers (values : list pyval) (error_prefix : string)
    (parameters : gmap string pyval) (k : string) :
  parse_line_assignments values error_prefix = Ok parameters ->
  is_Some (parameters !! k) ->
  k = "label" \/ isidentifier k = Some true.
Proof.
  intros H. apply parse_line_assignments_unfold in H.
  eapply parse_line_assignments_loop_keys; [|exact H].
  intros k0 [x Hx]. by rewrite lookup_empty in Hx.
Qed.

Lemma parameter_names_are_identifiers_witness :
  "max_cpu_seconds" = "label" \/ isidentifier "max_cpu_seconds" = Some true.
Proof.
  apply (parameter_names_are_identifiers
           [VStr "t"; VStr "max_cpu_seconds"; ASSIGNMENT; VStr "10"] "f:1: "
           (<["max_cpu_seconds" := VStr "10"]> (<["label" := VStr "t"]> ∅))).
  - vm_compute. reflexivity.
  - exists (VStr "10"). vm_compute. reflexivity.
Defined.

(** The step of the loop at an [=] that passes the checks of lines 54-61. *)
Lemma parse_line_assignments_loop_assign (fuel : nat) (error_prefix w : string)
    (values : list pyval) (a : gmap string pyval) :
  w ≠ EmptyString ->
  isidentifier w = Some true ->
  values ≠ [] ->
  values !! 0 ≠ Some ASSIGNMENT ->
  a !! w = None ->
  parse_line_assignments_loop (S fuel) error_prefix (ASSIGNMENT :: values) a (Some w)
  = parse_line_assignments_loop fuel error_prefix (take_rhs values).2
      (<[w := (take_rhs values).1]> a) None.
Proof.
  intros Hw Hid Hne H0 Hfresh.
  simpl. destruct w as [|c w]; [done|]. simpl truthy. cbv iota beta.
  rewrite Hid.
  assert ((length values =? 0)%nat = false) as -> by (by destruct values).
  apply slice_is_ASSIGNMENT_false in H0. rewrite H0. simpl.
  unfold dict_in. rewrite Hfresh.
  by destruct (take_rhs values) as [rhs rest].
Qed.

(** ** The right-hand side of an assignment *)

(** C5.  When [parse_line_assignments] resolves an [=] (the pending word [w]
    is a non-empty identifier not yet assigned, and an item other than [=]
    follows), the loop goes on with [w] bound to a right-hand side [rhs] and
    with the items [rest], and [rhs] is what the returned parameters hold
    for [w]: in every accepted statement in which [w] and [=] stand before
    these items, and, when the right-hand side takes all the items, in the
    statement [w = items], which is accepted and binds nothing else.  If
    exactly one item follows the [=], or the item two positions ahead is
    [=], [rhs] is the next single item; otherwise [rhs] is the list of the
    consecutive items before the first position whose next-but-one item is
    [=] (or before the end), so [rest] is empty or starts with the next
    variable name and its [=]. *)
Theorem rhs_extraction (fuel : nat) (error_prefix w : string)
    (values : list pyval) (assignments : gmap string pyval) :
  w ≠ EmptyString ->
  isidentifier w = Some true ->
  values ≠ [] ->
  values !! 0 ≠ Some ASSIGNMENT ->
  assignments !! w = None ->
  exists rhs rest,
    parse_line_assignments_loop (S fuel) error_prefix (ASSIGNMENT :: values)
      assignments (Some w)
    = parse_line_assignments_loop fuel error_prefix rest (<[w := rhs]> assignments) None
    /\ (forall pre parameters,
          parse_line_assignments (pre ++ VStr w :: ASSIGNMENT :: values) error_prefix
          = Ok parameters ->
          parameters !! w = Some rhs)
    /\ (rest = [] ->
        parse_line_assignments (VStr w :: ASSIGNMENT :: values) error_prefix
        = Ok (<[w := rhs]> ∅))
    /\ (length values = 1 \/ values !! 2 = Some ASSIGNMENT -> values = rhs :: rest)
    /\ (~ (length values = 1 \/ values !! 2 = Some ASSIGNMENT) ->
        exists run,
          rhs = VList run /\ values = run ++ rest
          /\ (rest = [] \/ rest !! 1 = Some ASSIGNMENT)
          /\ forall k, k < length run -> drop k values !! 1 ≠ Some ASSIGNMENT).
Proof.
  intros Hw Hid Hne H0 Hfresh.
  exists (take_rhs values).1, (take_rhs values).2.
  split; [by apply parse_line_assignments_loop_assign|].
  split; [intros pre parameters; apply parse_line_assignments_explicit|].
  split; [|split].
  - intros Hrest. unfold parse_line_assignments. simpl length.
    rewrite parse_line_assignments_loop_word.
    change (set_label error_prefix None ∅) with (Ok (∅ : gmap string pyval)).
    cbv iota beta.
    rewrite parse_line_assignments_loop_assign by done.
    rewrite Hrest. destruct values; [done|]. reflexivity.
  - intros Hsingle. unfold take_rhs.
    assert ((length values =? 1)%nat || slice_is_ASSIGNMENT 2 values = true) as ->.
    { destruct Hsingle as [Hl|H2].
      - rewrite Hl. done.
      - apply slice_is_ASSIGNMENT_true in H2. rewrite H2. apply orb_true_r. }
    destruct values; [done|]. done.
  - intros Hmulti. unfold take_rhs.
    assert ((length values =? 1)%nat || slice_is_ASSIGNMENT 2 values = false) as ->.
    { apply orb_false_iff. split.
      - apply Nat.eqb_neq. tauto.
      - apply slice_is_ASSIGNMENT_false. tauto. }
    destruct (collect_rhs values) as [run rest] eqn:E. simpl.
    exists run. split; [done|]. split; [by apply collect_rhs_app|].
    split; [by eapply collect_rhs_stop|]. by eapply collect_rhs_minimal.
Qed.

Lemma rhs_extraction_witness :
  exists rhs rest,
    rhs = VList [VStr "a"; VStr "b"] /\ rest = [VStr "c"; ASSIGNMENT; VStr "d"]
    /\ parse_line_assignments_loop 6 "f:1: "
         [ASSIGNMENT; VStr "a"; VStr "b"; VStr "c"; ASSIGNMENT; VStr "d"] ∅ (Some "x")
       = parse_line_assignments_loop 5 "f:1: " rest (<["x" := rhs]> ∅) None
    /\ forall pre parameters,
         parse_line_assignments
           (pre ++ VStr "x" :: ASSIGNMENT
                :: [VStr "a"; VStr "b"; VStr "c"; ASSIGNMENT; VStr "d"]) "f:1: "
         = Ok parameters ->
         parameters !! "x" = Some rhs.
Proof.
  destruct (rhs_extraction 5 "f:1: " "x"
              [VStr "a"; VStr "b"; VStr "c"; ASSIGNMENT; VStr "d"] ∅)
    as (rhs & rest & Hstep & Hreach & _ & _ & Hmulti);
    [ discriminate | reflexivity | discriminate | discriminate | reflexivity | ].
  exists rhs, rest.
  destruct Hmulti as (run & -> & Happ & Hstop & Hmin).
  { intros [H|H]; discriminate. }
  destruct run as [|r0 [|r1 [|r2 run]]].
  - exfalso. simpl in Happ. subst rest. destruct Hstop as [H|H]; discriminate.
  - exfalso. simpl in Happ. injection Happ as <- <-. destruct Hstop as [H|H]; discriminate.
  - simpl in Happ. injection Happ as <- <- <-. done.
  - exfalso. simpl in Happ. injection Happ as <- <- <- Happ.
    apply (Hmin 2); [simpl; lia|]. reflexivity.
Defined.

Lemma collect_rhs_no_marker (items : list pyval) :
  Forall (fun v => v ≠ ASSIGNMENT) items -> collect_rhs items = (items, []).
Proof.
  induction 1 as [|v items Hv Hitems IH]; [done|].
  simpl collect_rhs.
  assert (slice_is_ASSIGNMENT 1 (v :: items) = false) as ->.
  { apply slice_is_ASSIGNMENT_false. simpl.
    destruct Hitems as [|v' items' Hv' _]; [done|]. simpl. congruence. }
  by rewrite IH.
Qed.

(** X6.  Two or more items after the only [=] of a statement, none of them
    the marker, are bound to the variable as one list, in their order (so
    words that follow a value are values, not labels). *)
Theorem trailing_items_are_one_list (error_prefix w : string) (items : list pyval) :
  w ≠ EmptyString ->
  isidentifier w = Some true ->
  2 <= length items ->
  Forall (fun v => v ≠ ASSIGNMENT) items ->
  parse_line_assignments (VStr w :: ASSIGNMENT :: items) error_prefix
  = Ok (<[w := VList items]> ∅).
Proof.
  intros Hw Hid Hlen Hitems.
  unfold parse_line_assignments. simpl length.
  rewrite parse_line_assignments_loop_word.
  change (set_label error_prefix None ∅) with (Ok (∅ : gmap string pyval)).
  cbv iota beta.
  rewrite parse_line_assignments_loop_assign; try done.
  - assert (take_rhs items = (VList items, [])) as ->.
    { unfold take_rhs.
      assert ((length items =? 1)%nat || slice_is_ASSIGNMENT 2 items = false) as ->.
      { apply orb_false_iff. split; [apply Nat.eqb_neq; lia|].
        apply slice_is_ASSIGNMENT_false. intros H2.
        apply list_elem_of_lookup_2 in H2.
        rewrite Forall_forall in Hitems. by apply (Hitems _ H2). }
      by rewrite collect_rhs_no_marker. }
    simpl. reflexivity.
  - destruct items; [simpl in Hlen; lia|done].
  - destruct Hitems as [|v items Hv _]; [done|]. simpl. congruence.
Qed.

Lemma trailing_items_are_one_list_witness :
  parse_line_assignments
    (VStr "command" :: ASSIGNMENT :: [VStr "hello.py"; VStr "arg 1"; VStr "*.c"]) "f:1: "
  = Ok (<["command" := VList [VStr "hello.py"; VStr "arg 1"; VStr "*.c"]]> ∅).
Proof.
  apply (trailing_items_are_one_list "f:1: " "command").
  - discriminate.
  - reflexivity.
  - simpl. lia.
  - repeat constructor; discriminate.
Defined.

(** ** Values are strings, or lists and dicts of strings *)

(** The body of the loop over the tokens, lines 113-139, for one token. *)
Lemma scan_tokens_cons (source_name : string) (line_number : nat)
    (combined_lines : string) (tok : TokenInfo) (tokens : token_stream)
    (values : list pyval) (last_token : option token) :
  scan_tokens source_name line_number combined_lines (TCons tok tokens) values last_token
  = if token_type_eqb (t_type tok) ERRORTOKEN then
      Raise (TestSpecificationError
        (source_name +:+ ":" +:+ pretty line_number +:+ ":"
         +:+ pretty (snd (t_start tok)) +:+ ": syntax error"))
    else if negb (token_type_eqb (t_type tok) STRING)
            && str_in "=" (t_string tok)
            && (1 <? String.length (t_string tok))%nat then
      Raise (TestSpecificationError
        (source_name +:+ ":" +:+ pretty line_number +:+ ":"
         +:+ pretty (snd (t_start tok)) +:+ ": syntax error in assignment"))
    else if (String.length (t_string tok) =? 0)%nat
            || in_IGNORE_TOKENS (t_type tok) then
      scan_tokens source_name line_number combined_lines tokens values last_token
    else if str_in (t_string tok) "[{" && last_is_ASSIGNMENT values
            && match last_token with None => true | Some _ => false end then
      match pyeval.py_eval (str_drop (snd (t_start tok)) combined_lines) with
      | Ok value => Ok (values ++ [stringize value])
      | Raise e => Raise e
      | Unmodelled => Unmodelled
      end
    else if match last_token with
            | None => true
            | Some last => negb (pos_eqb (token_end last) (t_start tok))
                           || String.eqb (t_string tok) "="
            end then
      match flush last_token values with
      | Some values =>
          if String.eqb (t_string tok) "=" then
            scan_tokens source_name line_number combined_lines tokens
              (values ++ [ASSIGNMENT]) None
          else
            scan_tokens source_name line_number combined_lines tokens
              values (Some (Token tok))
      | None => Unmodelled
      end
    else
      match last_token with
      | Some last =>
          match FakeToken last (Token tok) with
          | Some fake =>
              scan_tokens source_name line_number combined_lines tokens values (Some fake)
          | None => Unmodelled
          end
      | None => Unmodelled
      end.
Proof. reflexivity. Qed.

Lemma collect_rhs_str_leaves (values run rest : list pyval) :
  Forall (fun v => marker_or_str_leaves v = true) values ->
  slice_is_ASSIGNMENT 0 values = false ->
  collect_rhs values = (run, rest) ->
  forallb leaves_are_str run = true
  /\ Forall (fun v => marker_or_str_leaves v = true) rest.
Proof.
  revert run rest. induction values as [|v values IH]; intros run rest Hv H0; simpl.
  - by intros [= <- <-].
  - destruct (slice_is_ASSIGNMENT 1 (v :: values)) eqn:H1.
    + by intros [= <- <-].
    + destruct (collect_rhs values) as [r l] eqn:E. intros [= <- <-].
      apply Forall_cons in Hv as [Hq Hvs].
      destruct (IH r l Hvs H1 eq_refl) as [Hr Hl]. split; [|done].
      simpl. rewrite Hr. unfold marker_or_str_leaves in Hq.
      unfold slice_is_ASSIGNMENT in H0. simpl in H0. rewrite H0 in Hq.
      simpl in Hq. by rewrite Hq.
Qed.

Lemma take_rhs_str_leaves (values : list pyval) :
  Forall (fun v => marker_or_str_leaves v = true) values ->
  slice_is_ASSIGNMENT 0 values = false ->
  leaves_are_str (take_rhs values).1 = true
  /\ Forall (fun v => marker_or_str_leaves v = true) (take_rhs values).2.
Proof.
  intros Hv H0. unfold take_rhs.
  destruct ((length values =? 1)%nat || slice_is_ASSIGNMENT 2 values).
  - destruct values as [|v values]; [done|]. simpl.
    apply Forall_cons in Hv as [Hq Hvs]. split; [|done].
    unfold marker_or_str_leaves in Hq.
    unfold slice_is_ASSIGNMENT in H0. simpl in H0. by rewrite H0 in Hq.
  - destruct (collect_rhs values) as [run rest] eqn:E. simpl.
    by apply (collect_rhs_str_leaves values run rest).
Qed.

Lemma parse_line_assignments_loop_str_leaves (fuel : nat) (error_prefix : string)
    (values : list pyval) (a : gmap string pyval) (last_word : option string)
    (parameters : gmap string pyval) :
  Forall (fun v => marker_or_str_leaves v = true) values ->
  (forall k v, a !! k = Some v -> leaves_are_str v = true) ->
  parse_line_assignments_loop fuel error_prefix values a last_word = Some (Ok parameters) ->
  forall k v, parameters !! k = Some v -> leaves_are_str v = true.
Proof.
  assert (forall (b b' : gmap string pyval) lw,
            (forall k v, b !! k = Some v -> leaves_are_str v = true) ->
            set_label error_prefix lw b = Ok b' ->
            forall k v, b' !! k = Some v -> leaves_are_str v = true) as Hlabel.
  { intros b b' lw Hb. unfold set_label.
    destruct lw as [w|]; [|by intros [= <-]].
    destruct (truthy (Some w)); [|by intros [= <-]].
    destruct (dict_in "label" b); [discriminate|]. intros [= <-] k v Hk.
    apply lookup_insert_Some in Hk as [[_ <-]|[_ Hk]]; [done|]. by eapply Hb. }
  revert values a last_word.
  induction fuel as [|fuel IH]; intros values a last_word Hv Ha; [discriminate|].
  destruct values as [|value values]; simpl.
  - intros [= H]. by eapply Hlabel.
  - apply Forall_cons in Hv as [Hq Hvs].
    destruct (eq_ASSIGNMENT value).
    + destruct last_word as [w|]; [|discriminate].
      destruct (negb (truthy (Some w))); [discriminate|].
      destruct (isidentifier w) as [[|]|]; try discriminate.
      destruct (length values =? 0)%nat; [discriminate|]. simpl orb.
      destruct (slice_is_ASSIGNMENT 0 values) eqn:H0; [discriminate|].
      destruct (dict_in w a); [discriminate|].
      destruct (take_rhs_str_leaves values Hvs H0) as [Hrhs Hrest].
      destruct (take_rhs values) as [rhs rest]. simpl in Hrhs, Hrest.
      apply IH; [done|]. intros k v Hk.
      apply lookup_insert_Some in Hk as [[_ <-]|[_ Hk]]; [done|]. by eapply Ha.
    + destruct value; try discriminate.
      destruct (set_label error_prefix last_word a) as [a'| |] eqn:Hl; try discriminate.
      apply IH; [done|]. by eapply Hlabel.
Qed.

Lemma parse_stream_loop_str_leaves (source_name : string)
    (stmts : list (nat * list pyval)) (g g' : gmap string pyval)
    (tests tests' : list (gmap string pyval)) :
  Forall (fun stmt => Forall (fun v => marker_or_str_leaves v = true) stmt.2) stmts ->
  (forall k v, g !! k = Some v -> leaves_are_str v = true) ->
  Forall (fun test : gmap string pyval =>
            forall k v, test !! k = Some v -> leaves_are_str v = true) tests ->
  parse_stream_loop source_name stmts (g, tests) = Ok (g', tests') ->
  Forall (fun test : gmap string pyval =>
            forall k v, test !! k = Some v -> leaves_are_str v = true) tests'.
Proof.
  revert g tests. induction stmts as [|[line_number values] stmts IH];
    intros g tests Hstmts Hg Htests; simpl.
  - by intros [= <- <-].
  - apply Forall_cons in Hstmts as [Hvalues Hstmts]. simpl in Hvalues.
    unfold parse_stream_step. destruct values as [|v values]; [by apply IH|].
    destruct (parse_line_assignments _ _) as [parameters| |] eqn:Hp; try discriminate.
    apply parse_line_assignments_unfold in Hp.
    assert (forall k x, parameters !! k = Some x -> leaves_are_str x = true) as Hparams.
    { eapply parse_line_assignments_loop_str_leaves; [exact Hvalues| |exact Hp].
      intros k x Hx. by rewrite lookup_empty in Hx. }
    destruct (negb (dict_in "label" parameters)).
    + apply IH; [done| |done]. intros k x Hx.
      apply lookup_union_Some_raw in Hx as [Hx|[_ Hx]]; eauto.
    + apply IH; [done|done|]. apply Forall_app. split; [done|]. constructor; [|done].
      intros k x Hx. apply lookup_union_Some_raw in Hx as [Hx|[_ Hx]]; [eauto|].
      apply lookup_insert_Some in Hx as [[_ <-]|[_ Hx]]; [done|].
      apply lookup_insert_Some in Hx as [[_ <-]|[_ Hx]]; [done|]. eauto.
Qed.

(** X7.  When every item of every statement is the marker, a string, or a
    list or dict whose leaves are strings, every value of every test that
    the loop of [parse_stream] builds from the statements is a string or a
    list or dict whose leaves are strings: [parse_line_assignments] and the
    aggregation add nothing but label words, lists of the given items, the
    source name and the line number.  (What [ast.literal_eval] returns for a
    bytes literal is not such an item.) *)
Theorem tests_hold_strings (source_name : string) (stmts : list (nat * list pyval))
    (g : gmap string pyval) (tests : list (gmap string pyval)) :
  Forall (fun stmt => Forall (fun v => marker_or_str_leaves v = true) stmt.2) stmts ->
  parse_stream_loop source_name stmts (∅, []) = Ok (g, tests) ->
  Forall (fun test : gmap string pyval =>
            forall k v, test !! k = Some v -> leaves_are_str v = true) tests.
Proof.
  intros Hstmts Hs.
  eapply parse_stream_loop_str_leaves in Hs; [exact Hs|exact Hstmts| |done].
  intros k x Hx. by rewrite lookup_empty in Hx.
Qed.

Lemma tests_hold_strings_witness :
  Forall (fun test : gmap string pyval =>
            forall k v, test !! k = Some v -> leaves_are_str v = true)
    [<["v3" := VList [VStr "4"; VStr "5"; VStr "6"]]>
       (<["label" := VStr "t"]> (<["source_name" := VStr "f"]>
          (<["line_number" := VStr "2"]> ∅)))].
Proof.
  apply (tests_hold_strings "f"
           [(1, [VStr "v3"; ASSIGNMENT; VList [VStr "4"; VStr "5"; VStr "6"]]);
            (2, [VStr "t"])]
           (<["v3" := VList [VStr "4"; VStr "5"; VStr "6"]]> ∅)).
  - repeat constructor.
  - vm_compute. reflexivity.
Defined.

Lemma parse_stream_loop_keys (source_name : string)
    (stmts : list (nat * list pyval)) (g g' : gmap string pyval)
    (tests tests' : list (gmap string pyval)) :
  Forall (fun test : gmap string pyval =>
            is_Some (test !! "label") /\ is_Some (test !! "source_name")
            /\ is_Some (test !! "line_number")) tests ->
  parse_stream_loop source_name stmts (g, tests) = Ok (g', tests') ->
  Forall (fun test : gmap string pyval =>
            is_Some (test !! "label") /\ is_Some (test !! "source_name")
            /\ is_Some (test !! "line_number")) tests'.
Proof.
  revert g tests. induction stmts as [|[line_number values] stmts IH];
    intros g tests Htests; simpl.
  - by intros [= <- <-].
  - unfold parse_stream_step. destruct values as [|v values]; [by apply IH|].
    destruct (parse_line_assignments _ _) as [parameters| |] eqn:Hp; try discriminate.
    destruct (negb (dict_in "label" parameters)) eqn:Hl; [by apply IH|].
    apply IH. apply Forall_app. split; [done|]. constructor; [|done].
    apply negb_false_iff, dict_in_true in Hl.
    rewrite !lookup_union_is_Some. split; [by left|]. split; right.
    + rewrite lookup_insert_ne by done. rewrite lookup_insert_eq. by eexists.
    + rewrite lookup_insert_eq. by eexists.
Qed.

(** X8.  Every test that [parse_stream] returns has the entries [label],
    [source_name] and [line_number]. *)
Theorem tests_have_label_and_provenance (stream : list string) (source_name : string)
    (tests : list (gmap string pyval)) (test : gmap string pyval) :
  parse_stream stream source_name = Ok tests ->
  test ∈ tests ->
  is_Some (test !! "label") /\ is_Some (test !! "source_name")
  /\ is_Some (test !! "line_number").
Proof.
  unfold parse_stream.
  destruct (parse_values _ _) as [stmts| |]; try discriminate.
  destruct (parse_stream_loop _ _ _) as [[g tests']| |] eqn:Hs; try discriminate.
  intros [= <-] Hin.
  apply parse_stream_loop_keys in Hs; [|done].
  rewrite Forall_forall in Hs. by apply Hs.
Qed.

Lemma tests_have_label_and_provenance_witness :
  is_Some ((<["label" := VStr "t"]> (<["source_name" := VStr "f"]>
              (<["line_number" := VStr "1"]> ∅)) : gmap string pyval) !! "label")
  /\ is_Some ((<["label" := VStr "t"]> (<["source_name" := VStr "f"]>
              (<["line_number" := VStr "1"]> ∅)) : gmap string pyval) !! "source_name")
  /\ is_Some ((<["label" := VStr "t"]> (<["source_name" := VStr "f"]>
              (<["line_number" := VStr "1"]> ∅)) : gmap string pyval) !! "line_number").
Proof.
  apply (tests_have_label_and_provenance [ln "t"] "f"
           [<["label" := VStr "t"]> (<["source_name" := VStr "f"]>
              (<["line_number" := VStr "1"]> ∅))]).
  - vm_compute. reflexivity.
  - apply list_elem_of_here.
Defined.

(** ** Line numbers of statements *)

Lemma increasing_from_weaken (lo lo' bound : nat) (stmts : list (nat * list pyval)) :
  lo <= lo' -> increasing_from lo' bound stmts -> increasing_from lo bound stmts.
Proof.
  destruct stmts as [|[n values] stmts]; [done|]. simpl. intros Hle (H1 & H2 & H3).
  repeat split; [lia|done|done].
Qed.

Lemma parse_values_loop_numbers (source_name : string) (stream : list string)
    (line_number : nat) (st : pv_state) (stmts : list (nat * list pyval)) :
  (if String.eqb (combined_lines st) EmptyString then line_number
   else combined_lines_number st) <= line_number ->
  parse_values_loop source_name stream line_number st = Ok stmts ->
  exists new,
    stmts = parse st ++ new
    /\ increasing_from
         (if String.eqb (combined_lines st) EmptyString then line_number
          else combined_lines_number st)
         (line_number + length stream) new.
Proof.
  revert line_number st. induction stream as [|line stream IH]; intros line_number st Hc.
  - simpl. unfold parse_values_finish. destruct (negb _); [discriminate|].
    intros [= <-]. exists []. by rewrite app_nil_r.
  - simpl. unfold parse_values_step.
    set (c := if String.eqb (combined_lines st) EmptyString then line_number
              else combined_lines_number st) in *.
    destruct (scan_tokens _ _ _ _ _ _) as [values|e|]; try discriminate.
    + intros H. apply IH in H as (new & -> & Hnew); [|simpl; lia].
      simpl in Hnew. exists ((c, values) :: new).
      split; [simpl; by rewrite <- app_assoc|].
      simpl. split; [lia|]. split; [lia|].
      replace (line_number + S (length stream)) with (S (line_number + length stream)) by lia.
      eapply increasing_from_weaken; [|exact Hnew]. lia.
    + destruct (caught e); [|discriminate].
      intros H. apply IH in H as (new & -> & Hnew).
      * simpl in Hnew. exists new. split; [done|].
        replace (line_number + S (length stream)) with (S (line_number + length stream)) by lia.
        eapply increasing_from_weaken; [|exact Hnew].
        destruct (String.eqb (combined_lines st +:+ line) EmptyString); lia.
      * simpl. destruct (String.eqb (combined_lines st +:+ line) EmptyString); lia.
Qed.

(** X9.  The statements that [parse_values] returns carry increasing line
    numbers, each between 1 and the number of lines of the stream. *)
Theorem statement_numbers_increase (stream : list string) (source_name : string)
    (stmts : list (nat * list pyval)) :
  parse_values stream source_name = Ok stmts ->
  increasing_from 1 (S (length stream)) stmts.
Proof.
  intros H. apply parse_values_loop_numbers in H as (new & -> & Hnew); [|simpl; lia].
  exact Hnew.
Qed.

Lemma statement_numbers_increase_witness :
  increasing_from 1 4
    [(1, [VStr "v"; ASSIGNMENT; VList [VStr "7"; VStr "8"]]); (3, [VStr "t"])].
Proof.
  apply (statement_numbers_increase [ln "v=[7,"; ln "8]"; ln "t"] "f").
  vm_compute. reflexivity.
Defined.

(** ** Complete statements do not depend on what follows *)

Lemma parse_values_loop_number_irrelevant (source_name : string) (stream : list string)
    (line_number k : nat) (st : pv_state) :
  combined_lines st = EmptyString ->
  parse_values_loop source_name stream line_number st
  = parse_values_loop source_name stream line_number (mkPv EmptyString k (parse st)).
Proof.
  intros Hc. destruct stream as [|line stream]; simpl.
  - unfold parse_values_finish. by rewrite Hc.
  - unfold parse_values_step. by rewrite Hc.
Qed.

Lemma parse_values_loop_prefix (source_name : string) (stream : list string)
    (line_number : nat) (c : string) (k : nat) (p q : list (nat * list pyval)) :
  parse_values_loop source_name stream line_number (mkPv c k (p ++ q))
  = match parse_values_loop source_name stream line_number (mkPv c k q) with
    | Ok r => Ok (p ++ r)
    | Raise e => Raise e
    | Unmodelled => Unmodelled
    end.
Proof.
  revert line_number c k q. induction stream as [|line stream IH]; intros line_number c k q.
  - simpl. unfold parse_values_finish. simpl. by destruct (negb _).
  - simpl. unfold parse_values_step. simpl.
    destruct (scan_tokens _ _ _ _ _ _) as [values|e|]; try done.
    + rewrite <- app_assoc. apply IH.
    + destruct (caught e); [apply IH|done].
Qed.

Lemma parse_values_loop_app (source_name : string) (s1 s2 : list string)
    (line_number : nat) (st : pv_state) (p1 : list (nat * list pyval)) :
  parse_values_loop source_name s1 line_number st = Ok p1 ->
  parse_values_loop source_name (s1 ++ s2) line_number st
  = parse_values_loop source_name s2 (line_number + length s1) (mkPv EmptyString 1 p1).
Proof.
  revert line_number st. induction s1 as [|line s1 IH]; intros line_number st.
  - simpl. unfold parse_values_finish.
    destruct (String.eqb (combined_lines st) EmptyString) eqn:Hc; [|discriminate].
    simpl. intros [= <-]. apply String.eqb_eq in Hc.
    replace (line_number + 0) with line_number by lia.
    by apply parse_values_loop_number_irrelevant.
  - simpl. destruct (parse_values_step source_name st line_number line) as [st'| |];
      try discriminate.
    intros H. rewrite (IH _ _ H). f_equal. lia.
Qed.

(** X10.  Lines that [parse_values] parses completely do not depend on the
    lines after them: the stream [s1 ++ s2] gives the statements of [s1]
    followed by those of the lines [s2], numbered from where they stand, and
    fails as those lines do. *)
Theorem parse_values_app (source_name : string) (s1 s2 : list string)
    (p1 : list (nat * list pyval)) :
  parse_values s1 source_name = Ok p1 ->
  parse_values (s1 ++ s2) source_name
  = match parse_values_loop source_name s2 (S (length s1)) (mkPv EmptyString 1 []) with
    | Ok p2 => Ok (p1 ++ p2)
    | Raise e => Raise e
    | Unmodelled => Unmodelled
    end.
Proof.
  intros H. unfold parse_values in *.
  rewrite (parse_values_loop_app _ _ _ _ _ _ H). simpl plus.
  rewrite <- (app_nil_r p1) at 1. apply parse_values_loop_prefix.
Qed.

Lemma parse_values_app_witness :
  parse_values ([ln "a=1"] ++ [ln "t"]) "f"
  = match parse_values_loop "f" [ln "t"] (S (length [ln "a=1"])) (mkPv EmptyString 1 []) with
    | Ok p2 => Ok ([(1, [VStr "a"; ASSIGNMENT; VStr "1"])] ++ p2)
    | Raise e => Raise e
    | Unmodelled => Unmodelled
    end.
Proof.
  apply (parse_values_app "f" [ln "a=1"] [ln "t"]).
  vm_compute. reflexivity.
Defined.

(** ** Defaults and provenance *)

Lemma parse_stream_step_unlabeled (source_name : string)
    (g : gmap string pyval) (tests : list (gmap string pyval))
    (line_number : nat) (values : list pyval) (parameters : gmap string pyval) :
  values ≠ [] ->
  parse_line_assignments values (error_prefix_of source_name line_number) = Ok parameters ->
  parameters !! "label" = None ->
  parse_stream_step source_name (g, tests) (line_number, values)
  = Ok (parameters ∪ g, tests).
Proof.
  intros Hne Hp Hl. unfold parse_stream_step.
  destruct values as [|v values]; [done|].
  rewrite Hp. apply dict_in_false in Hl. by rewrite Hl.
Qed.

(** X11.  A parameter [k] set by an unlabeled statement is inherited by the
    test of the labeled statement that follows, when that statement does not
    set [k] itself; except that the entries [source_name] and [line_number]
    of a test that does not set them are always the source name and the line
    number, whatever the defaults say. *)
Theorem default_inherited_provenance_not (source_name : string)
    (g : gmap string pyval) (tests : list (gmap string pyval))
    (n1 n2 : nat) (v1 v2 : list pyval) (p1 p2 : gmap string pyval)
    (k : string) (x : pyval) :
  v1 ≠ [] ->
  parse_line_assignments v1 (error_prefix_of source_name n1) = Ok p1 ->
  p1 !! "label" = None ->
  p1 !! k = Some x ->
  v2 ≠ [] ->
  parse_line_assignments v2 (error_prefix_of source_name n2) = Ok p2 ->
  is_Some (p2 !! "label") ->
  p2 !! k = None ->
  exists test,
    parse_stream_loop source_name [(n1, v1); (n2, v2)] (g, tests)
    = Ok (p1 ∪ g, tests ++ [test])
    /\ (k ≠ "source_name" -> k ≠ "line_number" -> test !! k = Some x)
    /\ (p2 !! "source_name" = None -> test !! "source_name" = Some (VStr source_name))
    /\ (p2 !! "line_number" = None -> test !! "line_number" = Some (VStr (pretty n2))).
Proof.
  intros Hv1 Hp1 Hl1 Hk1 Hv2 Hp2 Hl2 Hk2. eexists. split; [|split; [|split]].
  - simpl.
    rewrite (parse_stream_step_unlabeled _ _ _ _ _ _ Hv1 Hp1 Hl1).
    rewrite (parse_stream_step_labeled _ _ _ _ _ _ Hv2 Hp2 Hl2). reflexivity.
  - intros Hs Hn. rewrite lookup_union_r by done.
    rewrite !lookup_insert_ne by done. by apply lookup_union_Some_l.
  - intros Hnone. rewrite lookup_union_r by done.
    rewrite lookup_insert_ne by done. apply lookup_insert_eq.
  - intros Hnone. rewrite lookup_union_r by done. apply lookup_insert_eq.
Qed.

Lemma default_inherited_provenance_not_witness :
  exists test,
    parse_stream_loop "f"
      [(1, [VStr "source_name"; ASSIGNMENT; VStr "other"]); (2, [VStr "t"])] (∅, [])
    = Ok (<["source_name" := VStr "other"]> ∅ ∪ ∅, [] ++ [test])
    /\ test !! "source_name" = Some (VStr "f").
Proof.
  destruct (default_inherited_provenance_not "f" ∅ [] 1 2
              [VStr "source_name"; ASSIGNMENT; VStr "other"] [VStr "t"]
              (<["source_name" := VStr "other"]> ∅) (<["label" := VStr "t"]> ∅)
              "source_name" (VStr "other"))
    as (test & Hrun & _ & Hsource & _).
  - discriminate.
  - vm_compute. reflexivity.
  - vm_compute. reflexivity.
  - vm_compute. reflexivity.
  - discriminate.
  - vm_compute. reflexivity.
  - exists (VStr "t"). vm_compute. reflexivity.
  - vm_compute. reflexivity.
  - exists test. split; [exact Hrun|]. apply Hsource. vm_compute. reflexivity.
Defined.

(** ** Adjacent tokens *)

Lemma scan_tokens_merge_step (source_name : string) (line_number : nat) (buffer : string)
    (t : TokenInfo) (rest : token_stream) (values : list pyval) (last : token)
    (a b : string) :
  mergeable t = true ->
  pos_eqb (token_end last) (t_start t) = true ->
  get_token_characters last = Some a ->
  get_token_characters (Token t) = Some b ->
  scan_tokens source_name line_number buffer (TCons t rest) values (Some last)
  = scan_tokens source_name line_number buffer rest values
      (Some (Fake (token_start last) (t_end t) (a +:+ b))).
Proof.
  unfold mergeable. intros Hm Hpos Ha Hb.
  apply andb_true_iff in Hm as [Hm H4]. apply andb_true_iff in Hm as [Hm H3].
  apply andb_true_iff in Hm as [H1 H2].
  apply negb_true_iff in H1, H2, H3, H4.
  rewrite scan_tokens_cons, H1, H2, H3, H4, Hpos, andb_false_r. simpl.
  unfold FakeToken. rewrite Ha, Hb. reflexivity.
Qed.

Lemma scan_tokens_merge_chain (source_name : string) (line_number : nat) (buffer : string)
    (ts : list TokenInfo) :
  forall (t : TokenInfo) (rest : token_stream) (values : list pyval) (last : token)
         (a b : string),
  forallb mergeable (t :: ts) = true ->
  touching (token_end last) (t :: ts) = true ->
  get_token_characters last = Some a ->
  characters_of (t :: ts) = Some b ->
  scan_tokens source_name line_number buffer (prepend (t :: ts) rest) values (Some last)
  = scan_tokens source_name line_number buffer rest values
      (Some (Fake (token_start last) (end_of (t_end t) ts) (a +:+ b))).
Proof.
  induction ts as [|t2 ts IH]; intros t rest values last a b Hm Ht Ha Hb.
  - simpl in Hm, Ht. rewrite andb_true_r in Hm, Ht.
    change (characters_of [t])
      with (match get_token_characters (Token t) with
            | Some x => Some (x +:+ EmptyString)
            | None => None
            end) in Hb.
    destruct (get_token_characters (Token t)) as [ct|] eqn:Hct; [|discriminate].
    injection Hb as <-. rewrite string_app_empty_r.
    by apply scan_tokens_merge_step.
  - change (forallb mergeable (t :: t2 :: ts))
      with (mergeable t && forallb mergeable (t2 :: ts)) in Hm.
    apply andb_true_iff in Hm as [Hmt Hm].
    change (touching (token_end last) (t :: t2 :: ts))
      with (pos_eqb (token_end last) (t_start t) && touching (t_end t) (t2 :: ts)) in Ht.
    apply andb_true_iff in Ht as [Hpos Ht].
    change (characters_of (t :: t2 :: ts))
      with (match get_token_characters (Token t), characters_of (t2 :: ts) with
            | Some x, Some y => Some (x +:+ y)
            | _, _ => None
            end) in Hb.
    destruct (get_token_characters (Token t)) as [ct|] eqn:Hct; [|discriminate].
    destruct (characters_of (t2 :: ts)) as [b'|] eqn:Hb'; [|discriminate].
    injection Hb as <-.
    change (prepend (t :: t2 :: ts) rest) with (TCons t (prepend (t2 :: ts) rest)).
    rewrite (scan_tokens_merge_step _ _ _ _ _ _ _ a ct) by done.
    rewrite (IH t2 rest values _ (a +:+ ct) b'); try done.
    by rewrite string_app_assoc.
Qed.



(** ** Exceptions that leave the parser *)

Lemma prepend_ends_caught (tokens : list TokenInfo) (rest : token_stream) :
  ends_caught rest -> ends_caught (prepend tokens rest).
Proof. induction tokens as [|t tokens IH]; simpl; auto. Qed.

Lemma tokenize_line_stop (lnum : nat) (line : string) (st : tok_state)
    (tokens : list TokenInfo) (e : exn) :
  tokenize_line lnum line st = Stop tokens (Some e) -> caught e = true.
Proof.
  unfold tokenize_line, after_scan.
  repeat case_match; intros ?; simplify_eq; done.
Qed.

Lemma tokenize_loop_ends_caught (lines : list string) (lnum : nat) (st : tok_state)
    (last_line : string) :
  ends_caught (tokenize_loop lines lnum st last_line).
Proof.
  revert lnum st last_line. induction lines as [|line lines IH]; intros lnum st last_line.
  - simpl tokenize_loop.
    destruct (tokenize_line lnum EmptyString st) as [tokens st'|tokens|tokens [e|]] eqn:E;
      apply prepend_ends_caught; try done.
    + unfold epilogue. by apply prepend_ends_caught.
    + simpl. by eapply tokenize_line_stop.
  - simpl tokenize_loop.
    destruct (tokenize_line lnum line st) as [tokens st'|tokens|tokens [e|]] eqn:E;
      apply prepend_ends_caught; try done.
    + unfold epilogue. by apply prepend_ends_caught.
    + simpl. by eapply tokenize_line_stop.
Qed.

(** What the scan of a statement raises: an exception of the tokenizer,
    which the caller catches; one of its own two errors; or what [eval]
    raised on line 124. *)
Lemma scan_tokens_raise (source_name : string) (line_number : nat) (buffer : string)
    (tokens : token_stream) (values : list pyval) (last_token : option token) (e : exn) :
  ends_caught tokens ->
  scan_tokens source_name line_number buffer tokens values last_token = Raise e ->
  caught e = true
  \/ (exists rest, e = TestSpecificationError (source_name +:+ ":" +:+ rest))
  \/ exists text, pyeval.py_eval text = Raise e.
Proof.
  revert values last_token.
  induction tokens as [t tokens IH| |x|]; intros values last_token Hends;
    [rewrite scan_tokens_cons|simpl..]; try discriminate.
  - simpl in Hends.
    destruct (token_type_eqb (t_type t) ERRORTOKEN).
    { intros [= <-]. right. left. by eexists. }
    destruct (negb _ && _ && _).
    { intros [= <-]. right. left. by eexists. }
    destruct ((String.length (t_string t) =? 0)%nat || in_IGNORE_TOKENS (t_type t));
      [by apply IH|].
    destruct (str_in (t_string t) "[{" && last_is_ASSIGNMENT values
              && match last_token with None => true | Some _ => false end).
    { destruct (pyeval.py_eval _) as [value|y|] eqn:E; try discriminate.
      intros [= <-]. right. right. by eexists. }
    destruct (match last_token with
              | None => true
              | Some last => negb (pos_eqb (token_end last) (t_start t))
                             || String.eqb (t_string t) "="
              end).
    + destruct (flush last_token values) as [values1|]; [|discriminate].
      destruct (String.eqb (t_string t) "="); by apply IH.
    + destruct last_token as [last|]; [|discriminate].
      destruct (FakeToken last (Token t)); [|discriminate]. by apply IH.
  - destruct (flush last_token values); discriminate.
  - intros [= <-]. by left.
Qed.

Lemma parse_values_loop_raise (source_name : string) (stream : list string)
    (line_number : nat) (st : pv_state) (e : exn) :
  parse_values_loop source_name stream line_number st = Raise e ->
  caught e = false
  /\ ((exists rest, e = TestSpecificationError (source_name +:+ ":" +:+ rest))
      \/ exists text, pyeval.py_eval text = Raise e).
Proof.
  revert line_number st. induction stream as [|line stream IH]; intros line_number st.
  - simpl. unfold parse_values_finish. destruct (negb _); [|discriminate].
    intros [= <-]. split; [done|]. left. by eexists.
  - simpl. unfold parse_values_step.
    destruct (scan_tokens _ _ _ _ _ _) as [values|y|] eqn:Hscan; try discriminate.
    + apply IH.
    + destruct (caught y) eqn:Hc; [apply IH|].
      intros [= <-]. split; [done|].
      apply scan_tokens_raise in Hscan as [Hy|Hy]; [congruence|done|].
      apply tokenize_loop_ends_caught.
Qed.

Lemma parse_line_assignments_loop_raise (fuel : nat) (error_prefix : string)
    (values : list pyval) (a : gmap string pyval) (last_word : option string) (e : exn) :
  parse_line_assignments_loop fuel error_prefix values a last_word = Some (Raise e) ->
  exists m, e = TestSpecificationError (error_prefix +:+ m).
Proof.
  assert (forall lw (b : gmap string pyval) y,
            set_label error_prefix lw b = Raise y ->
            exists m, y = TestSpecificationError (error_prefix +:+ m)) as Hlabel.
  { intros lw b y. unfold set_label.
    destruct lw as [w|]; [|discriminate].
    destruct (truthy (Some w)); [|discriminate].
    destruct (dict_in "label" b); [|discriminate]. intros [= <-]. by eexists. }
  revert values a last_word.
  induction fuel as [|fuel IH]; intros values a last_word; [discriminate|].
  destruct values as [|value values]; simpl.
  - intros [= H]. by eapply Hlabel.
  - destruct (eq_ASSIGNMENT value).
    + destruct last_word as [w|]; [|intros [= <-]; by eexists].
      destruct (negb (truthy (Some w))); [intros [= <-]; by eexists|].
      destruct (isidentifier w) as [[|]|]; [|intros [= <-]; by eexists|discriminate].
      destruct ((length values =? 0)%nat || slice_is_ASSIGNMENT 0 values);
        [intros [= <-]; by eexists|].
      destruct (dict_in w a); [intros [= <-]; by eexists|].
      destruct (take_rhs values) as [rhs rest]. apply IH.
    + destruct value; try (intros [= <-]; by eexists).
      destruct (set_label error_prefix last_word a) as [a'|y|] eqn:Hl.
      * apply IH.
      * intros [= <-]. by eapply Hlabel.
      * discriminate.
Qed.

Lemma parse_stream_loop_raise (source_name : string) (stmts : list (nat * list pyval))
    (st : gmap string pyval * list (gmap string pyval)) (e : exn) :
  parse_stream_loop source_name stmts st = Raise e ->
  exists rest, e = TestSpecificationError (source_name +:+ ":" +:+ rest).
Proof.
  revert st. induction stmts as [|[line_number values] stmts IH]; intros [g tests]; simpl;
    [discriminate|].
  unfold parse_stream_step. destruct values as [|v values]; [apply IH|].
  destruct (parse_line_assignments _ _) as [parameters|y|] eqn:Hp.
  - destruct (negb (dict_in "label" parameters)); apply IH.
  - intros [= <-]. apply parse_line_assignments_unfold in Hp.
    apply parse_line_assignments_loop_raise in Hp as [m ->].
    unfold error_prefix_of. rewrite !string_app_assoc. by eexists.
  - discriminate.
Qed.

Lemma parse_stream_raise (stream : list string) (source_name : string) (e : exn) :
  parse_stream stream source_name = Raise e ->
  caught e = false
  /\ ((exists rest, e = TestSpecificationError (source_name +:+ ":" +:+ rest))
      \/ exists text, pyeval.py_eval text = Raise e).
Proof.
  unfold parse_stream, parse_values. intros H.
  destruct (parse_values_loop _ _ _ _) as [stmts|y|] eqn:Hv; try discriminate.
  - destruct (parse_stream_loop _ _ _) as [[g tests]|y|] eqn:Hs; try discriminate.
    injection H as <-. apply parse_stream_loop_raise in Hs as [rest ->].
    split; [done|]. left. by eexists.
  - injection H as <-. by eapply parse_values_loop_raise.
Qed.

(** X13.  An exception that [parse_stream] raises is never one of those the
    [except] clause of [parse_values] catches ([TokenError], [SyntaxError],
    [IndentationError]), whatever raised it; and when it is a
    [TestSpecificationError], either its message starts with the source name
    and a colon, or it is an exception that [eval] raised on line 124 (the
    evaluated text decides what that one says). *)
Theorem raised_errors_name_the_source (stream : list string) (source_name : string)
    (e : exn) :
  parse_stream stream source_name = Raise e ->
  caught e = false
  /\ forall msg, e = TestSpecificationError msg ->
       (exists rest, msg = source_name +:+ ":" +:+ rest)
       \/ exists text, pyeval.py_eval text = Raise e.
Proof.
  intros H. apply parse_stream_raise in H as [Hc [[rest ->] | Heval]].
  - split; [done|]. intros msg [= <-]. left. by eexists.
  - split; [done|]. intros msg _. by right.
Qed.

Lemma raised_errors_name_the_source_witness :
  caught (TestSpecificationError "f:2 unclosed expression") = false
  /\ forall msg, TestSpecificationError "f:2 unclosed expression" = TestSpecificationError msg ->
       (exists rest, msg = "f" +:+ ":" +:+ rest)
       \/ exists text,
            pyeval.py_eval text = Raise (TestSpecificationError "f:2 unclosed expression").
Proof.
  apply (raised_errors_name_the_source [ln "t"; ln "v='''a"; ln "b"] "f").
  vm_compute. reflexivity.
Defined.

(** ** [parse_file] *)



(** ** From the text of a line to its values

    The tokenizer's rounds on the characters of a name, of [=], of a quoted
    string without backslash and of the line feed, and the steps of
    [parse_values] on their tokens. *)

Lemma name_start_facts (c : ascii) :
  is_name_start c = true ->
  is_blank c = false /\ is_digit c = false /\ is_quote c = false
  /\ is_7bit c = true /\ is_name_char c = true
  /\ (c =? BACKSLASH)%char = false /\ (c =? "#")%char = false
  /\ (c =? ".")%char = false /\ (c =? LF)%char = false /\ (c =? CR)%char = false
  /\ (c =? "=")%char = false
  /\ (forall r, match_operator (String c r) = None)
  /\ (forall r, str_in (String c r) "[{" = false)
  /\ forall r, String.eqb (String c r) "=" = false.
Proof.
  destruct c as [[] [] [] [] [] [] [] []]; intros H; try discriminate H;
    repeat split; reflexivity.
Qed.

Lemma span_stop (p : ascii -> bool) (c : ascii) (r : string) :
  p c = false -> span p (String c r) = (EmptyString, String c r).
Proof. intros H. simpl. by rewrite H. Qed.

Lemma span_app (p : ascii -> bool) (a : string) (d : ascii) (r : string) :
  forallb_string p a = true -> p d = false ->
  span p (a +:+ String d r) = (a, String d r).
Proof.
  induction a as [|x a IH]; simpl; intros Ha Hd.
  - change (EmptyString +:+ String d r) with (String d r). simpl. by rewrite Hd.
  - apply andb_true_iff in Ha as [Hx Ha]. rewrite Hx, IH by done. done.
Qed.

Lemma scan_line_name (fuel lnum pos : nat) (c : ascii) (k' : string) (d : ascii) (r : string)
    (parenlev : Z) (continued : bool) :
  is_name_start c = true -> forallb_string is_name_char k' = true ->
  is_name_char d = false -> is_7bit d = true -> is_quote d = false ->
  scan_line (S fuel) lnum pos (String c (k' +:+ String d r)) parenlev continued
  = (let name := String c k' in
     let '(tokens, e) :=
       scan_line fuel lnum (pos + 0 + String.length name) (String d r) parenlev continued in
     (mkToken NAME name (lnum, pos + 0) (lnum, pos + 0 + String.length name) :: tokens, e)).
Proof.
  intros Hc Hk Hd H7 Hq.
  destruct (name_start_facts c Hc)
    as (Hb & Hdig & Hquo & H7c & Hnc & Hbs & Hh & Hdot & Hlf & Hcr & Heq & Hop & _).
  cbn [scan_line span]. rewrite Hb. cbn [String.length Nat.add].
  rewrite Hbs, Hh, Hquo, Hdig, Hdot, Hlf, Hcr. cbn [andb]. rewrite Hop, Hc.
  rewrite <- string_app_cons, span_app
    by (done || (cbn [forallb_string]; by rewrite Hnc)).
  rewrite H7, Hq. reflexivity.
Qed.

Lemma is_quote_cases (q : ascii) : is_quote q = true -> q = QUOTE \/ q = DQUOTE.
Proof.
  destruct q as [[] [] [] [] [] [] [] []]; intros H; try discriminate H;
    [left | right]; reflexivity.
Qed.

Lemma plain_text_no_triple (q : ascii) (s r : string) :
  plain_text q s = true -> String.prefix (String q EmptyString) r = false ->
  String.prefix (String q (String q EmptyString)) (s +:+ String q r) = false.
Proof.
  intros Hs Hr. destruct s as [|x s].
  - change (EmptyString +:+ String q r) with (String q r). cbn [String.prefix].
    by destruct (ascii_dec q q).
  - unfold plain_text in Hs. cbn [forallb_string] in Hs.
    apply andb_true_iff in Hs as [Hs _]. apply andb_true_iff in Hs as [Hs _].
    apply andb_true_iff in Hs as [Hx _]. apply negb_true_iff in Hx.
    apply orb_false_iff in Hx as [Hx _]. apply orb_false_iff in Hx as [_ Hx].
    rewrite string_app_cons. cbn [String.prefix].
    destruct (ascii_dec q x) as [->|]; [|done]. by rewrite Ascii.eqb_refl in Hx.
Qed.

(** Case analysis on the quote character. *)
Ltac quote_cases q Hq :=
  destruct (is_quote_cases q Hq) as [-> | ->];
  [|let v := eval vm_compute in DQUOTE in change DQUOTE with v in *].

Lemma scan_line_equals (fuel lnum pos : nat) (q : ascii) (r : string) :
  is_quote q = true ->
  scan_line (S fuel) lnum pos (String "=" (String q r)) 0 false
  = (let '(tokens, e) := scan_line fuel lnum (pos + 0 + 1) (String q r) 0 false in
     (mkToken OP "=" (lnum, pos + 0) (lnum, pos + 0 + 1) :: tokens, e)).
Proof. intros Hq. quote_cases q Hq; reflexivity. Qed.

Lemma scan_line_quoted (fuel lnum pos : nat) (q : ascii) (s r : string) :
  is_quote q = true -> plain_text q s = true ->
  scan_line (S fuel) lnum pos (String q (s +:+ String q (String LF r))) 0 false
  = (let literal := String q (s +:+ String q EmptyString) in
     let '(tokens, e) :=
       scan_line fuel lnum (pos + 0 + String.length literal) (String LF r) 0 false in
     (mkToken STRING literal (lnum, pos + 0) (lnum, pos + 0 + String.length literal)
        :: tokens, e)).
Proof.
  intros Hq Hs.
  assert (String.prefix (String q (String q EmptyString)) (s +:+ String q (String LF r))
          = false) as Htriple.
  { apply plain_text_no_triple; [done|]. quote_cases q Hq; reflexivity. }
  assert (span (fun x => negb ((x =? LF)%char || (x =? q)%char || (x =? BACKSLASH)%char))
            (s +:+ String q (String LF r))
          = (s, String q (String LF r))) as Hspan.
  { apply span_app.
    - unfold plain_text in Hs. apply andb_true_iff in Hs as [Hs _].
      by apply andb_true_iff in Hs as [Hs _].
    - by rewrite Ascii.eqb_refl, orb_true_r. }
  quote_cases q Hq;
    cbn [scan_line]; rewrite (span_stop is_blank) by reflexivity;
    cbn -[String.prefix span]; rewrite Htriple, Hspan; reflexivity.
Qed.

Lemma scan_line_newline (fuel lnum pos : nat) :
  scan_line (S (S fuel)) lnum pos (String LF EmptyString) 0 false
  = ([mkToken NEWLINE (String LF EmptyString) (lnum, pos + 0) (lnum, pos + 0 + 1)],
     LineDone 0 false).
Proof. reflexivity. Qed.

Lemma string_length_app (a b : string) :
  String.length (a +:+ b) = String.length a + String.length b.
Proof. induction a as [|x a IH]; [done|]. rewrite string_app_cons. simpl. by rewrite IH. Qed.

Lemma forallb_string_not_in (p : ascii -> bool) (c : ascii) (s : string) :
  forallb_string p s = true -> p c = false -> char_in c s = false.
Proof.
  intros Hs Hc. induction s as [|x s IH]; [done|].
  simpl in *. apply andb_true_iff in Hs as [Hx Hs]. rewrite IH by done.
  destruct (c =? x)%char eqn:E; [|done]. apply Ascii.eqb_eq in E. congruence.
Qed.

Lemma lf_only_last_app (a b : string) :
  char_in LF a = false -> lf_only_last (a +:+ b) = lf_only_last b.
Proof.
  induction a as [|x a IH]; [done|]. cbn [char_in]. intros H.
  apply orb_false_iff in H as [Hx Ha]. rewrite Ascii.eqb_sym in Hx.
  rewrite string_app_cons. cbn [lf_only_last]. rewrite Hx. by apply IH.
Qed.

Lemma scan_line_quoted_assignment (fuel lnum : nat) (k : string) (q : ascii) (s : string) :
  plain_name k = true -> is_quote q = true -> plain_text q s = true -> 5 <= fuel ->
  exists p1 p2 p3 p4 p5 p6 p7 p8,
  scan_line fuel lnum 0 (quoted_assignment k q s) 0 false
  = ([mkToken NAME k p1 p2; mkToken OP "=" p3 p4;
      mkToken STRING (String q (s +:+ String q EmptyString)) p5 p6;
      mkToken NEWLINE (String LF EmptyString) p7 p8], LineDone 0 false).
Proof.
  intros Hk Hq Hs Hfuel.
  destruct fuel as [|[|[|[|[|fuel]]]]]; try lia.
  destruct k as [|c k']; [done|]. apply andb_true_iff in Hk as [Hc Hk].
  unfold quoted_assignment. rewrite string_app_cons.
  rewrite scan_line_name by done. cbv zeta.
  rewrite scan_line_equals by done.
  rewrite scan_line_quoted by done. cbv zeta.
  rewrite scan_line_newline.
  by eexists _, _, _, _, _, _, _, _.
Qed.

Lemma tokenize_line_quoted_assignment (lnum : nat) (k : string) (q : ascii) (s : string) :
  plain_name k = true -> is_quote q = true -> plain_text q s = true ->
  exists p1 p2 p3 p4 p5 p6 p7 p8,
  tokenize_line lnum (quoted_assignment k q s) initial_state
  = NextLine
      [mkToken NAME k p1 p2; mkToken OP "=" p3 p4;
       mkToken STRING (String q (s +:+ String q EmptyString)) p5 p6;
       mkToken NEWLINE (String LF EmptyString) p7 p8] initial_state.
Proof.
  intros Hk Hq Hs.
  destruct (scan_line_quoted_assignment (S (String.length (quoted_assignment k q s)))
              lnum k q s Hk Hq Hs)
    as (p1 & p2 & p3 & p4 & p5 & p6 & p7 & p8 & Hscan).
  { unfold quoted_assignment. rewrite string_length_app. simpl.
    rewrite string_length_app. simpl. lia. }
  exists p1, p2, p3, p4, p5, p6, p7, p8.
  destruct k as [|c k']; [done|]. apply andb_true_iff in Hk as [Hc Hk].
  destruct (name_start_facts c Hc)
    as (Hb & Hdig & Hquo & H7c & Hnc & Hbs & Hh & Hdot & Hlf & Hcr & Heq & Hop & _).
  unfold is_blank in Hb. apply orb_false_iff in Hb as [Hb Htab].
  apply orb_false_iff in Hb as [Hsp Hff].
  unfold quoted_assignment in *. rewrite string_app_cons in *.
  unfold tokenize_line. cbn -[scan_line String.length].
  rewrite Hsp, Htab, Hff, Hh, Hcr, Hlf. cbn -[scan_line String.length].
  by rewrite Hscan.
Qed.

Lemma scan_tokens_end (source_name : string) (line_number lnum : nat)
    (buffer last_line : string) (values : list pyval) (last_token : option token) :
  scan_tokens source_name line_number buffer (epilogue lnum last_line [0]) values last_token
  = match flush last_token values with
    | Some values => Ok values
    | None => Unmodelled
    end.
Proof.
  unfold epilogue. rewrite scan_tokens_prepend; [done|].
  rewrite forallb_app. apply andb_true_iff. split; [|done].
  destruct (str_last last_line) as [c|]; [|done].
  by destruct (negb _ && negb _).
Qed.

Lemma char_in_app (c : ascii) (a b : string) :
  char_in c (a +:+ b) = char_in c a || char_in c b.
Proof.
  induction a as [|x a IH]; [done|]. rewrite string_app_cons. cbn [char_in].
  by rewrite IH, orb_assoc.
Qed.

Lemma str_take_app (a b : string) : str_take (String.length a) (a +:+ b) = a.
Proof.
  induction a as [|x a IH]; [by destruct b|]. rewrite string_app_cons. simpl. by rewrite IH.
Qed.

Lemma literal_eval_str_plain (q : ascii) (s : string) :
  is_quote q = true -> plain_text q s = true ->
  literal_eval_str (String q (s +:+ String q EmptyString)) = Some s.
Proof.
  intros Hq Hs. unfold literal_eval_str.
  rewrite (plain_text_no_triple q s EmptyString) by done.
  unfold plain_text in Hs. apply andb_true_iff in Hs as [Hs Hnul].
  apply andb_true_iff in Hs as [_ Hcr]. apply negb_true_iff in Hcr, Hnul.
  cbn [char_in]. rewrite !char_in_app, Hcr, Hnul, Hq.
  cbn [String.length]. rewrite string_length_app. cbn [String.length].
  replace (String.length s + 1 - 1) with (String.length s) by lia.
  rewrite str_take_app.
  replace (2 <=? S (String.length s + 1))%nat with true by (symmetry; apply Nat.leb_le; lia).
  quote_cases q Hq; reflexivity.
Qed.

Lemma scan_tokens_first_name (source_name : string) (line_number : nat) (buffer k : string)
    (p1 p2 : nat * nat) (tokens : token_stream) (values : list pyval) :
  plain_name k = true ->
  scan_tokens source_name line_number buffer (TCons (mkToken NAME k p1 p2) tokens) values None
  = scan_tokens source_name line_number buffer tokens values
      (Some (Token (mkToken NAME k p1 p2))).
Proof.
  intros Hk. destruct k as [|c k'] eqn:Ek; [done|]. rewrite <- Ek.
  assert (char_in "=" k = false) as Heq.
  { apply (forallb_string_not_in is_name_char); [|done]. subst k.
    apply andb_true_iff in Hk as [Hc Hk]. cbn [forallb_string]. rewrite Hk.
    unfold is_name_char. by rewrite Hc. }
  apply andb_true_iff in Hk as [Hc _].
  destruct (name_start_facts c Hc) as (_ & _ & _ & _ & _ & _ & _ & _ & _ & _ & _ & _ & Hin & He).
  rewrite scan_tokens_cons. cbn [t_type t_string t_start t_end].
  rewrite str_in_char, Heq. subst k. rewrite Hin, He. reflexivity.
Qed.

Lemma scan_tokens_equals (source_name : string) (line_number : nat) (buffer k : string)
    (p1 p2 p3 p4 : nat * nat) (tokens : token_stream) (values : list pyval) :
  scan_tokens source_name line_number buffer (TCons (mkToken OP "=" p3 p4) tokens) values
    (Some (Token (mkToken NAME k p1 p2)))
  = scan_tokens source_name line_number buffer tokens
      ((values ++ [VStr k]) ++ [ASSIGNMENT]) None.
Proof.
  rewrite scan_tokens_cons. cbn [t_type t_string t_start t_end].
  change (str_in "=" "[{") with false. cbn -[scan_tokens].
  by rewrite orb_true_r.
Qed.

Lemma scan_tokens_first_string (source_name : string) (line_number : nat) (buffer : string)
    (q : ascii) (r : string) (p1 p2 : nat * nat) (tokens : token_stream)
    (values : list pyval) :
  is_quote q = true ->
  scan_tokens source_name line_number buffer
    (TCons (mkToken STRING (String q r) p1 p2) tokens) values None
  = scan_tokens source_name line_number buffer tokens values
      (Some (Token (mkToken STRING (String q r) p1 p2))).
Proof.
  intros Hq. rewrite scan_tokens_cons. quote_cases q Hq; reflexivity.
Qed.

Lemma scan_tokens_quoted_assignment (source_name : string) (line_number : nat)
    (buffer k : string) (q : ascii) (s : string) :
  plain_name k = true -> is_quote q = true -> plain_text q s = true ->
  scan_tokens source_name line_number buffer
    (generate_tokens (quoted_assignment k q s)) [] None
  = Ok [VStr k; ASSIGNMENT; VStr s].
Proof.
  intros Hk Hq Hs. unfold generate_tokens.
  assert (forallb_string is_name_char k = true) as Hname.
  { destruct k as [|c k']; [done|]. apply andb_true_iff in Hk as [Hc Hk'].
    cbn [forallb_string]. rewrite Hk'. unfold is_name_char. by rewrite Hc. }
  rewrite readlines_single.
  2:{ unfold quoted_assignment.
      rewrite lf_only_last_app by (by apply (forallb_string_not_in is_name_char)).
      cbn [lf_only_last]. change ("=" =? LF)%char with false. cbv iota.
      replace (q =? LF)%char with false by (quote_cases q Hq; reflexivity).
      rewrite lf_only_last_app.
      - cbn [lf_only_last].
        replace (q =? LF)%char with false by (quote_cases q Hq; reflexivity). reflexivity.
      - unfold plain_text in Hs. apply andb_true_iff in Hs as [Hs _].
        apply andb_true_iff in Hs as [Hs _].
        apply (forallb_string_not_in _ _ _ Hs). reflexivity. }
  2:{ unfold quoted_assignment. by destruct k. }
  cbn [tokenize_loop].
  destruct (tokenize_line_quoted_assignment 1 k q s Hk Hq Hs)
    as (p1 & p2 & p3 & p4 & p5 & p6 & p7 & p8 & ->).
  change (tokenize_line 2 EmptyString initial_state) with (Break []).
  cbn [prepend indents initial_state].
  rewrite scan_tokens_first_name, scan_tokens_equals, scan_tokens_first_string by done.
  rewrite scan_tokens_skip by reflexivity.
  rewrite scan_tokens_end. unfold flush, get_token_characters. cbn [t_type t_string].
  change (token_type_eqb STRING STRING) with true. cbv iota.
  by rewrite literal_eval_str_plain.
Qed.

Lemma parse_values_loop_complete (source_name line : string) (stream : list string)
    (line_number : nat) (st : pv_state) (values : list pyval) :
  combined_lines st = EmptyString ->
  scan_tokens source_name line_number line (generate_tokens line) [] None = Ok values ->
  parse_values_loop source_name (line :: stream) line_number st
  = parse_values_loop source_name stream (S line_number)
      (mkPv EmptyString line_number (parse st ++ [(line_number, values)])).
Proof.
  intros Hc Hscan. cbn [parse_values_loop]. unfold parse_values_step.
  rewrite Hc. change (EmptyString +:+ line) with line. by rewrite Hscan.
Qed.

(** X16.  After lines that [parse_values] parses completely, a line
    [name=<quote>text<quote>] is the statement [name], [=], [text], numbered
    by its line: the text between the quotes is one value taken as it
    stands, whatever spaces, brackets, [=] or [#] it holds. *)
Theorem quoted_text_is_taken_verbatim (source_name : string) (before : list string)
    (stmts : list (nat * list pyval)) (k : string) (q : ascii) (s : string) :
  plain_name k = true -> is_quote q = true -> plain_text q s = true ->
  parse_values before source_name = Ok stmts ->
  parse_values (before ++ [quoted_assignment k q s]) source_name
  = Ok (stmts ++ [(S (length before), [VStr k; ASSIGNMENT; VStr s])]).
Proof.
  intros Hk Hq Hs Hbefore. unfold parse_values in *.
  rewrite (parse_values_loop_app _ _ _ _ _ _ Hbefore).
  rewrite (parse_values_loop_complete _ _ _ _ _ [VStr k; ASSIGNMENT; VStr s]);
    [reflexivity|reflexivity|].
  by apply scan_tokens_quoted_assignment.
Qed.

Lemma quoted_text_is_taken_verbatim_witness :
  parse_values ([ln "a=1"] ++ [quoted_assignment "expected_stdout" QUOTE "x = [1] # not a comment"]) "f"
  = Ok ([(1, [VStr "a"; ASSIGNMENT; VStr "1"])]
        ++ [(S (length [ln "a=1"]),
             [VStr "expected_stdout"; ASSIGNMENT; VStr "x = [1] # not a comment"])]).
Proof.
  apply (quoted_text_is_taken_verbatim "f" [ln "a=1"]); reflexivity.
Defined.

Lemma name_char_7bit (c : ascii) : is_name_char c = true -> is_7bit c = true.
Proof. destruct c as [[] [] [] [] [] [] [] []]; intros H; try discriminate H; reflexivity. Qed.

Lemma isidentifier_rest_plain (s : string) :
  forallb_string is_name_char s = true -> isidentifier_rest s = Some true.
Proof.
  induction s as [|c s IH]; [done|]. cbn [forallb_string isidentifier_rest]. intros H.
  apply andb_true_iff in H as [Hc Hs]. by rewrite (name_char_7bit c Hc), Hc, IH.
Qed.

Lemma isidentifier_plain (k : string) : plain_name k = true -> isidentifier k = Some true.
Proof.
  destruct k as [|c k]; [done|]. cbn [plain_name isidentifier]. intros H.
  apply andb_true_iff in H as [Hc Hk].
  destruct (name_start_facts c Hc) as (_ & _ & _ & -> & _).
  rewrite Hc. by apply isidentifier_rest_plain.
Qed.

Lemma scan_line_bare_word (fuel lnum : nat) (l : string) :
  plain_name l = true -> 3 <= fuel ->
  exists p1 p2 p3 p4,
  scan_line fuel lnum 0 (ln l) 0 false
  = ([mkToken NAME l p1 p2; mkToken NEWLINE (String LF EmptyString) p3 p4],
     LineDone 0 false).
Proof.
  intros Hl Hfuel. destruct fuel as [|[|[|fuel]]]; try lia.
  destruct l as [|c l']; [done|]. apply andb_true_iff in Hl as [Hc Hl].
  unfold ln. rewrite string_app_cons.
  rewrite scan_line_name by done. cbv zeta. rewrite scan_line_newline.
  by eexists _, _, _, _.
Qed.

Lemma tokenize_line_name_start (lnum : nat) (c : ascii) (r : string) :
  is_name_start c = true ->
  tokenize_line lnum (String c r) initial_state
  = after_scan [] [0]
      (scan_line (S (String.length (String c r))) lnum 0 (String c r) 0 false).
Proof.
  intros Hc.
  destruct (name_start_facts c Hc)
    as (Hb & Hdig & Hquo & H7c & Hnc & Hbs & Hh & Hdot & Hlf & Hcr & Heq & Hop & _).
  unfold is_blank in Hb. apply orb_false_iff in Hb as [Hb Htab].
  apply orb_false_iff in Hb as [Hsp Hff].
  unfold tokenize_line. cbn -[scan_line String.length].
  rewrite Hsp, Htab, Hff, Hh, Hcr, Hlf. reflexivity.
Qed.

Lemma scan_tokens_bare_word (source_name : string) (line_number : nat) (buffer l : string) :
  plain_name l = true ->
  scan_tokens source_name line_number buffer (generate_tokens (ln l)) [] None
  = Ok [VStr l].
Proof.
  intros Hl. unfold generate_tokens.
  assert (forallb_string is_name_char l = true) as Hname.
  { destruct l as [|c l']; [done|]. apply andb_true_iff in Hl as [Hc Hl'].
    cbn [forallb_string]. rewrite Hl'. unfold is_name_char. by rewrite Hc. }
  rewrite readlines_single.
  2:{ unfold ln. by rewrite lf_only_last_app
        by (by apply (forallb_string_not_in is_name_char)). }
  2:{ unfold ln. by destruct l. }
  cbn [tokenize_loop].
  destruct (scan_line_bare_word (S (String.length (ln l))) 1 l Hl)
    as (p1 & p2 & p3 & p4 & Hscan).
  { unfold ln. rewrite string_length_app. destruct l; [done|]. simpl. lia. }
  destruct l as [|c l'] eqn:El; [done|]. rewrite <- El in *.
  assert (tokenize_line 1 (ln l) initial_state
          = NextLine [mkToken NAME l p1 p2; mkToken NEWLINE (String LF EmptyString) p3 p4]
              initial_state) as ->.
  { subst l. unfold ln in *. rewrite string_app_cons in *.
    apply andb_true_iff in Hl as [Hc _].
    rewrite tokenize_line_name_start by done. by rewrite Hscan. }
  change (tokenize_line 2 EmptyString initial_state) with (Break []).
  cbn [prepend indents initial_state].
  rewrite scan_tokens_first_name by done.
  rewrite scan_tokens_skip by reflexivity.
  rewrite scan_tokens_end. reflexivity.
Qed.

Lemma parse_line_assignments_bare_word (error_prefix l : string) :
  l ≠ EmptyString ->
  parse_line_assignments [VStr l] error_prefix = Ok (<["label" := VStr l]> ∅).
Proof. intros Hl. destruct l; [done|reflexivity]. Qed.

Lemma parse_line_assignments_one_string (error_prefix k s : string) :
  plain_name k = true ->
  parse_line_assignments [VStr k; ASSIGNMENT; VStr s] error_prefix = Ok (<[k := VStr s]> ∅).
Proof.
  intros Hk. unfold parse_line_assignments. simpl length.
  rewrite parse_line_assignments_loop_word.
  change (set_label error_prefix None ∅) with (Ok (∅ : gmap string pyval)).
  cbv iota beta.
  rewrite parse_line_assignments_loop_assign; try done.
  - by destruct k.
  - by apply isidentifier_plain.
Qed.

(** X17.  A stream of one line holding one name gives one test: its label is
    the name, and its only other entries are the source name and the line
    number 1. *)
Theorem bare_word_line_is_a_test (source_name l : string) :
  plain_name l = true ->
  parse_stream [ln l] source_name
  = Ok [<["label" := VStr l]>
          (<["line_number" := VStr "1"]> (<["source_name" := VStr source_name]> ∅))].
Proof.
  intros Hl. unfold parse_stream, parse_values.
  rewrite (parse_values_loop_complete _ _ _ _ _ [VStr l])
    by (done || by apply scan_tokens_bare_word).
  cbn [parse_values_loop parse_values_finish combined_lines parse String.eqb negb app].
  cbn [parse_stream_loop].
  rewrite (parse_stream_step_labeled _ _ _ _ _ (<["label" := VStr l]> ∅)).
  - cbn [app]. by rewrite <- insert_union_l, (left_id ∅ (∪)).
  - done.
  - apply parse_line_assignments_bare_word. by destruct l.
  - rewrite lookup_insert_eq. by eexists.
Qed.

Lemma bare_word_line_is_a_test_witness :
  parse_stream [ln "test_1"] "tests.txt"
  = Ok [<["label" := VStr "test_1"]>
          (<["line_number" := VStr "1"]> (<["source_name" := VStr "tests.txt"]> ∅))].
Proof. apply bare_word_line_is_a_test. reflexivity. Defined.

(** X18.  A line [name=<quote>text<quote>], [name] other than [label],
    followed by a line holding one name gives one test: labeled by that
    name, attributed to the source and to line 2, and, when [name] is
    neither [source_name] nor [line_number], binding [name] to the text.  (A
    default of one of these two names is replaced by the provenance.) *)
Theorem quoted_default_reaches_test (source_name k : string) (q : ascii) (s l : string) :
  plain_name k = true -> k ≠ "label" -> is_quote q = true -> plain_text q s = true ->
  plain_name l = true ->
  let test : gmap string pyval :=
    <["label" := VStr l]>
      (<["line_number" := VStr "2"]>
         (<["source_name" := VStr source_name]> (<[k := VStr s]> ∅))) in
  parse_stream [quoted_assignment k q s; ln l] source_name = Ok [test]
  /\ test !! "label" = Some (VStr l)
  /\ test !! "line_number" = Some (VStr "2")
  /\ test !! "source_name" = Some (VStr source_name)
  /\ (k ≠ "source_name" -> k ≠ "line_number" -> test !! k = Some (VStr s)).
Proof.
  intros Hk Hne Hq Hs Hl test. split; [|split; [|split; [|split]]].
  - unfold test, parse_stream, parse_values.
    rewrite (parse_values_loop_complete _ _ _ _ _ [VStr k; ASSIGNMENT; VStr s])
      by (done || by apply scan_tokens_quoted_assignment).
    rewrite (parse_values_loop_complete _ _ _ _ _ [VStr l])
      by (done || by apply scan_tokens_bare_word).
    cbn [parse_values_loop parse_values_finish combined_lines parse String.eqb negb app].
    cbn [parse_stream_loop].
    rewrite (parse_stream_step_unlabeled _ _ _ _ _ (<[k := VStr s]> ∅)).
    + rewrite (parse_stream_step_labeled _ _ _ _ _ (<["label" := VStr l]> ∅)).
      * cbn [app]. rewrite <- insert_union_l, (left_id ∅ (∪)).
        by rewrite (right_id ∅ (∪)).
      * done.
      * apply parse_line_assignments_bare_word. by destruct l.
      * rewrite lookup_insert_eq. by eexists.
    + done.
    + by apply parse_line_assignments_one_string.
    + rewrite lookup_insert_ne by done. apply lookup_empty.
  - apply lookup_insert_eq.
  - unfold test. rewrite lookup_insert_ne by done. apply lookup_insert_eq.
  - unfold test. rewrite !lookup_insert_ne by done. apply lookup_insert_eq.
  - intros Hsrc Hline. unfold test.
    rewrite !lookup_insert_ne by done. apply lookup_insert_eq.
Qed.

Lemma quoted_default_reaches_test_witness :
  parse_stream [quoted_assignment "program" DQUOTE "./a.out -v"; ln "test_1"] "tests.txt"
  = Ok [<["label" := VStr "test_1"]>
          (<["line_number" := VStr "2"]>
             (<["source_name" := VStr "tests.txt"]> (<["program" := VStr "./a.out -v"]> ∅)))]
  /\ (<["label" := VStr "test_1"]>
        (<["line_number" := VStr "2"]>
           (<["source_name" := VStr "tests.txt"]>
              (<["program" := VStr "./a.out -v"]> (∅ : gmap string pyval))))) !! "program"
     = Some (VStr "./a.out -v").
Proof.
  destruct (quoted_default_reaches_test "tests.txt" "program" DQUOTE "./a.out -v" "test_1")
    as (H1 & _ & _ & _ & H5); try reflexivity; try discriminate.
  split; [exact H1|]. apply H5; discriminate.
Defined.

(** * The text that a structural literal hands to [eval]

    Where the tokenizer puts an operator token: at its column of its line.
    For a token on the first line of the accumulated text, the column is
    also its place in the text, which is what line 124 relies on. *)

Lemma span_eq (p : ascii -> bool) (s a b : string) : span p s = (a, b) -> s = a +:+ b.
Proof.
  revert a b. induction s as [|c s IH]; intros a b; simpl.
  - by intros [= <- <-].
  - destruct (p c).
    + destruct (span p s) as [a0 b0]. intros [= <- <-]. rewrite string_app_cons.
      by rewrite <- (IH a0 b0).
    + by intros [= <- <-].
Qed.

Lemma prefix_split (a s : string) :
  String.prefix a s = true -> s = a +:+ str_drop (String.length a) s.
Proof.
  revert s. induction a as [|x a IH]; intros s; [done|].
  destruct s as [|y s]; [done|]. cbn [String.prefix].
  destruct (ascii_dec x y) as [->|]; [|done]. intros H.
  rewrite string_app_cons. cbn [String.length str_drop]. by rewrite <- IH.
Qed.

Lemma find_triple_end_eq (q : ascii) (s body rest : string) :
  find_triple_end q s = TripleFound body rest -> s = body +:+ rest.
Proof.
  revert body rest. induction s as [|c s IH]; intros body rest; [done|].
  cbn [find_triple_end]. destruct (c =? BACKSLASH)%char; [done|].
  destruct (String.prefix _ (String c s)) eqn:Hp.
  - intros [= <- <-]. by apply prefix_split in Hp.
  - destruct (find_triple_end q s) as [body0 rest0| |]; try done.
    intros [= <- <-]. rewrite string_app_cons. by rewrite <- (IH body0 rest0).
Qed.

Lemma first_prefix_prefix (ops : list string) (s op : string) :
  first_prefix ops s = Some op -> String.prefix op s = true.
Proof.
  induction ops as [|o ops IH]; [done|]. simpl.
  destruct (String.prefix o s) eqn:E; [by intros [= <-]|done].
Qed.

Lemma match_operator_split (s op : string) :
  match_operator s = Some op -> s = op +:+ str_drop (String.length op) s.
Proof.
  unfold match_operator. intros H. apply prefix_split.
  destruct (first_prefix operators3 s) eqn:E3.
  { injection H as <-. by eapply first_prefix_prefix. }
  destruct (first_prefix operators2 s) eqn:E2.
  { injection H as <-. by eapply first_prefix_prefix. }
  by eapply first_prefix_prefix.
Qed.

Lemma op_at_shift (lnum pos : nat) (pre rest : string) (t : TokenInfo) (pos' : nat) :
  pos' = pos + String.length pre ->
  op_at lnum pos' rest t -> op_at lnum pos (pre +:+ rest) t.
Proof.
  intros -> H Hty. destruct (H Hty) as (Hrow & head & tail & -> & Hcol).
  split; [done|]. exists (pre +:+ head), tail. split.
  - by rewrite string_app_assoc.
  - rewrite string_length_app. lia.
Qed.

Lemma Forall_op_at_shift (lnum pos : nat) (pre rest : string) (ts : list TokenInfo)
    (pos' : nat) :
  pos' = pos + String.length pre ->
  Forall (op_at lnum pos' rest) ts -> Forall (op_at lnum pos (pre +:+ rest)) ts.
Proof.
  intros Hp H. eapply Forall_impl; [exact H|]. intros t. by apply op_at_shift.
Qed.

Lemma shift_emit (lnum pos : nat) (ws body token r : string) (ts : list TokenInfo)
    (p : nat) :
  body = token +:+ r -> p = pos + String.length ws + String.length token ->
  Forall (op_at lnum p r) ts -> Forall (op_at lnum pos (ws +:+ body)) ts.
Proof.
  intros -> -> H. rewrite <- string_app_assoc.
  eapply Forall_op_at_shift; [|exact H]. rewrite string_length_app. lia.
Qed.

Ltac sub_scan IH :=
  match goal with
  | H : scan_line _ _ ?p ?r ?pl ?ct = (?l, _) |- Forall _ ?l =>
      let Hs := fresh "Hs" in
      pose proof (IH p r pl ct) as Hs; rewrite H in Hs; cbn [fst] in Hs
  end.

Lemma scan_line_ops (fuel lnum pos : nat) (rest : string) (parenlev : Z) (continued : bool) :
  Forall (op_at lnum pos rest) (scan_line fuel lnum pos rest parenlev continued).1.
Proof.
  revert pos rest parenlev continued.
  induction fuel as [|fuel IH]; intros pos rest parenlev continued; [by constructor|].
  destruct rest as [|c0 rest0]; [by constructor|].
  cbn [scan_line].
  destruct (span is_blank (String c0 rest0)) as [ws body] eqn:Hws.
  apply span_eq in Hws. rewrite Hws.
  destruct body as [|c body']; [by constructor|].
  repeat case_match; cbn [fst]; try (by constructor).
  (* the token of this round *)
  all: try (constructor; [intros Hty; try discriminate Hty|]).
  all: try match goal with
       | H : match_operator _ = Some _ |- _ /\ _ =>
           split; [reflexivity|];
           cbn [t_type t_string t_start fst snd];
           eexists _, _; split; cycle 1; [reflexivity|];
           f_equal; eapply match_operator_split; exact H
       end.
  (* the rounds after it *)
  all: try (sub_scan IH).
  (* an error token: one character on *)
  all: try match goal with
       | Hs : Forall (op_at _ (?p + 1) ?r0) _, Hw : String ?x ?r0 = _ |- _ =>
           rewrite <- Hw;
           apply (Forall_op_at_shift _ _ (String x EmptyString) r0 _ (p + 1));
           [reflexivity|exact Hs]
       end.
  all: try (eapply shift_emit; [| |exact Hs]; cycle 1; [reflexivity|]).
  all: try (by (eapply span_eq; eassumption)).
  all: try (by (eapply match_operator_split; eassumption)).
  (* a continuation line *)
  all: try match goal with
       | Hp : String.prefix ?nl ?b = true
         |- Forall _ (scan_line _ _ _ (str_drop _ ?b) _ _).1 =>
           eapply (shift_emit _ _ _ _ (String c nl)); [| |apply IH];
           [rewrite (prefix_split _ _ Hp) at 1; reflexivity|cbn; lia]
       end.
  (* line ends *)
  all: try match goal with
       | H : (?x =? LF)%char = true |- String ?x _ = _ =>
           apply Ascii.eqb_eq in H; subst x; reflexivity
       | H : (?x =? CR)%char = true, Hp : String.prefix _ ?b = true |- String ?x ?b = _ =>
           apply Ascii.eqb_eq in H; subst x;
           rewrite (prefix_split _ _ Hp) at 1; reflexivity
       end.
  (* string literals *)
  - match goal with
    | Hp : String.prefix _ body' = true, Hf : find_triple_end _ _ = TripleFound _ _ |- _ =>
        pose proof (prefix_split _ _ Hp) as E; cbn [String.length] in E;
        rewrite (find_triple_end_eq _ _ _ _ Hf) in E; rewrite E; reflexivity
    end.
  - match goal with
    | Hsp : span _ body' = (_, String ?d _), Hd : (?d =? c)%char = true |- _ =>
        apply span_eq in Hsp; apply Ascii.eqb_eq in Hd; subst d; rewrite Hsp;
        by rewrite !string_app_cons, string_app_assoc
    end.
Qed.

Lemma stream_Forall_prepend (P : TokenInfo -> Prop) (tokens : list TokenInfo)
    (rest : token_stream) :
  stream_Forall P (prepend tokens rest) <-> Forall P tokens /\ stream_Forall P rest.
Proof.
  induction tokens as [|t tokens IH]; simpl.
  - split; [by split|by intros [_ ?]].
  - rewrite IH, Forall_cons. tauto.
Qed.

Lemma stream_Forall_impl (P Q : TokenInfo -> Prop) (ts : token_stream) :
  (forall t, P t -> Q t) -> stream_Forall P ts -> stream_Forall Q ts.
Proof. intros H. induction ts; simpl; [|done..]. intros [? ?]. split; auto. Qed.

Lemma measure_indent_eq (column pos : nat) (line : string) :
  exists ws, line = ws +:+ (measure_indent column pos line).2
             /\ (measure_indent column pos line).1.2 = pos + String.length ws.
Proof.
  revert column pos. induction line as [|c r IH]; intros column pos.
  - exists EmptyString. simpl. split; [done|lia].
  - cbn [measure_indent].
    destruct (c =? " ")%char.
    { destruct (IH (column + 1) (pos + 1)) as (ws & Hl & Hp).
      exists (String c ws). split; [by rewrite string_app_cons, <- Hl|].
      rewrite Hp. simpl. lia. }
    destruct (c =? TAB)%char.
    { destruct (IH ((column / 8 + 1) * 8) (pos + 1)) as (ws & Hl & Hp).
      exists (String c ws). split; [by rewrite string_app_cons, <- Hl|].
      rewrite Hp. simpl. lia. }
    destruct (c =? FF)%char.
    { destruct (IH 0 (pos + 1)) as (ws & Hl & Hp).
      exists (String c ws). split; [by rewrite string_app_cons, <- Hl|].
      rewrite Hp. simpl. lia. }
    exists EmptyString. simpl. split; [done|lia].
Qed.

Lemma after_scan_tokens (P : TokenInfo -> Prop) (before : list TokenInfo)
    (indents : list nat) (r : list TokenInfo * line_end) :
  Forall P before -> Forall P r.1 ->
  match after_scan before indents r with
  | NextLine tokens _ | Break tokens | Stop tokens _ => Forall P tokens
  end.
Proof.
  intros Hb Hr. destruct r as [tokens e]. simpl in Hr.
  destruct e; simpl; by apply Forall_app.
Qed.

Lemma dedent_no_op (lnum pos column : nat) (indents : list nat) (P : TokenInfo -> Prop) :
  (forall t, t_type t ≠ OP -> P t) ->
  Forall P (dedent lnum pos column indents).1.
Proof.
  intros HP. induction indents as [|top below IH]; simpl; [by constructor|].
  destruct (column <? top)%nat; [|by constructor].
  destruct (negb _); [by constructor|].
  destruct (dedent lnum pos column below) as [tokens r]. simpl in *.
  constructor; [by apply HP|done].
Qed.

Lemma tokenize_line_ops (lnum : nat) (line : string) (st : tok_state) :
  match tokenize_line lnum line st with
  | NextLine tokens _ | Break tokens | Stop tokens _ => Forall (op_at lnum 0 line) tokens
  end.
Proof.
  assert (forall t, t_type t ≠ OP -> op_at lnum 0 line t) as Hno.
  { intros t Ht Hop. done. }
  unfold tokenize_line.
  destruct (contstr st) as [[[contstr strstart] q]|].
  - destruct line as [|c0 line0]; [by constructor|]. cbv iota.
      set (line := String c0 line0) in *. clearbody line.
    destruct (find_triple_end q line) as [body after| |] eqn:Hf; try by constructor.
    apply find_triple_end_eq in Hf.
    apply after_scan_tokens.
    + constructor; [by apply Hno|constructor].
    + rewrite Hf. eapply Forall_op_at_shift; [|apply scan_line_ops]. reflexivity.
  - destruct ((parenlev st =? 0)%Z && negb (continued st)).
    + destruct line as [|c0 line0]; [by constructor|]. cbv iota.
      set (line := String c0 line0) in *. clearbody line.
      destruct (measure_indent_eq 0 0 line) as (ws & Hl & Hp).
      destruct (measure_indent 0 0 line) as [[column pos] rest]. simpl in Hl, Hp.
      destruct rest as [|c rest']; [by constructor|].
      destruct (char_in c _).
      * destruct (c =? "#")%char.
        -- destruct (rstrip_crlf (String c rest')) as [comment nl].
           repeat constructor; by apply Hno.
        -- repeat constructor; by apply Hno.
      * destruct (match indents st with
                  | top :: _ =>
                      if (top <? column)%nat
                      then ([mkToken INDENT (str_take pos line) (lnum, 0) (lnum, pos)],
                            column :: indents st)
                      else ([], indents st)
                  | [] => ([], indents st)
                  end) as [indent_tokens indents1] eqn:Hi.
        assert (Forall (op_at lnum 0 line) indent_tokens) as Hit.
        { destruct (indents st) as [|top below].
          - injection Hi as <- <-. constructor.
          - destruct (top <? column)%nat; injection Hi as <- <-;
              repeat constructor; by apply Hno. }
        pose proof (dedent_no_op lnum pos column indents1 _ Hno) as Hd.
        destruct (dedent lnum pos column indents1) as [dedent_tokens indents2].
        simpl in Hd.
        destruct indents2 as [indents2|]; [|by apply Forall_app].
        apply after_scan_tokens; [by apply Forall_app|].
        rewrite Hl. eapply Forall_op_at_shift; [|apply scan_line_ops]. done.
    + destruct line as [|c0 line0]; [by constructor|]. cbv iota.
      set (line := String c0 line0) in *. clearbody line.
      apply after_scan_tokens; [constructor|apply scan_line_ops].
Qed.

Lemma epilogue_no_op (lnum : nat) (last_line : string) (indents : list nat)
    (P : TokenInfo -> Prop) :
  (forall t, t_type t ≠ OP -> P t) -> stream_Forall P (epilogue lnum last_line indents).
Proof.
  intros HP. unfold epilogue. apply stream_Forall_prepend. split; [|done].
  apply Forall_app. split.
  - destruct (str_last last_line) as [c|]; [|constructor].
    destruct (negb _ && negb _); repeat constructor. by apply HP.
  - apply Forall_app. split; [|repeat constructor; by apply HP].
    apply Forall_forall. intros t Ht. apply list_elem_of_fmap in Ht as (x & -> & _).
    by apply HP.
Qed.

Lemma tokenize_loop_rows (lines : list string) (lnum : nat) (st : tok_state)
    (last_line : string) :
  stream_Forall (fun t => t_type t = OP -> lnum <= fst (t_start t))
    (tokenize_loop lines lnum st last_line).
Proof.
  assert (forall n t, t_type t ≠ OP -> t_type t = OP -> n <= fst (t_start t)) as Hno by done.
  assert (forall n line tokens, Forall (op_at n 0 line) tokens ->
            Forall (fun t => t_type t = OP -> n <= fst (t_start t)) tokens) as Hrow.
  { intros n line tokens H. eapply Forall_impl; [exact H|].
    intros t Ht Hop. destruct (Ht Hop) as [-> _]. done. }
  revert lnum st last_line. induction lines as [|line lines IH]; intros lnum st last_line.
  - cbn [tokenize_loop]. pose proof (tokenize_line_ops lnum EmptyString st) as H.
    destruct (tokenize_line lnum EmptyString st) as [tokens st'|tokens|tokens [e|]];
      apply stream_Forall_prepend; (split; [by eapply Hrow|]); try done.
    apply epilogue_no_op. intros t. apply Hno.
  - cbn [tokenize_loop]. pose proof (tokenize_line_ops lnum line st) as H.
    destruct (tokenize_line lnum line st) as [tokens st'|tokens|tokens [e|]];
      apply stream_Forall_prepend; (split; [by eapply Hrow|]); try done.
    + eapply stream_Forall_impl; [|apply IH]. intros t Ht Hop. specialize (Ht Hop). lia.
    + apply epilogue_no_op. intros t. apply Hno.
Qed.

Lemma readlines_head (text l1 : string) (ls : list string) :
  readlines text = l1 :: ls -> exists tail, text = l1 +:+ tail.
Proof.
  revert l1 ls. induction text as [|c r IH]; intros l1 ls; [done|].
  cbn [readlines]. destruct (c =? LF)%char.
  - intros [= <- <-]. by exists r.
  - destruct (readlines r) as [|l ls'] eqn:E.
    + intros [= <- <-]. destruct r as [|d r]; [by exists EmptyString|].
      exfalso. cbn [readlines] in E. destruct (d =? LF)%char; [done|].
      by destruct (readlines r).
    + intros [= <- <-]. destruct (IH l ls' eq_refl) as [tail ->]. by exists tail.
Qed.

Lemma generate_tokens_ops (text : string) :
  stream_Forall (op_in_text text) (generate_tokens text).
Proof.
  unfold generate_tokens. destruct (readlines text) as [|l1 ls] eqn:Hr.
  - cbn [tokenize_loop]. change (tokenize_line 1 EmptyString initial_state) with (Break []).
    apply epilogue_no_op. by intros t Ht Hop.
  - apply readlines_head in Hr as [tail ->].
    cbn [tokenize_loop]. pose proof (tokenize_line_ops 1 l1 initial_state) as H.
    assert (forall tokens, Forall (op_at 1 0 l1) tokens ->
              Forall (op_in_text (l1 +:+ tail)) tokens) as Hfirst.
    { intros tokens Ht. eapply Forall_impl; [exact Ht|].
      intros t Hat Hop _. destruct (Hat Hop) as (_ & head & tl & -> & Hcol).
      exists head, (tl +:+ tail). split; [by rewrite !string_app_assoc|]. by rewrite Hcol. }
    destruct (tokenize_line 1 l1 initial_state) as [tokens st'|tokens|tokens [e|]];
      apply stream_Forall_prepend; (split; [by apply Hfirst|]);
      [|apply epilogue_no_op; by intros t Ht Hop|done..].
    eapply stream_Forall_impl; [|apply tokenize_loop_rows].
    intros t Ht Hop Hrow. specialize (Ht Hop). lia.
Qed.

Lemma str_drop_app (a b : string) : str_drop (String.length a) (a +:+ b) = b.
Proof. induction a as [|x a IH]; [done|]. by rewrite string_app_cons. Qed.

Lemma prefix_app (a b : string) : String.prefix a (a +:+ b) = true.
Proof.
  induction a as [|x a IH]; [by destruct b|]. rewrite string_app_cons. cbn [String.prefix].
  by destruct (ascii_dec x x).
Qed.

(** C1, as the code has it.  Take any accumulated text, and a [[] or [{]
    operator token of it that is on the first line of the text and that the
    loop reaches with the values so far ending in the marker of an [=] and
    with nothing pending.  Then the token stands in the text at its column,
    and what [eval] is given is the text from that bracket on, to the end of
    the accumulated text.  The value [eval] returns is stringized, so that
    its leaves are strings, and appended as the last value of the statement,
    and the scan stops there; an exception of [eval] is passed on by the
    scan.  [parse_values] takes an exception that its [except] clause
    catches ([SyntaxError], [TokenError]) for an unfinished statement: it
    keeps the accumulated text and reads on; any other exception it lets
    out. *)
Theorem structural_literal_evaluated (source_name : string) (line_number : nat)
    (buffer : string) (pre : list TokenInfo) (tok : TokenInfo) (rest : token_stream)
    (values : list pyval) :
  generate_tokens buffer = prepend pre (TCons tok rest) ->
  (forall ts, scan_tokens source_name line_number buffer (prepend pre ts) [] None
              = scan_tokens source_name line_number buffer ts values None) ->
  t_type tok = OP ->
  t_string tok = "[" \/ t_string tok = "{" ->
  fst (t_start tok) = 1 ->
  last values = Some ASSIGNMENT ->
  exists head text,
    buffer = head +:+ text
    /\ String.length head = snd (t_start tok)
    /\ String.prefix (t_string tok) text = true
    /\ scan_tokens source_name line_number buffer (generate_tokens buffer) [] None
       = match pyeval.py_eval text with
         | Ok value => Ok (values ++ [stringize value])
         | Raise e => Raise e
         | Unmodelled => Unmodelled
         end
    /\ (forall value, leaves_are_str (stringize value) = true)
    /\ forall (st : pv_state) (line : string),
         combined_lines st +:+ line = buffer ->
         parse_values_step source_name st line_number line
         = let number :=
             if String.eqb (combined_lines st) EmptyString then line_number
             else combined_lines_number st in
           match pyeval.py_eval text with
           | Ok value =>
               Ok (mkPv EmptyString number
                     (parse st ++ [(number, values ++ [stringize value])]))
           | Raise e => if caught e then Ok (mkPv buffer number (parse st)) else Raise e
           | Unmodelled => Unmodelled
           end.
Proof.
  intros Hgen Hpre Hty Hs Hrow Hlast.
  pose proof (generate_tokens_ops buffer) as Hops. rewrite Hgen in Hops.
  apply stream_Forall_prepend in Hops as [_ [Htok _]].
  destruct (Htok Hty Hrow) as (head & tail & Hbuf & Hcol).
  exists head, (t_string tok +:+ tail).
  assert (scan_tokens source_name line_number buffer (generate_tokens buffer) [] None
          = match pyeval.py_eval (t_string tok +:+ tail) with
            | Ok value => Ok (values ++ [stringize value])
            | Raise e => Raise e
            | Unmodelled => Unmodelled
            end) as Hscan.
  { rewrite Hgen, Hpre, scan_tokens_cons.
    replace (str_drop (t_start tok).2 buffer) with (t_string tok +:+ tail)
      by (rewrite <- Hcol, Hbuf; symmetry; apply str_drop_app).
    rewrite Hty.
    unfold last_is_ASSIGNMENT. rewrite Hlast.
    destruct Hs as [-> | ->]; reflexivity. }
  split; [done|]. split; [done|]. split; [apply prefix_app|].
  split; [done|]. split; [apply stringize_leaves|].
  intros st line Hline. unfold parse_values_step. rewrite Hline, Hscan.
  by destruct (pyeval.py_eval _).
Qed.

Lemma structural_literal_evaluated_witness :
  (scan_tokens "f" 1 (ln "t x = [1+2, 'a']") (generate_tokens (ln "t x = [1+2, 'a']")) [] None
   = Ok [VStr "t"; VStr "x"; ASSIGNMENT; VList [VStr "3"; VStr "a"]]
   /\ parse_values_step "f" (mkPv EmptyString 1 []) 1 (ln "t x = [1+2, 'a']")
      = Ok (mkPv EmptyString 1
              [(1, [VStr "t"; VStr "x"; ASSIGNMENT; VList [VStr "3"; VStr "a"]])]))
  /\ (scan_tokens "f" 1 (ln "v4 = [7,") (generate_tokens (ln "v4 = [7,")) [] None
      = Raise SyntaxError
      /\ parse_values_step "f" (mkPv EmptyString 1 []) 1 (ln "v4 = [7,")
         = Ok (mkPv (ln "v4 = [7,") 1 [])).
Proof.
  split.
  - destruct (structural_literal_evaluated "f" 1 (ln "t x = [1+2, 'a']")
                [mkToken NAME "t" (1, 0) (1, 1); mkToken NAME "x" (1, 2) (1, 3);
                 mkToken OP "=" (1, 4) (1, 5)]
                (mkToken OP "[" (1, 6) (1, 7))
                (prepend
                   [mkToken NUMBER "1" (1, 7) (1, 8); mkToken OP "+" (1, 8) (1, 9);
                    mkToken NUMBER "2" (1, 9) (1, 10); mkToken OP "," (1, 10) (1, 11);
                    mkToken STRING "'a'" (1, 12) (1, 15); mkToken OP "]" (1, 15) (1, 16);
                    mkToken NEWLINE (String LF EmptyString) (1, 16) (1, 17);
                    mkToken ENDMARKER EmptyString (2, 0) (2, 0)] TEnd)
                [VStr "t"; VStr "x"; ASSIGNMENT])
      as (head & text & Hbuf & Hcol & _ & Hscan & _ & Hstep).
    + vm_compute. reflexivity.
    + intros ts. reflexivity.
    + reflexivity.
    + left. reflexivity.
    + reflexivity.
    + reflexivity.
    + assert (text = str_drop 6 (ln "t x = [1+2, 'a']")) as ->.
      { change 6 with (snd (t_start (mkToken OP "[" (1, 6) (1, 7)))).
        rewrite <- Hcol, Hbuf. symmetry. apply str_drop_app. }
      split.
      * rewrite Hscan. vm_compute. reflexivity.
      * rewrite (Hstep (mkPv EmptyString 1 []) (ln "t x = [1+2, 'a']") eq_refl).
        vm_compute. reflexivity.
  - destruct (structural_literal_evaluated "f" 1 (ln "v4 = [7,")
                [mkToken NAME "v4" (1, 0) (1, 2); mkToken OP "=" (1, 3) (1, 4)]
                (mkToken OP "[" (1, 5) (1, 6))
                (prepend
                   [mkToken NUMBER "7" (1, 6) (1, 7); mkToken OP "," (1, 7) (1, 8);
                    mkToken NL (String LF EmptyString) (1, 8) (1, 9)] (TRaise TokenError))
                [VStr "v4"; ASSIGNMENT])
      as (head & text & Hbuf & Hcol & _ & Hscan & _ & Hstep).
    + vm_compute. reflexivity.
    + intros ts. reflexivity.
    + reflexivity.
    + left. reflexivity.
    + reflexivity.
    + reflexivity.
    + assert (text = str_drop 5 (ln "v4 = [7,")) as ->.
      { change 5 with (snd (t_start (mkToken OP "[" (1, 5) (1, 6)))).
        rewrite <- Hcol, Hbuf. symmetry. apply str_drop_app. }
      split.
      * rewrite Hscan. vm_compute. reflexivity.
      * rewrite (Hstep (mkPv EmptyString 1 []) (ln "v4 = [7,") eq_refl).
        vm_compute. reflexivity.
Defined.
